(** * aws-cli-oidc: the authentication / exchange flow of [lib/auth.go]

    A shallow embedding of [Authenticate], [isValid], [doLogin], [launch]
    and [codeToToken] together with the collaborators they call.  The
    collaborators (configuration, secret store, STS, browser, token
    endpoint, entropy) are gathered in a read-only [World]; every call the
    Go code makes to one of them is recorded as an [Event] of the run's
    trace, so that statements such as "no browser launch happens" or "the
    listener is bound before the browser is opened" become statements about
    traces. *)

From Stdlib Require Import ZArith String Ascii List Bool Lia.
From stdpp Require Import base option list gmap strings relations.
Import ListNotations.

Local Open Scope string_scope.
Local Open Scope Z_scope.

(** ** Go strings as byte sequences *)

Definition byte_of_ascii (c : ascii) : Z := Z.of_N (N_of_ascii c).

Fixpoint bytes_of_string (s : string) : list Z :=
  match s with
  | EmptyString => []
  | String c rest => byte_of_ascii c :: bytes_of_string rest
  end.

(** [strings.Replace(s, old, new, -1)] for one-character [old], with a
    one-character or an empty [new]. *)
Fixpoint replace_char (old new : ascii) (s : string) : string :=
  match s with
  | EmptyString => EmptyString
  | String c rest =>
      String (if Ascii.eqb c old then new else c) (replace_char old new rest)
  end.

Fixpoint remove_char (old : ascii) (s : string) : string :=
  match s with
  | EmptyString => EmptyString
  | String c rest =>
      if Ascii.eqb c old then remove_char old rest
      else String c (remove_char old rest)
  end.

(** [contains sub s]: [sub] occurs in [s]. *)
Definition contains (sub s : string) : Prop :=
  exists pre post : string, s = pre +:+ sub +:+ post.

(** ** [encoding/base64], standard alphabet with padding *)

Module base64.

Definition encodeStd : string :=
  "ABCDEFGHIJKLMNOPQRSTUVWXYZabcdefghijklmnopqrstuvwxyz0123456789+/".

Definition encodeURL : string :=
  "ABCDEFGHIJKLMNOPQRSTUVWXYZabcdefghijklmnopqrstuvwxyz0123456789-_".

Record Encoding := {
  alphabet : string;
  padChar : option ascii
}.

Definition StdEncoding : Encoding :=
  {| alphabet := encodeStd; padChar := Some "="%char |}.

Definition RawURLEncoding : Encoding :=
  {| alphabet := encodeURL; padChar := None |}.

Definition enc (e : Encoding) (i : Z) : ascii :=
  match String.get (Z.to_nat i) (alphabet e) with
  | Some c => c
  | None => "A"%char
  end.

Definition padded (e : Encoding) (tail : string) : string :=
  match padChar e with
  | Some c => String c tail
  | None => tail
  end.

(** [EncodeToString]: three source bytes become four characters; a
    remainder of one or two bytes becomes two or three characters, filled
    up to four by an encoding that pads. *)
Fixpoint EncodeToString (e : Encoding) (src : list Z) : string :=
  match src with
  | [] => EmptyString
  | [b0] =>
      let val := Z.shiftl b0 16 in
      String (enc e (Z.land (Z.shiftr val 18) 63))
        (String (enc e (Z.land (Z.shiftr val 12) 63))
           (padded e (padded e EmptyString)))
  | [b0; b1] =>
      let val := Z.lor (Z.shiftl b0 16) (Z.shiftl b1 8) in
      String (enc e (Z.land (Z.shiftr val 18) 63))
        (String (enc e (Z.land (Z.shiftr val 12) 63))
           (String (enc e (Z.land (Z.shiftr val 6) 63))
              (padded e EmptyString)))
  | b0 :: b1 :: b2 :: rest =>
      let val := Z.lor (Z.lor (Z.shiftl b0 16) (Z.shiftl b1 8)) b2 in
      String (enc e (Z.land (Z.shiftr val 18) 63))
        (String (enc e (Z.land (Z.shiftr val 12) 63))
           (String (enc e (Z.land (Z.shiftr val 6) 63))
              (String (enc e (Z.land val 63)) (EncodeToString e rest))))
  end.

End base64.

(** ** [crypto/sha256] (FIPS 180-4), on 32-bit words held in [Z] *)

Module sha256.

Definition W32 : Z := 2 ^ 32.

Definition add32 (x y : Z) : Z := (x + y) mod W32.

Definition rotr (n x : Z) : Z :=
  Z.lor (Z.shiftr x n) (Z.shiftl x (32 - n) mod W32).

Definition not32 (x : Z) : Z := W32 - 1 - x.

Definition Ch (x y z : Z) : Z := Z.lxor (Z.land x y) (Z.land (not32 x) z).
Definition Maj (x y z : Z) : Z :=
  Z.lxor (Z.lxor (Z.land x y) (Z.land x z)) (Z.land y z).
Definition bsig0 (x : Z) : Z := Z.lxor (Z.lxor (rotr 2 x) (rotr 13 x)) (rotr 22 x).
Definition bsig1 (x : Z) : Z := Z.lxor (Z.lxor (rotr 6 x) (rotr 11 x)) (rotr 25 x).
Definition ssig0 (x : Z) : Z := Z.lxor (Z.lxor (rotr 7 x) (rotr 18 x)) (Z.shiftr x 3).
Definition ssig1 (x : Z) : Z := Z.lxor (Z.lxor (rotr 17 x) (rotr 19 x)) (Z.shiftr x 10).

(** The round constants are the first 32 fractional bits of the cube roots
    of the first 64 primes, the initial hash value those of the square
    roots of the first 8. *)
Definition primes : list Z :=
  [2; 3; 5; 7; 11; 13; 17; 19; 23; 29; 31; 37; 41; 43; 47; 53;
   59; 61; 67; 71; 73; 79; 83; 89; 97; 101; 103; 107; 109; 113; 127; 131;
   137; 139; 149; 151; 157; 163; 167; 173; 179; 181; 191; 193; 197; 199;
   211; 223; 227; 229; 233; 239; 241; 251; 257; 263; 269; 271; 277; 281;
   283; 293; 307; 311].

Fixpoint icbrt_from (bits : nat) (n r : Z) : Z :=
  match bits with
  | O => r
  | S b =>
      let c := r + 2 ^ Z.of_nat b in
      if c * c * c <=? n then icbrt_from b n c else icbrt_from b n r
  end.

Definition frac_cbrt (p : Z) : Z := icbrt_from 40 (p * 2 ^ 96) 0 mod W32.
Definition frac_sqrt (p : Z) : Z := Z.sqrt (p * 2 ^ 64) mod W32.

Definition K : list Z := Eval vm_compute in List.map frac_cbrt primes.
Definition H0 : list Z := Eval vm_compute in List.map frac_sqrt (firstn 8 primes).

(** Padding: a [0x80] byte, zeros up to 56 mod 64, the bit length as a
    big-endian 64-bit integer. *)
Definition be_bytes (n : nat) (x : Z) : list Z :=
  List.map (fun i => Z.land (Z.shiftr x (8 * Z.of_nat (n - 1 - i))) 255) (seq 0 n).

Definition pad (msg : list Z) : list Z :=
  let len := Z.of_nat (length msg) in
  let zeros := Z.to_nat ((55 - len) mod 64) in
  msg ++ [128] ++ repeat 0 zeros ++ be_bytes 8 (8 * len).

Fixpoint words_of_bytes (bs : list Z) : list Z :=
  match bs with
  | b0 :: b1 :: b2 :: b3 :: rest =>
      Z.lor (Z.lor (Z.lor (Z.shiftl b0 24) (Z.shiftl b1 16)) (Z.shiftl b2 8)) b3
        :: words_of_bytes rest
  | _ => []
  end.

Definition word (ws : list Z) (i : nat) : Z := nth i ws 0.

(** Message schedule: [w] holds the words computed so far, newest last. *)
Fixpoint schedule (n : nat) (w : list Z) : list Z :=
  match n with
  | O => w
  | S m =>
      let t := length w in
      let x := add32 (add32 (ssig1 (word w (t - 2))) (word w (t - 7)))
                     (add32 (ssig0 (word w (t - 15))) (word w (t - 16))) in
      schedule m (w ++ [x])
  end.

Record regs := Regs { ra : Z; rb : Z; rc : Z; rd : Z; re : Z; rf : Z; rg : Z; rh : Z }.

Definition round (s : regs) (kw : Z * Z) : regs :=
  let t1 := add32 (add32 (add32 (add32 (rh s) (bsig1 (re s))) (Ch (re s) (rf s) (rg s)))
                         (fst kw)) (snd kw) in
  let t2 := add32 (bsig0 (ra s)) (Maj (ra s) (rb s) (rc s)) in
  Regs (add32 t1 t2) (ra s) (rb s) (rc s) (add32 (rd s) t1) (re s) (rf s) (rg s).

Definition block (h : regs) (ws : list Z) : regs :=
  let w := schedule 48 ws in
  let s := fold_left round (combine K w) h in
  Regs (add32 (ra h) (ra s)) (add32 (rb h) (rb s)) (add32 (rc h) (rc s))
       (add32 (rd h) (rd s)) (add32 (re h) (re s)) (add32 (rf h) (rf s))
       (add32 (rg h) (rg s)) (add32 (rh h) (rh s)).

Fixpoint blocks (n : nat) (h : regs) (ws : list Z) : regs :=
  match n with
  | O => h
  | S m => blocks m (block h (firstn 16 ws)) (skipn 16 ws)
  end.

Definition init : regs :=
  Regs (word H0 0) (word H0 1) (word H0 2) (word H0 3)
       (word H0 4) (word H0 5) (word H0 6) (word H0 7).

(** [Sum256]: the 32-byte digest. *)
Definition Sum256 (msg : list Z) : list Z :=
  let ws := words_of_bytes (pad msg) in
  let h := blocks (length ws / 16) init ws in
  flat_map (be_bytes 4) [ra h; rb h; rc h; rd h; re h; rf h; rg h; rh h].

End sha256.

(** ** Errors *)

(** A Go [error] is kept as the text its [Error()] method returns. *)
Definition Error : Type := string.

(** [errors.Wrap(err, message)] *)
Definition Wrap (err : Error) (message : string) : Error :=
  message +:+ ": " +:+ err.

(** ** Package [pkce] *)

(** Modelled from the spec: package [pkce]
    (github.com/nirasan/go-oauth-pkce-code-verifier) is a dependency whose
    source is not part of the repository.  The spec fixes its interface: a
    random, URL-safe verifier of 43 to 128 characters and a challenge that is
    "SHA-256 + base64url of verifier".  Following RFC 7636, section 4.1, the
    verifier is the unpadded base64url text of [length] random octets with
    [MinLength <= length <= MaxLength]; the octets come from the entropy
    source handed in by the caller. *)
Module pkce.

Definition MinLength : Z := 32.
Definition MaxLength : Z := 96.

Record CodeVerifier := { Value : string }.

Definition encode (msg : list Z) : string :=
  let encoded := base64.EncodeToString base64.StdEncoding msg in
  let encoded := replace_char "+" "-" encoded in
  let encoded := replace_char "/" "_" encoded in
  remove_char "=" encoded.

Definition randomBytes (src : nat -> Z) (n : nat) : list Z :=
  List.map (fun i => src i mod 256) (seq 0 n).

Definition CreateCodeVerifierFromBytes (b : list Z) : CodeVerifier :=
  {| Value := encode b |}.

Definition CreateCodeVerifierWithLength
    (src : nat -> Z) (src_err : option Error) (length : Z)
    : Error + CodeVerifier :=
  if (length <? MinLength) || (MaxLength <? length) then inl "invalid length"
  else match src_err with
       | Some err => inl ("failed to generate random bytes: " +:+ err)
       | None => inr (CreateCodeVerifierFromBytes (randomBytes src (Z.to_nat length)))
       end.

Definition CodeChallengeS256 (v : CodeVerifier) : string :=
  encode (sha256.Sum256 (bytes_of_string (Value v))).

Definition String (v : CodeVerifier) : string := Value v.

End pkce.

(** ** [strconv.ParseInt(s, 10, 64)] *)

Module strconv.

Inductive NumError := ErrSyntax | ErrRange.

Definition digit (c : ascii) : option Z :=
  let n := byte_of_ascii c in
  if (48 <=? n) && (n <=? 57) then Some (n - 48) else None.

Fixpoint digits (s : string) (acc : Z) : option Z :=
  match s with
  | EmptyString => Some acc
  | String c rest =>
      match digit c with
      | Some d => digits rest (acc * 10 + d)
      | None => None
      end
  end.

Definition maxUint64 : Z := 2 ^ 64 - 1.

(** [ParseUint(s, 10, 64)]: the value and the error, as Go returns both. *)
Definition ParseUint (s : string) : Z * option NumError :=
  match s with
  | EmptyString => (0, Some ErrSyntax)
  | _ =>
      match digits s 0 with
      | None => (0, Some ErrSyntax)
      | Some n => if maxUint64 <? n then (maxUint64, Some ErrRange) else (n, None)
      end
  end.

Definition ParseInt (s : string) : Z * option NumError :=
  match s with
  | EmptyString => (0, Some ErrSyntax)
  | String c0 rest =>
      let neg := Ascii.eqb c0 "-" in
      let s' := if Ascii.eqb c0 "+" || neg then rest else s in
      let '(un, err) := ParseUint s' in
      match err with
      | Some ErrSyntax => (0, Some ErrSyntax)
      | _ =>
          let cutoff := 2 ^ 63 in
          if negb neg && (cutoff <=? un) then (cutoff - 1, Some ErrRange)
          else if neg && (cutoff <? un) then (- cutoff, Some ErrRange)
          else (if neg then - un else un, None)
      end
  end.

End strconv.

(** ** Configuration keys ([lib/config.go]) *)

Definition OIDC_PROVIDER_METADATA_URL : string := "oidc_provider_metadata_url".
Definition CLIENT_ID : string := "client_id".
Definition CLIENT_SECRET : string := "client_secret".
Definition MAX_SESSION_DURATION_SECONDS : string := "max_session_duration_seconds".
Definition DEFAULT_IAM_ROLE_ARN : string := "default_iam_role_arn".

(** ** Data model *)

(** Modelled from the spec: the declaration of [AWSCredentials] is not in
    the source at hand; the fields are those [Authenticate] and [isValid]
    read and write, with the expiration the spec lists. *)
Record AWSCredentials := {
  AWSAccessKey : string;
  AWSSecretKey : string;
  AWSSessionToken : string;
  Expires : Z;
  Version : Z
}.

Definition set_Version (v : Z) (c : AWSCredentials) : AWSCredentials :=
  {| AWSAccessKey := AWSAccessKey c; AWSSecretKey := AWSSecretKey c;
     AWSSessionToken := AWSSessionToken c; Expires := Expires c; Version := v |}.

(** Modelled from the spec: the declaration of [TokenResponse] is not in the
    source at hand; [auth.go] reads [IDToken] only, the other fields are the
    spec's. *)
Record TokenResponse := {
  IDToken : string;
  AccessToken : string;
  TokenType : string;
  ExpiresIn : Z
}.

(** The zero value a [var tokenResponse TokenResponse] starts with. *)
Definition zeroTokenResponse : TokenResponse :=
  {| IDToken := ""; AccessToken := ""; TokenType := ""; ExpiresIn := 0 |}.

(** [url.Values]: a map from a key to its values. *)
Abbreviation Values := (gmap string (list string)).

(** [Values.Get]: the first value of the key, the empty string without one. *)
Definition Get (v : Values) (key : string) : string :=
  match v !! key with
  | Some (x :: _) => x
  | _ => ""
  end.

(** [Values.Set]: the key now has exactly this value. *)
Definition Set_ (key value : string) (v : Values) : Values :=
  <[key := [value]]> v.

(** What a JSON document decodes to in a [map[string]interface{}]: a string,
    [nil], or any other dynamic value (bool, float64, slice, map), the latter
    kept as the text [fmt] prints for it under the verb [%s]. *)
Inductive GoValue :=
| VString (s : string)
| VNil
| VOther (printed : string).

(** [fmt]'s [%s] on an [interface{}] operand. *)
Definition fmt_s (v : GoValue) : string :=
  match v with
  | VString s => s
  | VNil => "%!s(<nil>)"
  | VOther printed => printed
  end.

(** Indexing a Go map: a missing key yields the zero value, [nil]. *)
Definition index (m : gmap string GoValue) (key : string) : GoValue :=
  default VNil (m !! key).

(** The request builder of the [rest] package (not in the source at hand),
    as the endpoint and the query parameters added so far. *)
Record WebTarget := {
  endpoint : string;
  query : list (string * string)
}.

Definition QueryParam (name value : string) (t : WebTarget) : WebTarget :=
  {| endpoint := endpoint t; query := query t ++ [(name, value)] |}.

(** The values a query parameter has in a built request. *)
Definition param (name : string) (t : WebTarget) : list string :=
  List.map snd (List.filter (fun kv => String.eqb (fst kv) name) (query t)).

(** The response of the [rest] package (not in the source at hand), by what
    its methods return: [ReadJson] into a [map[string]interface{}] gives the
    map or an error, [ReadJson] into a [TokenResponse] updates the target
    and may report an error. *)
Record Response := {
  Status : Z;
  MediaType : string;
  ReadJson_map : Error + gmap string GoValue;
  ReadJson_token : TokenResponse -> TokenResponse * option Error
}.

(** The redirect callback as the handler sees it. *)
Record Request := {
  Method : string;
  Path : string;
  Query : Values
}.

Record Page := {
  header : gmap string string;
  status : Z;
  body : string
}.

(** ** The collaborators *)

Record World := {
  (** [client.config], a [viper] sub-tree *)
  config : gmap string string;
  (** [client.Authorization()] and [client.ClientForm()] *)
  Authorization : WebTarget;
  ClientForm : Values;
  (** the secret store: [AWSCredential(roleArn)] *)
  AWSCredential : string -> option AWSCredentials * option Error;
  (** STS: [session.NewSession()] and [GetCallerIdentity] under static
      credentials (access key, secret key, session token) *)
  NewSession : option Error;
  GetCallerIdentity : string -> string -> string -> option Error;
  (** [net.Listen(network, address)] *)
  Listen : string -> string -> option Error;
  (** entropy for the PKCE verifier *)
  entropy : nat -> Z;
  entropy_err : option Error;
  (** [browser.OpenURL] *)
  OpenURL : WebTarget -> option Error;
  (** the redirect callback whose handler reaches the channel send first,
      if any request arrives at all *)
  callback : option Request;
  (** the token endpoint: [client.Token().Request().Form(form).Post()] *)
  Post : Values -> Error + Response;
  (** [GetCredentialsWithOIDC(client, idToken, roleArn, duration)] *)
  GetCredentialsWithOIDC : string -> string -> Z -> Error + AWSCredentials;
  (** [json.Marshal] of a credential *)
  Marshal : AWSCredentials -> Error + string
}.

(** [viper]'s [GetString]: the empty string for a key that is not set. *)
Definition GetString (w : World) (key : string) : string :=
  default "" (config w !! key).

(** ** Effects: traces and outcomes *)

Inductive TraceArg :=
| TString (s : string)
| TForm (form : Values).

Inductive Event :=
| EvAWSCredential (roleArn : string)
| EvNewSession
| EvGetCallerIdentity (accessKey secretKey sessionToken : string)
| EvListen (network address : string)
| EvCreateCodeVerifier (length : Z)
| EvHandleFunc (pattern : string)
| EvServe (address : string)
| EvOpenURL (url : WebTarget)
| EvCallback (req : Request) (page : Page)
| EvShutdown (address : string)
| EvPost (form : Values)
| EvGetCredentialsWithOIDC (idToken roleArn : string) (duration : Z)
| EvSaveAWSCredential (roleArn : string) (cred : AWSCredentials)
| EvWriteln (msg : string)
| EvWrite (msg : string)
| EvTraceln (msg : string) (arg : TraceArg)
| EvPrintln (line : string)
| EvExport (key value : string)
| EvExit (err : Error).

(** How a run ends: with a value, in [Exit] (the process stops), blocked on
    a channel receive no goroutine will ever serve, or in a nil
    dereference. *)
Inductive Res (A : Type) :=
| Ret (a : A)
| Exited (err : Error)
| Blocked
| Panicked.
Arguments Ret {A} a.
Arguments Exited {A} err.
Arguments Blocked {A}.
Arguments Panicked {A}.

Definition Run (A : Type) : Type := list Event * Res A.

Definition trace {A} (r : Run A) : list Event := fst r.
Definition result {A} (r : Run A) : Res A := snd r.

#[global] Instance Run_ret : MRet Run := fun A a => ([], Ret a).

#[global] Instance Run_bind : MBind Run := fun A B f m =>
  match m with
  | (t, Ret a) => let '(t', r) := f a in ((t ++ t')%list, r)
  | (t, Exited err) => (t, Exited err)
  | (t, Blocked) => (t, Blocked)
  | (t, Panicked) => (t, Panicked)
  end.

Definition emit (e : Event) : Run unit := ([e], Ret tt).

(** Helpers of the package that are not in the source at hand, by their
    effect. *)
Definition Writeln (msg : string) : Run unit := emit (EvWriteln msg).
Definition Write (msg : string) : Run unit := emit (EvWrite msg).
Definition Traceln (msg : string) (arg : TraceArg) : Run unit := emit (EvTraceln msg arg).
Definition Export (key value : string) : Run unit := emit (EvExport key value).
Definition Println (line : string) : Run unit := emit (EvPrintln line).
Definition Exit {A} (err : Error) : Run A := ([EvExit err], Exited err).

Definition nonempty (s : string) : bool := negb (String.eqb s "").

(** ** [isValid] *)

Definition isValid (w : World) (cred : option AWSCredentials) : Run bool :=
  match cred with
  | None => mret false
  | Some cred =>
      emit EvNewSession;;
      match NewSession w with
      | Some err => Writeln "Failed to create aws client session";; Exit err
      | None =>
          emit (EvGetCallerIdentity (AWSAccessKey cred) (AWSSecretKey cred)
                                    (AWSSessionToken cred));;
          match GetCallerIdentity w (AWSAccessKey cred) (AWSSecretKey cred)
                                  (AWSSessionToken cred) with
          | Some err => Writeln "The previous credential isn't valid";; mret false
          | None => mret true
          end
      end
  end.

(** ** The redirect handler of [launch] *)

Definition nl : string := String (ascii_of_nat 10) EmptyString.

(** The [Sprintf] template of the result page. *)
Definition page_body (message : string) : string :=
  "<!DOCTYPE html>" +:+ nl +:+ "<body>" +:+ nl +:+ message +:+ nl
  +:+ "</body>" +:+ nl +:+ "</html>" +:+ nl.

(** The handler: the page it writes and the code it sends on the channel. *)
Definition handler (req : Request) : Page * string :=
  let q := Query req in
  let code := Get q "code" in
  let message := "Login " in
  let message :=
    if nonempty code then message +:+ "successful" else message +:+ "failed" in
  ({| header := <["Pragma" := "no-cache"]>
                  (<["Cache-Control" := "no-store"]>
                     (<["Content-Type" := "text/html"]> ∅));
      status := 200;
      body := page_body message |},
   code).

(** ** [launch] *)

(** [code = <-c]: the main flow takes what the handler sends; with no
    callback nothing is ever sent and the receive does not return. *)
Definition receive (w : World) : Run string :=
  match callback w with
  | Some req =>
      let '(page, code) := handler req in
      emit (EvCallback req page);; mret code
  | None => ([], Blocked)
  end.

Definition launch (w : World) (url : WebTarget) (listener : string) : Run string :=
  emit (EvHandleFunc "/");;
  emit (EvServe listener);;
  emit (EvOpenURL url);;
  code ← match OpenURL w url with
          | None => receive w
          | Some _ => mret ""
          end;
  (* deferred: srv.Shutdown(ctx), ctx expiring after five seconds *)
  emit (EvShutdown listener);;
  mret code.

(** ** [codeToToken] *)

Definition exchange_failed : string := "Failed to turn code into token".

Definition codeToToken (w : World) (verifier code redirect : string)
    : Run (Error + TokenResponse) :=
  let form := ClientForm w in
  let form := Set_ "grant_type" "authorization_code" form in
  let form := Set_ "code" code form in
  let form := Set_ "code_verifier" verifier form in
  let form := Set_ "redirect_uri" redirect form in
  Traceln "code2token params:" (TForm form);;
  emit (EvPost form);;
  match Post w form with
  | inl err => mret (inl (Wrap err exchange_failed))
  | inr res =>
      if negb (Status res =? 200) then
        if nonempty (MediaType res) then
          match ReadJson_map res with
          | inr json =>
              mret (inl (exchange_failed +:+ ", error: " +:+ fmt_s (index json "error")
                         +:+ " error_description: "
                         +:+ fmt_s (index json "error_description")))
          | inl _ => mret (inl exchange_failed)
          end
        else mret (inl exchange_failed)
      else
        let tokenResponse := zeroTokenResponse in
        let '(tokenResponse, _) := ReadJson_token res tokenResponse in
        mret (inr tokenResponse)
  end.

(** ** [doLogin] *)

Definition listen_address : string := "127.0.0.1:8118".
Definition login_failed : string := "Login failed, can't retrieve authorization code".

Definition doLogin (w : World) : Run (Error + TokenResponse) :=
  emit (EvListen "tcp" listen_address);;
  match Listen w "tcp" listen_address with
  | Some err =>
      mret (inl (Wrap err "Cannot start local http server to handle login redirect"))
  | None =>
      let listener := listen_address in
      let clientId := GetString w CLIENT_ID in
      let redirect := "http://localhost:8118" in
      emit (EvCreateCodeVerifier pkce.MaxLength);;
      match pkce.CreateCodeVerifierWithLength (entropy w) (entropy_err w) pkce.MaxLength with
      | inl err => mret (inl (Wrap err "Cannot generate OAuth2 PKCE code_challenge"))
      | inr v =>
          let challenge := pkce.CodeChallengeS256 v in
          let verifier := pkce.String v in
          let authReq :=
            QueryParam "scope" "openid"
              (QueryParam "code_challenge_method" "S256"
                 (QueryParam "code_challenge" challenge
                    (QueryParam "redirect_uri" redirect
                       (QueryParam "client_id" clientId
                          (QueryParam "response_type" "code" (Authorization w)))))) in
          code ← launch w authReq listener;
          if nonempty code then codeToToken w verifier code redirect
          else mret (inl login_failed)
      end
  end.

(** ** [Authenticate] *)

Definition Authenticate (w : World) (roleArn : string)
    (maxSessionDurationSeconds : Z) (useSecret asJson : bool) : Run unit :=
  (* Resolve target IAM Role ARN *)
  let defaultIAMRoleArn := GetString w DEFAULT_IAM_ROLE_ARN in
  let roleArn := if nonempty roleArn then roleArn else defaultIAMRoleArn in
  (* Try to reuse stored credential in secret *)
  '(awsCreds, err) ←
    (if useSecret then emit (EvAWSCredential roleArn);; mret (AWSCredential w roleArn)
     else mret (None, None));
  valid ← isValid w awsCreds;
  awsCreds ←
    (if negb valid || bool_decide (is_Some err) then
       r ← doLogin w;
       tokenResponse ←
         match r with
         | inl err => Writeln "Failed to login the OIDC provider";; Exit err
         | inr tokenResponse => mret tokenResponse
         end;
       Writeln "Login successful!";;
       Traceln "ID token: %s" (TString (IDToken tokenResponse));;
       (* Resolve max duration *)
       let maxSessionDurationSeconds :=
         if maxSessionDurationSeconds <=? 0 then
           let maxSessionDurationSecondsString := GetString w MAX_SESSION_DURATION_SECONDS in
           let '(parsed, err) := strconv.ParseInt maxSessionDurationSecondsString in
           match err with
           | Some _ => 3600
           | None => parsed
           end
         else maxSessionDurationSeconds in
       emit (EvGetCredentialsWithOIDC (IDToken tokenResponse) roleArn maxSessionDurationSeconds);;
       match GetCredentialsWithOIDC w (IDToken tokenResponse) roleArn maxSessionDurationSeconds with
       | inl err => Writeln "Failed to get aws credentials with OIDC";; Exit err
       | inr awsCreds =>
           (if useSecret then
              (* Store into secret *)
              emit (EvSaveAWSCredential roleArn awsCreds);;
              Write "The AWS credentials has been saved in OS secret store"
            else mret tt);;
           mret (Some awsCreds)
       end
     else mret awsCreds);
  match awsCreds with
  | None => ([], Panicked)
  | Some awsCreds =>
      if asJson then
        let awsCreds := set_Version 1 awsCreds in
        match Marshal w awsCreds with
        | inl err => Writeln "Unexpected AWS credential response";; Exit err
        | inr jsonBytes => Println jsonBytes
        end
      else
        Writeln "";;
        Export "AWS_ACCESS_KEY_ID" (AWSAccessKey awsCreds);;
        Export "AWS_SECRET_ACCESS_KEY" (AWSSecretKey awsCreds);;
        Export "AWS_SESSION_TOKEN" (AWSSessionToken awsCreds)
  end.

(** ** The goroutines of [launch]

    [launch] is the one place where two flows of control meet: the HTTP
    server started with [go srv.Serve(listener)] runs the handler once per
    request, and the main flow waits on the unbuffered channel [c].  The
    step relation below is that hand-off: a send and a receive on [c]
    happen together or not at all. *)

Module Goroutines.

Inductive main_pc :=
| AtOpenURL
| AtReceive
| AtShutdown (code : string)
| Returned (code : string).

Inductive handler_pc :=
| Responding (req : Request)
| Sending (code : string)
| Delivered.

Record state := {
  main : main_pc;
  handlers : list handler_pc;
  incoming : list Request;
  serving : bool;
  written : list Page
}.

Definition start (requests : list Request) : state :=
  {| main := AtOpenURL; handlers := []; incoming := requests;
     serving := true; written := [] |}.

Inductive step (browser : option Error) : state -> state -> Prop :=
| step_open_ok hs inc sv ps :
    browser = None ->
    step browser
      {| main := AtOpenURL; handlers := hs; incoming := inc; serving := sv; written := ps |}
      {| main := AtReceive; handlers := hs; incoming := inc; serving := sv; written := ps |}
| step_open_err err hs inc sv ps :
    browser = Some err ->
    step browser
      {| main := AtOpenURL; handlers := hs; incoming := inc; serving := sv; written := ps |}
      {| main := AtShutdown ""; handlers := hs; incoming := inc; serving := sv; written := ps |}
| step_accept m hs req inc ps :
    step browser
      {| main := m; handlers := hs; incoming := req :: inc; serving := true; written := ps |}
      {| main := m; handlers := hs ++ [Responding req]; incoming := inc;
         serving := true; written := ps |}
| step_respond m hs i req inc sv ps :
    hs !! i = Some (Responding req) ->
    step browser
      {| main := m; handlers := hs; incoming := inc; serving := sv; written := ps |}
      {| main := m; handlers := <[i := Sending (snd (handler req))]> hs; incoming := inc;
         serving := sv; written := ps ++ [fst (handler req)] |}
| step_handoff hs i code inc sv ps :
    hs !! i = Some (Sending code) ->
    step browser
      {| main := AtReceive; handlers := hs; incoming := inc; serving := sv; written := ps |}
      {| main := AtShutdown code; handlers := <[i := Delivered]> hs; incoming := inc;
         serving := sv; written := ps |}
| step_shutdown code hs inc sv ps :
    step browser
      {| main := AtShutdown code; handlers := hs; incoming := inc; serving := sv; written := ps |}
      {| main := Returned code; handlers := hs; incoming := inc; serving := false; written := ps |}.

Definition reachable (browser : option Error) (requests : list Request) (s : state) : Prop :=
  rtc (step browser) (start requests) s.

Definition has_returned (s : state) : Prop :=
  exists code, main s = Returned code.

(** The requests a world sends to the listener. *)
Definition requests_of (w : World) : list Request :=
  match callback w with
  | Some req => [req]
  | None => []
  end.

(** With no request and the browser open, a state in which only the main
    flow has moved. *)
Definition idle (s : state) : Prop :=
  (main s = AtOpenURL \/ main s = AtReceive) /\
  handlers s = [] /\ incoming s = [] /\ serving s = true.

(** What a handler holds comes from a request that was sent to the
    listener; what the main flow received comes from a handler. *)
Definition handler_ok (requests : list Request) (h : handler_pc) : Prop :=
  match h with
  | Responding req => req ∈ requests
  | Sending code => exists req, req ∈ requests /\ code = snd (handler req)
  | Delivered => True
  end.

Definition main_ok (browser : option Error) (requests : list Request) (m : main_pc) : Prop :=
  match m with
  | AtOpenURL | AtReceive => True
  | AtShutdown code | Returned code =>
      match browser with
      | Some _ => code = ""
      | None => exists req, req ∈ requests /\ code = snd (handler req)
      end
  end.

Definition inv (browser : option Error) (requests : list Request) (s : state) : Prop :=
  Forall (handler_ok requests) (handlers s) /\
  Forall (fun req => req ∈ requests) (incoming s) /\
  main_ok browser requests (main s) /\
  Forall (fun p => exists req, req ∈ requests /\ p = fst (handler req)) (written s) /\
  (main s = AtReceive -> browser = None) /\
  (serving s = false <-> exists code, main s = Returned code).

(** A handler past its response has written a page; the main flow past
    its receive has met a handler. *)
Definition page_written (pages : list Page) (h : handler_pc) : Prop :=
  match h with
  | Responding _ => True
  | Sending _ | Delivered => pages <> []
  end.

Definition answered (s : state) : Prop :=
  Forall (page_written (written s)) (handlers s) /\
  match main s with
  | AtShutdown _ | Returned _ => Delivered ∈ handlers s
  | AtOpenURL | AtReceive => True
  end.

End Goroutines.

(** ** Counting events *)

Definition is_OpenURL (e : Event) : bool :=
  match e with EvOpenURL _ => true | _ => false end.
Definition is_Post (e : Event) : bool :=
  match e with EvPost _ => true | _ => false end.
Definition is_Listen (e : Event) : bool :=
  match e with EvListen _ _ => true | _ => false end.
Definition is_network (e : Event) : bool :=
  match e with
  | EvListen _ _ | EvServe _ | EvOpenURL _ | EvCallback _ _ | EvPost _
  | EvGetCallerIdentity _ _ _ | EvGetCredentialsWithOIDC _ _ _ => true
  | _ => false
  end.

Definition count (p : Event -> bool) (t : list Event) : nat :=
  length (List.filter p t).

(** ** Sample collaborators, for running the model *)

Module Sample.

Definition cached : AWSCredentials :=
  {| AWSAccessKey := "ASIAEXAMPLE"; AWSSecretKey := "wJalr"; AWSSessionToken := "FwoGZ";
     Expires := 1700000000; Version := 0 |}.

Definition fresh : AWSCredentials :=
  {| AWSAccessKey := "ASIAFRESH"; AWSSecretKey := "9sKq"; AWSSessionToken := "IQoJb";
     Expires := 1700003600; Version := 0 |}.

Definition role : string := "arn:aws:iam::123456789012:role/developer".

Definition req_code : Request :=
  {| Method := "GET"; Path := "/"; Query := {[ "code" := ["ABC123"] ]} |}.

Definition req_nocode : Request :=
  {| Method := "GET"; Path := "/"; Query := {[ "error" := ["access_denied"] ]} |}.

Definition token_ok : Response :=
  {| Status := 200; MediaType := "application/json";
     ReadJson_map := inl "unused";
     ReadJson_token := fun _ =>
       ({| IDToken := "eyJhbGciOi"; AccessToken := "at"; TokenType := "Bearer";
           ExpiresIn := 300 |}, None) |}.

Definition token_invalid_grant : Response :=
  {| Status := 400; MediaType := "application/json";
     ReadJson_map := inr ({[ "error" := VString "invalid_grant";
                             "error_description" := VString "code expired" ]});
     ReadJson_token := fun t => (t, None) |}.

Definition token_garbled : Response :=
  {| Status := 200; MediaType := "text/html";
     ReadJson_map := inl "invalid character '<' looking for beginning of value";
     ReadJson_token := fun t =>
       (t, Some "invalid character '<' looking for beginning of value") |}.

Definition type_mismatch : Error :=
  "json: cannot unmarshal string into Go struct field TokenResponse.expires_in of type int64".

(** A 200 answer whose body is
    [{"id_token":"eyJhbGciOi","expires_in":"soon"}]: the decoder fills
    [IDToken], then fails on the text where a number is expected. *)
Definition token_half_decoded : Response :=
  {| Status := 200; MediaType := "application/json";
     ReadJson_map := inl "unused";
     ReadJson_token := fun t =>
       ({| IDToken := "eyJhbGciOi"; AccessToken := AccessToken t;
           TokenType := TokenType t; ExpiresIn := ExpiresIn t |},
        Some type_mismatch) |}.

Definition make (cfg : gmap string string)
    (store : string -> option AWSCredentials * option Error)
    (identity : option Error) (bind browser : option Error)
    (cb : option Request) (token : Error + Response) : World :=
  {| config := cfg;
     Authorization := {| endpoint := "https://idp.example.com/auth"; query := [] |};
     ClientForm := {[ "client_id" := ["aws-cli"] ]};
     AWSCredential := store;
     NewSession := None;
     GetCallerIdentity := fun _ _ _ => identity;
     Listen := fun _ _ => bind;
     entropy := fun i => Z.of_nat (7 * i + 3);
     entropy_err := None;
     OpenURL := fun _ => browser;
     callback := cb;
     Post := fun _ => token;
     GetCredentialsWithOIDC := fun _ _ _ => inr fresh;
     Marshal := fun c => inr ("{" +:+ AWSAccessKey c +:+ "}") |}.

Definition cfg : gmap string string :=
  {[ CLIENT_ID := "aws-cli"; DEFAULT_IAM_ROLE_ARN := role;
     MAX_SESSION_DURATION_SECONDS := "7200" ]}.

Definition no_store : string -> option AWSCredentials * option Error :=
  fun _ => (None, Some "secret not found").

Definition store : string -> option AWSCredentials * option Error :=
  fun r => if String.eqb r role then (Some cached, None) else (None, Some "secret not found").

(** Everything works: a full login. *)
Definition login : World :=
  make cfg no_store None None None (Some req_code) (inr token_ok).

(** A valid credential is cached. *)
Definition reuse : World :=
  make cfg store None None None (Some req_code) (inr token_ok).

(** The browser opens and the user walks away. *)
Definition abandoned : World :=
  make cfg no_store None None None None (inr token_ok).

(** No browser can be started. *)
Definition headless : World :=
  make cfg no_store None None (Some "exec: xdg-open: not found") None (inr token_ok).

(** A session of one minute is configured. *)
Definition short_session : World :=
  make {[ CLIENT_ID := "aws-cli"; MAX_SESSION_DURATION_SECONDS := "60" ]}
       no_store None None None (Some req_code) (inr token_ok).

(** Nothing is configured beyond the client. *)
Definition bare : World :=
  make {[ CLIENT_ID := "aws-cli" ]} no_store None None None (Some req_code) (inr token_ok).

(** The provider rejects the code. *)
Definition expired_code : World :=
  make cfg no_store None None None (Some req_code) (inr token_invalid_grant).

(** The token endpoint answers 200 with a page that is not JSON. *)
Definition garbled : World :=
  make cfg no_store None None None (Some req_code) (inr token_garbled).

(** The token endpoint answers 200 with a body that is JSON up to a field
    of the wrong type. *)
Definition half_decoded : World :=
  make cfg no_store None None None (Some req_code) (inr token_half_decoded).

(** Another process holds the port. *)
Definition port_taken : World :=
  make cfg no_store None (Some "listen tcp 127.0.0.1:8118: bind: address already in use")
       None (Some req_code) (inr token_ok).

End Sample.

(** The S256 transform in the words of the spec: the base64url text,
    without padding, of the SHA-256 digest of the verifier. *)
Definition S256 (verifier : string) : string :=
  base64.EncodeToString base64.RawURLEncoding
    (sha256.Sum256 (bytes_of_string verifier)).

(** ** The requests of a login attempt, by name *)

Definition redirect_uri : string := "http://localhost:8118".

(** The authorization request [doLogin] builds for a verifier. *)
Definition auth_request (w : World) (v : pkce.CodeVerifier) : WebTarget :=
  QueryParam "scope" "openid"
    (QueryParam "code_challenge_method" "S256"
       (QueryParam "code_challenge" (pkce.CodeChallengeS256 v)
          (QueryParam "redirect_uri" redirect_uri
             (QueryParam "client_id" (GetString w CLIENT_ID)
                (QueryParam "response_type" "code" (Authorization w)))))).

(** The form [codeToToken] posts. *)
Definition token_form (w : World) (verifier code redirect : string) : Values :=
  Set_ "redirect_uri" redirect
    (Set_ "code_verifier" verifier
       (Set_ "code" code
          (Set_ "grant_type" "authorization_code" (ClientForm w)))).

(** The role [Authenticate] works with. *)
Definition resolved_role (w : World) (roleArn : string) : string :=
  if nonempty roleArn then roleArn else GetString w DEFAULT_IAM_ROLE_ARN.

(** The duration [Authenticate] hands to the credential exchange. *)
Definition resolved_duration (w : World) (maxSessionDurationSeconds : Z) : Z :=
  if maxSessionDurationSeconds <=? 0 then
    match strconv.ParseInt (GetString w MAX_SESSION_DURATION_SECONDS) with
    | (_, Some _) => 3600
    | (parsed, None) => parsed
    end
  else maxSessionDurationSeconds.

(** ** [Authenticate], stage by stage *)

(** "Try to reuse stored credential in secret" *)
Definition lookup_secret (w : World) (roleArn : string) (useSecret : bool)
    : Run (option AWSCredentials * option Error) :=
  if useSecret then emit (EvAWSCredential roleArn);; mret (AWSCredential w roleArn)
  else mret (None, None).

(** The body of [if !isValid(awsCreds) || err != nil]. *)
Definition login_and_exchange (w : World) (roleArn : string)
    (maxSessionDurationSeconds : Z) (useSecret : bool) : Run (option AWSCredentials) :=
  r ← doLogin w;
  tokenResponse ←
    match r with
    | inl err => Writeln "Failed to login the OIDC provider";; Exit err
    | inr tokenResponse => mret tokenResponse
    end;
  Writeln "Login successful!";;
  Traceln "ID token: %s" (TString (IDToken tokenResponse));;
  let maxSessionDurationSeconds := resolved_duration w maxSessionDurationSeconds in
  emit (EvGetCredentialsWithOIDC (IDToken tokenResponse) roleArn maxSessionDurationSeconds);;
  match GetCredentialsWithOIDC w (IDToken tokenResponse) roleArn maxSessionDurationSeconds with
  | inl err => Writeln "Failed to get aws credentials with OIDC";; Exit err
  | inr awsCreds =>
      (if useSecret then
         emit (EvSaveAWSCredential roleArn awsCreds);;
         Write "The AWS credentials has been saved in OS secret store"
       else mret tt);;
      mret (Some awsCreds)
  end.

(** The output: JSON with [Version] set, or three exports. *)
Definition output (w : World) (asJson : bool) (awsCreds : option AWSCredentials) : Run unit :=
  match awsCreds with
  | None => ([], Panicked)
  | Some awsCreds =>
      if asJson then
        let awsCreds := set_Version 1 awsCreds in
        match Marshal w awsCreds with
        | inl err => Writeln "Unexpected AWS credential response";; Exit err
        | inr jsonBytes => Println jsonBytes
        end
      else
        Writeln "";;
        Export "AWS_ACCESS_KEY_ID" (AWSAccessKey awsCreds);;
        Export "AWS_SECRET_ACCESS_KEY" (AWSSecretKey awsCreds);;
        Export "AWS_SESSION_TOKEN" (AWSSessionToken awsCreds)
  end.

(** The events of a login attempt, of the validity check and of the
    output. *)
Definition is_login_event (e : Event) : bool :=
  match e with
  | EvListen _ _ | EvCreateCodeVerifier _ | EvHandleFunc _ | EvServe _ | EvOpenURL _
  | EvCallback _ _ | EvShutdown _ | EvTraceln _ _ | EvPost _ => true
  | _ => false
  end.

Definition is_check_event (e : Event) : bool :=
  match e with
  | EvNewSession | EvGetCallerIdentity _ _ _ | EvWriteln _ | EvExit _ => true
  | _ => false
  end.

Definition is_output_event (e : Event) : bool :=
  match e with
  | EvWriteln _ | EvExport _ _ | EvPrintln _ | EvExit _ => true
  | _ => false
  end.

(** ** The setup wizard and the configuration directory

    [RunSetup] and [oidcSetup] ask the user, build the provider's
    configuration and write it under [ConfigPath] ([lib/config.go]).  The
    user interface, the environment, the home directory and [viper] are the
    collaborators; their calls are the events of a setup run. *)

Module Setup.

Definition AWS_FEDERATION_ROLE_SESSION_NAME : string := "aws_federation_role_session_name".

(** [strings.Split(s, sep)] for a separator of one byte: the text between
    the separators, one more piece than there are separators. *)
Fixpoint Split (s : string) (sep : ascii) : list string :=
  match s with
  | EmptyString => [EmptyString]
  | String c rest =>
      if Ascii.eqb c sep then EmptyString :: Split rest sep
      else match Split rest sep with
           | piece :: pieces => String c piece :: pieces
           | [] => [String c EmptyString]
           end
  end.

(** [strings.Join(pieces, sep)] *)
Fixpoint Join (pieces : list string) (sep : string) : string :=
  match pieces with
  | [] => EmptyString
  | [piece] => piece
  | piece :: rest => piece +:+ sep +:+ Join rest sep
  end.

(** [strings.HasPrefix(s, prefix)] *)
Definition HasPrefix (s prefix : string) : bool := String.prefix prefix s.

(** The [ValidateFunc] of the session duration question. *)
Definition validate_maxSessionDuration (s : string) : option Error :=
  let '(i, err) := strconv.ParseInt s in
  if bool_decide (is_Some err) || (i <? 900) || (43200 <? i)
  then Some "Input must be 900-43200"
  else None.

(** The [ValidateFunc] of the default role question. *)
Definition validate_defaultIAMRoleArn (s : string) : option Error :=
  if String.eqb s "" then None
  else
    let arn := Split s ":" in
    if Nat.eqb (length arn) 6
       && (String.eqb (nth 0 arn "") "arn" && String.eqb (nth 1 arn "") "aws"
           && String.eqb (nth 2 arn "") "iam" && String.eqb (nth 3 arn "") ""
           && HasPrefix (nth 5 arn "") "role/")
    then None
    else Some "Input must be IAM Role ARN".

(** [input.Options] *)
Record Options := {
  Default : string;
  Required : bool;
  Loop : bool;
  ValidateFunc : option (string -> option Error)
}.

(** [input.UI], by what [Ask] returns for a query. *)
Definition UI : Type := string -> Options -> string * option Error.

Record Env := {
  (** the [input.UI] on standard input and output *)
  stdio : UI;
  (** the package variable [configdir] *)
  configdir : string;
  (** [os.Getenv] *)
  Getenv : string -> string;
  (** [homedir.Dir()] *)
  homedir_Dir : Error + string;
  (** [viper.WriteConfig()] on the configured file *)
  WriteConfig : string -> option Error
}.

Inductive Event :=
| EvAsk (query : string)
| EvViperSet (key : string) (value : gmap string string)
| EvMkdirAll (path : string) (perm : Z)
| EvSetConfigFile (path : string)
| EvWriteConfig
| EvSay (format arg : string)
| EvQuit (err : Error).

Definition Run (A : Type) : Type := list Event * Res A.

#[export] Instance Run_ret : MRet Run := fun A a => ([], Ret a).

#[export] Instance Run_bind : MBind Run := fun A B f m =>
  match m with
  | (t, Ret a) => let '(t', r) := f a in ((t ++ t')%list, r)
  | (t, Exited err) => (t, Exited err)
  | (t, Blocked) => (t, Blocked)
  | (t, Panicked) => (t, Panicked)
  end.

Definition events {A} (r : Run A) : list Event := fst r.
Definition outcome {A} (r : Run A) : Res A := snd r.

Definition emit (e : Event) : Run unit := ([e], Ret tt).
Definition Writeln (format arg : string) : Run unit := emit (EvSay format arg).
Definition Exit {A} (err : Error) : Run A := ([EvQuit err], Exited err).

(** [ConfigPath] *)
Definition ConfigPath (env : Env) : Run string :=
  if nonempty (configdir env) then mret (configdir env)
  else
    let path := Getenv env "AWS_CLI_OIDC_CONFIG" in
    if nonempty path then mret path
    else
      match homedir_Dir env with
      | inl err => Exit err
      | inr home => mret (home +:+ "/.aws-cli-oidc")
      end.

(** [ui.Ask(query, opts)], the error dropped as the callers drop it. *)
Definition Ask (ui : UI) (query : string) (opts : Options) : Run string :=
  emit (EvAsk query);; mret (fst (ui query opts)).

(** [oidcSetup]: the map is the caller's, updated in place. *)
Definition oidcSetup (ui : UI) (config : gmap string string) : Run (gmap string string) :=
  awsRoleSessionName ← Ask ui "AWS federation roleSessionName:"
    {| Default := ""; Required := true; Loop := true; ValidateFunc := None |};
  mret (<[AWS_FEDERATION_ROLE_SESSION_NAME := awsRoleSessionName]> config).

(** [RunSetup] *)
Definition RunSetup (env : Env) (ui : option UI) : Run unit :=
  let ui := match ui with None => stdio env | Some ui => ui end in
  providerName ← Ask ui "OIDC provider name:"
    {| Default := ""; Required := true; Loop := true; ValidateFunc := None |};
  server ← Ask ui
    "OIDC provider metadata URL (https://your-oidc-provider/.well-known/openid-configuration):"
    {| Default := ""; Required := true; Loop := true; ValidateFunc := None |};
  clientID ← Ask ui "Client ID which is registered in the OIDC provider:"
    {| Default := ""; Required := true; Loop := true; ValidateFunc := None |};
  clientSecret ← Ask ui
    "Client secret which is registered in the OIDC provider (Default: none):"
    {| Default := ""; Required := false; Loop := false; ValidateFunc := None |};
  maxSessionDurationSeconds ← Ask ui
    "The max session duration, in seconds, of the role session [900-43200] (Default: 3600):"
    {| Default := "3600"; Required := true; Loop := true;
       ValidateFunc := Some validate_maxSessionDuration |};
  defaultIAMRoleArn ← Ask ui
    "The default IAM Role ARN when you have multiple roles, as arn:aws:iam::<account-id>:role/<role-name> (Default: none):"
    {| Default := ""; Required := false; Loop := true;
       ValidateFunc := Some validate_defaultIAMRoleArn |};
  let config : gmap string string := ∅ in
  let config := <[OIDC_PROVIDER_METADATA_URL := server]> config in
  let config := <[CLIENT_ID := clientID]> config in
  let config := <[CLIENT_SECRET := clientSecret]> config in
  let config := <[MAX_SESSION_DURATION_SECONDS := maxSessionDurationSeconds]> config in
  let config := <[DEFAULT_IAM_ROLE_ARN := defaultIAMRoleArn]> config in
  config ← oidcSetup ui config;
  emit (EvViperSet providerName config);;
  dir ← ConfigPath env;
  emit (EvMkdirAll dir 448);;
  dir ← ConfigPath env;
  let configPath := dir +:+ "/config.yaml" in
  emit (EvSetConfigFile configPath);;
  emit EvWriteConfig;;
  match WriteConfig env configPath with
  | Some err => Writeln "Failed to write %s" configPath;; Exit err
  | None => mret tt
  end;;
  Writeln "Saved %s" configPath.

(** What the user answered, question by question. *)
Record Answers := {
  providerName : string;
  server : string;
  clientID : string;
  clientSecret : string;
  maxSessionDurationSeconds : string;
  defaultIAMRoleArn : string;
  awsRoleSessionName : string
}.

Definition answers (ui : UI) : Answers :=
  let asked := {| Default := ""; Required := true; Loop := true; ValidateFunc := None |} in
  {| providerName := fst (ui "OIDC provider name:" asked);
     server := fst (ui
       "OIDC provider metadata URL (https://your-oidc-provider/.well-known/openid-configuration):"
       asked);
     clientID := fst (ui "Client ID which is registered in the OIDC provider:" asked);
     clientSecret := fst (ui
       "Client secret which is registered in the OIDC provider (Default: none):"
       {| Default := ""; Required := false; Loop := false; ValidateFunc := None |});
     maxSessionDurationSeconds := fst (ui
       "The max session duration, in seconds, of the role session [900-43200] (Default: 3600):"
       {| Default := "3600"; Required := true; Loop := true;
          ValidateFunc := Some validate_maxSessionDuration |});
     defaultIAMRoleArn := fst (ui
       "The default IAM Role ARN when you have multiple roles, as arn:aws:iam::<account-id>:role/<role-name> (Default: none):"
       {| Default := ""; Required := false; Loop := true;
          ValidateFunc := Some validate_defaultIAMRoleArn |});
     awsRoleSessionName := fst (ui "AWS federation roleSessionName:" asked) |}.

(** The map [RunSetup] fills and [oidcSetup] completes. *)
Definition setup_config (a : Answers) : gmap string string :=
  <[AWS_FEDERATION_ROLE_SESSION_NAME := awsRoleSessionName a]>
    (<[DEFAULT_IAM_ROLE_ARN := defaultIAMRoleArn a]>
       (<[MAX_SESSION_DURATION_SECONDS := maxSessionDurationSeconds a]>
          (<[CLIENT_SECRET := clientSecret a]>
             (<[CLIENT_ID := clientID a]>
                (<[OIDC_PROVIDER_METADATA_URL := server a]> ∅))))).

(** The user interface a setup run talks to. *)
Definition ui_of (env : Env) (ui : option UI) : UI :=
  match ui with None => stdio env | Some ui => ui end.

(** The questions, in the order they are asked. *)
Definition questions : list Event :=
  [EvAsk "OIDC provider name:";
   EvAsk "OIDC provider metadata URL (https://your-oidc-provider/.well-known/openid-configuration):";
   EvAsk "Client ID which is registered in the OIDC provider:";
   EvAsk "Client secret which is registered in the OIDC provider (Default: none):";
   EvAsk "The max session duration, in seconds, of the role session [900-43200] (Default: 3600):";
   EvAsk "The default IAM Role ARN when you have multiple roles, as arn:aws:iam::<account-id>:role/<role-name> (Default: none):";
   EvAsk "AWS federation roleSessionName:"].

(** An event that touches the file system. *)
Definition is_file_event (e : Event) : bool :=
  match e with
  | EvMkdirAll _ _ | EvSetConfigFile _ | EvWriteConfig => true
  | _ => false
  end.

(** [sep] occurs in [s]. *)
Fixpoint has_char (sep : ascii) (s : string) : bool :=
  match s with
  | EmptyString => false
  | String c rest => Ascii.eqb c sep || has_char sep rest
  end.

(** The configuration a setup run hands to [viper.Set], if it gets there. *)
Definition stored (t : list Event) : option (string * gmap string string) :=
  head (omap (fun e => match e with EvViperSet k v => Some (k, v) | _ => None end) t).

(** A user who accepts every default and names provider, URL, client and
    session. *)
Definition sample_ui : UI := fun query opts =>
  if nonempty (Default opts) then (Default opts, None)
  else if String.prefix "OIDC provider name" query then ("keycloak", None)
  else if String.prefix "OIDC provider metadata" query
       then ("https://idp.example.com/.well-known/openid-configuration", None)
  else if String.prefix "Client ID" query then ("aws-cli", None)
  else if String.prefix "AWS federation" query then ("alice", None)
  else ("", None).

Definition sample_env : Env :=
  {| stdio := sample_ui; configdir := "";
     Getenv := fun _ => ""; homedir_Dir := inr "/home/alice";
     WriteConfig := fun _ => None |}.

(** No home directory can be determined. *)
Definition homeless_env : Env :=
  {| stdio := sample_ui; configdir := "";
     Getenv := fun _ => ""; homedir_Dir := inl "$HOME is not defined";
     WriteConfig := fun _ => None |}.

End Setup.

(** A world whose provider configuration is what a setup run stored. *)
Definition with_config (cfg : gmap string string) (w : World) : World :=
  {| config := cfg;
     Authorization := Authorization w; ClientForm := ClientForm w;
     AWSCredential := AWSCredential w; NewSession := NewSession w;
     GetCallerIdentity := GetCallerIdentity w; Listen := Listen w;
     entropy := entropy w; entropy_err := entropy_err w;
     OpenURL := OpenURL w; callback := callback w; Post := Post w;
     GetCredentialsWithOIDC := GetCredentialsWithOIDC w; Marshal := Marshal w |}.

(** The same world without a usable STS session. *)
Definition with_session_failure (w : World) : World :=
  {| config := config w;
     Authorization := Authorization w; ClientForm := ClientForm w;
     AWSCredential := AWSCredential w; NewSession := Some "NoCredentialProviders";
     GetCallerIdentity := GetCallerIdentity w; Listen := Listen w;
     entropy := entropy w; entropy_err := entropy_err w;
     OpenURL := OpenURL w; callback := callback w; Post := Post w;
     GetCredentialsWithOIDC := GetCredentialsWithOIDC w; Marshal := Marshal w |}.

(** A handler that has delivered its code, and how many have. *)
Definition is_Delivered (h : Goroutines.handler_pc) : bool :=
  match h with Goroutines.Delivered => true | _ => false end.

Definition deliveries (s : Goroutines.state) : nat :=
  length (List.filter is_Delivered (Goroutines.handlers s)).

(** The main flow has not yet received: it is about to open the browser
    or waits on the channel. *)
Definition before_receive (m : Goroutines.main_pc) : bool :=
  match m with
  | Goroutines.AtOpenURL | Goroutines.AtReceive => true
  | _ => false
  end.

(** The four keys [codeToToken] sets in the form. *)
Definition is_grant_key (key : string) : bool :=
  String.eqb key "grant_type" || String.eqb key "code"
  || String.eqb key "code_verifier" || String.eqb key "redirect_uri".

Definition is_Save (e : Event) : bool :=
  match e with EvSaveAWSCredential _ _ => true | _ => false end.
Definition is_secret_event (e : Event) : bool :=
  match e with EvAWSCredential _ | EvSaveAWSCredential _ _ => true | _ => false end.
Definition is_identity_event (e : Event) : bool :=
  match e with EvNewSession | EvGetCallerIdentity _ _ _ => true | _ => false end.
Definition is_emission (e : Event) : bool :=
  match e with EvPrintln _ | EvExport _ _ => true | _ => false end.
Definition is_Serve (e : Event) : bool :=
  match e with EvServe _ => true | _ => false end.
Definition is_Shutdown (e : Event) : bool :=
  match e with EvShutdown _ => true | _ => false end.

(** The messages that precede an exit of [Authenticate]. *)
Definition fatal_messages : list string :=
  ["Failed to create aws client session";
   "Failed to login the OIDC provider";
   "Failed to get aws credentials with OIDC";
   "Unexpected AWS credential response"].

(** A run that exits has said why: its last two events are one of the
    fatal messages and the exit. *)
Definition exit_announced {A} (r : Run A) : Prop :=
  forall err, result r = Exited err ->
  exists pre msg, In msg fatal_messages /\
                  trace r = (pre ++ [EvWriteln msg; EvExit err])%list.

(** What the body of the login branch adds to the events of [doLogin]; the
    two secret-store events only with [useSecret]. *)
Definition is_exchange_event (useSecret : bool) (e : Event) : bool :=
  match e with
  | EvWriteln _ | EvTraceln _ _ | EvGetCredentialsWithOIDC _ _ _ | EvExit _ => true
  | EvSaveAWSCredential _ _ | EvWrite _ => useSecret
  | _ => false
  end.

(** The condition under which [Authenticate] skips the login: reuse is
    requested, the store has a credential and no error, and the identity
    check accepts the credential. *)
Definition cache_usable (w : World) (roleArn : string) (useSecret : bool) : bool :=
  useSecret &&
  match AWSCredential w roleArn with
  | (Some cred, None) =>
      bool_decide (GetCallerIdentity w (AWSAccessKey cred) (AWSSecretKey cred)
                                     (AWSSessionToken cred) = None)
  | _ => false
  end.

(** * Properties *)

#[local] Arguments isValid : simpl never.
#[local] Arguments doLogin : simpl never.
#[local] Arguments launch : simpl never.
#[local] Arguments handler : simpl never.
#[local] Arguments codeToToken : simpl never.
#[local] Arguments strconv.ParseInt : simpl never.
#[local] Arguments pkce.CreateCodeVerifierWithLength : simpl never.
#[local] Arguments pkce.CodeChallengeS256 : simpl never.
#[local] Arguments pkce.encode : simpl never.
#[local] Arguments sha256.Sum256 : simpl never.

(** ** Runs *)

Section RunLemmas.
Context {A B : Type}.
Implicit Types (m : Run A) (f : A -> Run B).

Lemma trace_bind m f :
  trace (m ≫= f) =
  (trace m ++ match result m with Ret a => trace (f a) | _ => [] end)%list.
Proof.
  destruct m as [t [a| | |]]; cbn; rewrite ?app_nil_r; try reflexivity.
  destruct (f a); reflexivity.
Qed.

Lemma result_bind m f :
  result (m ≫= f) =
  match result m with
  | Ret a => result (f a)
  | Exited err => Exited err
  | Blocked => Blocked
  | Panicked => Panicked
  end.
Proof.
  destruct m as [t [a| | |]]; cbn; try reflexivity.
  destruct (f a); reflexivity.
Qed.

Lemma bind_ret (a : A) f : (mret a ≫= f) = f a.
Proof. cbn. destruct (f a); reflexivity. Qed.

Lemma bind_emit (e : Event) (k : Run B) :
  (emit e;; k) = (e :: trace k, result k).
Proof. cbn. destruct k; reflexivity. Qed.
End RunLemmas.

Lemma run_eta {A} (r : Run A) : r = (trace r, result r).
Proof. destruct r; reflexivity. Qed.

Lemma count_app p (t1 t2 : list Event) :
  count p (t1 ++ t2) = (count p t1 + count p t2)%nat.
Proof. unfold count. rewrite List.filter_app, length_app. reflexivity. Qed.

Lemma nonempty_true (s : string) : nonempty s = true <-> s <> "".
Proof.
  unfold nonempty. destruct (String.eqb_spec s ""); cbn; split; congruence.
Qed.

Lemma nonempty_false (s : string) : nonempty s = false <-> s = "".
Proof.
  unfold nonempty. destruct (String.eqb_spec s ""); cbn; split; congruence.
Qed.

(** ** Test vectors *)

(** FIPS 180-4, "abc". *)
Example sha256_abc :
  sha256.Sum256 (bytes_of_string "abc") =
  [186; 120; 22; 191; 143; 1; 207; 234; 65; 65; 64; 222; 93; 174; 34; 35;
   176; 3; 97; 163; 150; 23; 122; 156; 180; 16; 255; 97; 242; 0; 21; 173].
Proof. vm_compute. reflexivity. Qed.

(** RFC 7636, appendix B. *)
Example rfc7636_appendix_b :
  pkce.CodeChallengeS256 {| pkce.Value := "dBjftJeZ4CVP-mB92K27uhbUJU1p1r_wW1gFWFOEjXk" |} =
  "E9Melhoa2OwvFrEMTJguCHaoeK1t8URWbuGJSstw-cM".
Proof. vm_compute. reflexivity. Qed.

(** RFC 4648, section 10. *)
Example base64_foobar :
  List.map (fun s => base64.EncodeToString base64.StdEncoding (bytes_of_string s))
           [""; "f"; "fo"; "foo"; "foob"; "fooba"; "foobar"] =
  [""; "Zg=="; "Zm8="; "Zm9v"; "Zm9vYg=="; "Zm9vYmE="; "Zm9vYmFy"].
Proof. vm_compute. reflexivity. Qed.

Example full_login_trace :
  List.filter is_network (trace (Authenticate Sample.login "" 0 true true)) =
  [EvListen "tcp" "127.0.0.1:8118"; EvServe "127.0.0.1:8118";
   EvOpenURL (auth_request Sample.login
                (pkce.CreateCodeVerifierFromBytes (pkce.randomBytes (entropy Sample.login) 96)));
   EvCallback Sample.req_code (fst (handler Sample.req_code));
   EvPost (token_form Sample.login
             (pkce.String (pkce.CreateCodeVerifierFromBytes
                             (pkce.randomBytes (entropy Sample.login) 96)))
             "ABC123" redirect_uri);
   EvGetCredentialsWithOIDC "eyJhbGciOi" Sample.role 7200].
Proof. vm_compute. reflexivity. Qed.

Example port_taken_trace :
  doLogin Sample.port_taken =
  ([EvListen "tcp" "127.0.0.1:8118"],
   Ret (inl ("Cannot start local http server to handle login redirect: "
             +:+ "listen tcp 127.0.0.1:8118: bind: address already in use"))).
Proof. vm_compute. reflexivity. Qed.

(** ** Reuse of a cached credential *)




(** ** The hand-off between the handler and the main flow *)

Module GoroutinesFacts.
Import Goroutines.

(** With the browser open and no request on its way, the main flow moves to
    the receive and nothing else ever happens. *)

Lemma waiting_forever (s : state) : reachable None [] s -> idle s.
Proof.
  unfold reachable. revert s. apply (rtc_ind_r idle).
  - unfold idle. cbn. auto.
  - intros s1 s2 _ Hstep (Hmain & Hh & Hi & Hs). unfold idle.
    inversion Hstep; subst; cbn in *; try discriminate;
      try (destruct Hmain; discriminate); auto.
    all: subst hs; rewrite lookup_nil in *; discriminate.
Qed.

Lemma receive_is_stuck (s' : state) :
  ~ step None
      {| main := AtReceive; handlers := []; incoming := []; serving := true; written := [] |}
      s'.
Proof. intros H. inversion H; subst; discriminate. Qed.

Lemma receive_is_reached : reachable None []
  {| main := AtReceive; handlers := []; incoming := []; serving := true; written := [] |}.
Proof. apply rtc_once. by constructor. Qed.

Lemma inv_start browser requests : inv browser requests (start requests).
Proof.
  unfold inv, start; cbn. repeat split; auto; try discriminate.
  - apply Forall_forall. auto.
  - intros [code H]. discriminate.
Qed.

Lemma inv_step browser requests s s' :
  inv browser requests s -> step browser s s' -> inv browser requests s'.
Proof.
  intros (Hh & Hi & Hm & Hw & Hr & Hs) Hstep.
  assert (Hlook : forall i h, handlers s !! i = Some h -> handler_ok requests h).
  { intros i h. apply Forall_lookup_1. exact Hh. }
  inversion Hstep; subst; cbn in *; unfold inv; cbn; split_and!;
    try done; try (intros _; assumption);
    try (split; [intros Hx; apply Hs in Hx as [? ?]; discriminate
                |intros [? ?]; discriminate]).
  - apply Forall_app. apply Forall_cons in Hi as [Hreq Hi]. split; auto.
  - apply Forall_cons in Hi as [Hreq Hi]. exact Hi.
  - apply Forall_insert; auto. cbn. exists req. split; auto.
    apply (Hlook _ _ H).
  - apply Forall_app. split; auto. constructor; auto.
    exists req. split; auto. apply (Hlook _ _ H).
  - apply Forall_insert; cbn; auto.
  - rewrite (Hr eq_refl). apply (Hlook _ _ H).
  - split; eauto.
Qed.

Lemma inv_reachable browser requests s :
  reachable browser requests s -> inv browser requests s.
Proof.
  unfold reachable. revert s. apply (rtc_ind_r (inv browser requests)).
  - apply inv_start.
  - intros s1 s2 _ Hstep IH. eapply inv_step; eauto.
Qed.

Lemma answered_step s s' :
  answered s -> step None s s' -> answered s'.
Proof.
  intros [Hh Hm] Hstep.
  assert (Hlook : forall i h, handlers s !! i = Some h -> page_written (written s) h).
  { intros i h. apply Forall_lookup_1. exact Hh. }
  inversion Hstep; subst; cbn in *; unfold answered; cbn; try discriminate.
  - auto.
  - split; [apply Forall_app; split; [exact Hh|by repeat constructor]|].
    destruct m; auto; apply elem_of_app; auto.
  - assert (Hps : (ps ++ [fst (handler req)])%list <> []) by (destruct ps; discriminate).
    split.
    + apply Forall_insert; [|exact Hps].
      eapply Forall_impl; [exact Hh|]. intros [| |]; cbn; auto.
    + assert (Hkeep : Delivered ∈ hs -> Delivered ∈ <[i := Sending (snd (handler req))]> hs).
      { intros Hin. apply list_elem_of_lookup in Hin as [j Hj].
        apply list_elem_of_lookup. exists j.
        rewrite list_lookup_insert_ne; [exact Hj|]. intros ->. congruence. }
      destruct m; auto.
  - split.
    + apply Forall_insert; [exact Hh|]. apply (Hlook _ _ H).
    + apply list_elem_of_insert. eapply lookup_lt_Some. exact H.
  - auto.
Qed.

Lemma answered_reachable (requests : list Request) s : reachable None requests s -> answered s.
Proof.
  unfold reachable. revert s. apply (rtc_ind_r answered).
  - unfold answered, start. cbn. auto.
  - intros s1 s2 _ Hstep IH. eapply answered_step; eauto.
Qed.

(** Once the main flow has a code, the page of the request is written. *)
Lemma returned_after_page (req : Request) (s : state) (code : string) :
  reachable None [req] s -> main s = Returned code ->
  fst (handler req) ∈ written s.
Proof.
  intros Hreach Hmain.
  pose proof (answered_reachable _ _ Hreach) as [Hh Hm].
  pose proof (inv_reachable _ _ _ Hreach) as (_ & _ & _ & Hw & _).
  rewrite Hmain in Hm.
  apply list_elem_of_lookup in Hm as [i Hi].
  pose proof (Forall_lookup_1 _ _ _ _ Hh Hi) as Hne. cbn in Hne.
  destruct (written s) as [|p ps]; [congruence|].
  apply Forall_cons in Hw as [(req' & Hin & ->) _].
  apply list_elem_of_singleton in Hin. subst. constructor.
Qed.

(** One request with the browser open: the five steps of a delivery. *)
Lemma delivery (req : Request) :
  reachable None [req]
    {| main := Returned (snd (handler req)); handlers := [Delivered]; incoming := [];
       serving := false; written := [fst (handler req)] |}.
Proof.
  unfold reachable, start.
  eapply rtc_l; [by apply step_open_ok|].
  eapply rtc_l; [apply step_accept|]. cbn.
  eapply rtc_l; [apply (step_respond _ _ _ 0%nat req); reflexivity|]. cbn.
  eapply rtc_l; [apply (step_handoff _ _ 0%nat (snd (handler req))); reflexivity|]. cbn.
  eapply rtc_l; [apply step_shutdown|]. cbn.
  apply rtc_refl.
Qed.

(** The browser did not start: the main flow skips the receive. *)
Lemma no_browser_returns (err : Error) (requests : list Request) :
  reachable (Some err) requests
    {| main := Returned ""; handlers := []; incoming := requests;
       serving := false; written := [] |}.
Proof.
  unfold reachable, start.
  eapply rtc_l; [by eapply step_open_err|].
  eapply rtc_l; [apply step_shutdown|].
  apply rtc_refl.
Qed.

(** Until it has returned, the main flow of a run without browser can
    take a step of its own: it never waits for another goroutine. *)
Lemma no_browser_progress (err : Error) (requests : list Request) (s : state) :
  reachable (Some err) requests s ->
  has_returned s \/
  exists s', step (Some err) s s' /\ handlers s' = handlers s /\ incoming s' = incoming s.
Proof.
  intros Hreach. pose proof (inv_reachable _ _ _ Hreach) as (_ & _ & _ & _ & Hr & _).
  destruct s as [m hs inc sv ps]; cbn in *. destruct m as [| |code|code].
  - right. eexists. split; [by eapply step_open_err|]. auto.
  - specialize (Hr eq_refl). discriminate.
  - right. eexists. split; [apply step_shutdown|]. auto.
  - left. exists code. reflexivity.
Qed.

End GoroutinesFacts.

(** [launch] against the step relation: it returns a code the goroutines
    can deliver, and it blocks only where they never return. *)
Lemma launch_result (w : World) (url : WebTarget) (listener : string) :
  result (launch w url listener) =
  match OpenURL w url with
  | Some _ => Ret ""
  | None =>
      match callback w with
      | Some req => Ret (snd (handler req))
      | None => Blocked
      end
  end.
Proof.
  unfold launch, receive.
  destruct (OpenURL w url); [reflexivity|].
  destruct (callback w) as [req|]; [|reflexivity].
  destruct (handler req) as [page code] eqn:Hh. reflexivity.
Qed.

Lemma launch_trace (w : World) (url : WebTarget) (listener : string) :
  trace (launch w url listener) =
  ([EvHandleFunc "/"; EvServe listener; EvOpenURL url] ++
   match OpenURL w url with
   | Some _ => [EvShutdown listener]
   | None =>
       match callback w with
       | Some req => [EvCallback req (fst (handler req)); EvShutdown listener]
       | None => []
       end
   end)%list.
Proof.
  unfold launch, receive.
  destruct (OpenURL w url); [reflexivity|].
  destruct (callback w) as [req|]; [|reflexivity].
  destruct (handler req) as [page code] eqn:Hh. reflexivity.
Qed.

Lemma launch_refines_goroutines (w : World) (url : WebTarget) (listener : string) :
  match result (launch w url listener) with
  | Ret code =>
      (exists s, Goroutines.reachable (OpenURL w url) (Goroutines.requests_of w) s /\
                 Goroutines.main s = Goroutines.Returned code /\
                 Goroutines.serving s = false) /\
      (forall s code', Goroutines.reachable (OpenURL w url) (Goroutines.requests_of w) s ->
                       Goroutines.main s = Goroutines.Returned code' -> code' = code)
  | Blocked =>
      forall s, Goroutines.reachable (OpenURL w url) (Goroutines.requests_of w) s ->
                ~ Goroutines.has_returned s /\ Goroutines.serving s = true
  | _ => False
  end.
Proof.
  rewrite launch_result. unfold Goroutines.requests_of.
  destruct (OpenURL w url) as [err|] eqn:Hb.
  - split.
    + eexists. split; [apply GoroutinesFacts.no_browser_returns|]. cbn. auto.
    + intros s code' Hreach Hmain.
      apply GoroutinesFacts.inv_reachable in Hreach as (_ & _ & Hm & _).
      rewrite Hmain in Hm. exact Hm.
  - destruct (callback w) as [req|] eqn:Hc.
    + split.
      * eexists. split; [apply GoroutinesFacts.delivery|]. cbn. auto.
      * intros s code' Hreach Hmain.
        apply GoroutinesFacts.inv_reachable in Hreach as (_ & _ & Hm & _).
        rewrite Hmain in Hm. cbn in Hm. destruct Hm as (req' & Hin & ->).
        apply list_elem_of_singleton in Hin. subst. reflexivity.
    + intros s Hreach.
      apply GoroutinesFacts.waiting_forever in Hreach as (Hm & _ & _ & Hs).
      split; [|exact Hs].
      intros [code Hret]. destruct Hm as [Hm|Hm]; congruence.
Qed.

(** ** [codeToToken] and [doLogin], unfolded *)

Lemma codeToToken_trace (w : World) (verifier code redirect : string) :
  trace (codeToToken w verifier code redirect) =
  [EvTraceln "code2token params:" (TForm (token_form w verifier code redirect));
   EvPost (token_form w verifier code redirect)].
Proof.
  unfold codeToToken. fold (token_form w verifier code redirect).
  rewrite !bind_emit || (unfold Traceln; rewrite !bind_emit). cbn.
  destruct (Post w _) as [err|res]; [reflexivity|].
  destruct (negb _); [|destruct (ReadJson_token res _); reflexivity].
  destruct (nonempty _); [|reflexivity].
  destruct (ReadJson_map res); reflexivity.
Qed.

Lemma codeToToken_result (w : World) (verifier code redirect : string) :
  result (codeToToken w verifier code redirect) =
  Ret match Post w (token_form w verifier code redirect) with
      | inl err => inl (Wrap err exchange_failed)
      | inr res =>
          if Status res =? 200 then inr (fst (ReadJson_token res zeroTokenResponse))
          else if nonempty (MediaType res) then
            match ReadJson_map res with
            | inr json =>
                inl (exchange_failed +:+ ", error: " +:+ fmt_s (index json "error")
                     +:+ " error_description: " +:+ fmt_s (index json "error_description"))
            | inl _ => inl exchange_failed
            end
          else inl exchange_failed
      end.
Proof.
  unfold codeToToken. fold (token_form w verifier code redirect).
  unfold Traceln; rewrite !bind_emit. cbn.
  destruct (Post w _) as [err|res]; [reflexivity|].
  destruct (Status res =? 200); cbn; [destruct (ReadJson_token res _); reflexivity|].
  destruct (nonempty _); [|reflexivity].
  destruct (ReadJson_map res); reflexivity.
Qed.

Lemma doLogin_unfold (w : World) :
  doLogin w =
  match Listen w "tcp" listen_address with
  | Some err =>
      ([EvListen "tcp" listen_address],
       Ret (inl (Wrap err "Cannot start local http server to handle login redirect")))
  | None =>
      match pkce.CreateCodeVerifierWithLength (entropy w) (entropy_err w) pkce.MaxLength with
      | inl err =>
          ([EvListen "tcp" listen_address; EvCreateCodeVerifier pkce.MaxLength],
           Ret (inl (Wrap err "Cannot generate OAuth2 PKCE code_challenge")))
      | inr v =>
          let l := launch w (auth_request w v) listen_address in
          ((EvListen "tcp" listen_address :: EvCreateCodeVerifier pkce.MaxLength ::
            trace l ++
            match result l with
            | Ret code =>
                if nonempty code
                then trace (codeToToken w (pkce.String v) code redirect_uri)
                else []
            | _ => []
            end)%list,
           match result l with
           | Ret code =>
               if nonempty code
               then result (codeToToken w (pkce.String v) code redirect_uri)
               else Ret (inl login_failed)
           | Exited err => Exited err
           | Blocked => Blocked
           | Panicked => Panicked
           end)
      end
  end.
Proof.
  unfold doLogin. rewrite bind_emit.
  destruct (Listen w "tcp" listen_address) as [err|]; [reflexivity|].
  rewrite bind_emit.
  destruct (pkce.CreateCodeVerifierWithLength _ _ _) as [err|v]; [reflexivity|].
  fold redirect_uri. fold (auth_request w v).
  rewrite trace_bind, result_bind. cbn zeta.
  destruct (result (launch w (auth_request w v) listen_address)) as [code| | |];
    try reflexivity.
  destruct (nonempty code); reflexivity.
Qed.

(** ** Waiting for the redirect *)

(** C2, as stated, fails: the browser opens, nobody completes the login,
    and [launch] never returns.  The listener is never shut down: the
    five-second context belongs to the deferred [Shutdown], which runs only
    when [launch] returns. *)
Lemma launch_blocks_without_callback :
  let url := auth_request Sample.abandoned {| pkce.Value := "verifier" |} in
  let run := launch Sample.abandoned url listen_address in
  OpenURL Sample.abandoned url = None /\
  callback Sample.abandoned = None /\
  ~ (exists code, result run = Ret code) /\
  ~ In (EvShutdown listen_address) (trace run) /\
  (forall s, Goroutines.reachable None [] s ->
             ~ Goroutines.has_returned s /\ Goroutines.serving s = true).
Proof.
  cbv zeta. split_and!; try reflexivity.
  - rewrite launch_result. cbn. intros [code H]. discriminate.
  - rewrite launch_trace. cbn. intros H. repeat destruct H as [H|H]; try discriminate H.
    exact H.
  - intros s Hreach.
    apply GoroutinesFacts.waiting_forever in Hreach as (Hm & _ & _ & Hs).
    split; [|exact Hs].
    intros [code Hret]. destruct Hm as [Hm|Hm]; congruence.
Qed.

(** C2, amended: with the browser open, [launch] returns exactly when a
    redirect callback reaches the listener; it then hands back the code of
    that callback and ends with the deferred shutdown of the listener.
    Without a callback it stays blocked on the receive: no result, no
    shutdown, the listener still serving in every reachable state. *)
Theorem launch_waits_for_callback (w : World) (url : WebTarget) (listener : string) :
  OpenURL w url = None ->
  let run := launch w url listener in
  (forall req, callback w = Some req ->
     result run = Ret (Get (Query req) "code") /\
     (exists t, trace run = (t ++ [EvShutdown listener])%list) /\
     (exists s, Goroutines.reachable None [req] s /\
                Goroutines.main s = Goroutines.Returned (Get (Query req) "code") /\
                Goroutines.serving s = false)) /\
  (callback w = None ->
     result run = Blocked /\
     ~ In (EvShutdown listener) (trace run) /\
     (forall s, Goroutines.reachable None [] s ->
                ~ Goroutines.has_returned s /\ Goroutines.serving s = true)).
Proof.
  intros Hb run. subst run. split.
  - intros req Hc. rewrite launch_result, launch_trace, Hb, Hc. split_and!.
    + reflexivity.
    + exists [EvHandleFunc "/"; EvServe listener; EvOpenURL url;
              EvCallback req (fst (handler req))]. reflexivity.
    + eexists. split; [apply GoroutinesFacts.delivery|]. cbn. auto.
  - intros Hc. rewrite launch_result, launch_trace, Hb, Hc. split_and!.
    + reflexivity.
    + cbn. intros H. repeat destruct H as [H|H]; try discriminate H. exact H.
    + intros s Hreach.
      apply GoroutinesFacts.waiting_forever in Hreach as (Hm & _ & _ & Hs).
      split; [|exact Hs].
      intros [code Hret]. destruct Hm as [Hm|Hm]; congruence.
Qed.

Lemma launch_waits_for_callback_witness :
  OpenURL Sample.login (Authorization Sample.login) = None /\
  result (launch Sample.login (Authorization Sample.login) listen_address) = Ret "ABC123".
Proof.
  split; [reflexivity|].
  exact (proj1 (proj1 (launch_waits_for_callback Sample.login (Authorization Sample.login)
                         listen_address eq_refl) Sample.req_code eq_refl)).
Defined.

(** ** The redirect handler *)

Lemma Get_first (q : Values) (key value : string) (rest : list string) :
  q !! key = Some (value :: rest) -> Get q key = value.
Proof. unfold Get. intros ->. reflexivity. Qed.

Lemma Get_none (q : Values) (key : string) :
  q !! key = None \/ q !! key = Some [] \/ (exists rest, q !! key = Some ("" :: rest)) ->
  Get q key = "".
Proof. unfold Get. intros [->|[->|[rest ->]]]; reflexivity. Qed.

Lemma handler_code (req : Request) : snd (handler req) = Get (Query req) "code".
Proof. reflexivity. Qed.

Lemma handler_body (req : Request) :
  body (fst (handler req)) =
  page_body (if nonempty (Get (Query req) "code") then "Login successful" else "Login failed").
Proof. unfold handler. cbn. destruct (nonempty _); reflexivity. Qed.

(** C4: a callback with a non-empty [code] parameter has that very value
    delivered to the waiting flow and is answered, with status 200, by the
    page whose only message line is "Login successful"; a callback whose
    [code] is absent or empty delivers the empty string and is answered by
    the page whose only message line is "Login failed".  The two pages are
    spelled out character by character ([lf] is the line feed of the
    [Sprintf] template) and they differ.  What the handler sends is what
    [launch] returns, in the sequential model and in every interleaving of
    the goroutines. *)
Theorem callback_delivers_code (req : Request) :
  let lf := String "010"%char EmptyString in
  let successful :=
    "<!DOCTYPE html>" +:+ lf +:+ "<body>" +:+ lf +:+ "Login successful" +:+ lf
    +:+ "</body>" +:+ lf +:+ "</html>" +:+ lf in
  let failed :=
    "<!DOCTYPE html>" +:+ lf +:+ "<body>" +:+ lf +:+ "Login failed" +:+ lf
    +:+ "</body>" +:+ lf +:+ "</html>" +:+ lf in
  (forall code rest,
     Query req !! "code" = Some (code :: rest) -> code <> "" ->
     snd (handler req) = code /\
     status (fst (handler req)) = 200 /\
     body (fst (handler req)) = successful /\
     body (fst (handler req)) = page_body "Login successful" /\
     contains "Login successful" (body (fst (handler req))) /\
     body (fst (handler req)) <> failed) /\
  (Query req !! "code" = None \/ Query req !! "code" = Some [] \/
   (exists rest, Query req !! "code" = Some ("" :: rest)) ->
     snd (handler req) = "" /\
     status (fst (handler req)) = 200 /\
     body (fst (handler req)) = failed /\
     body (fst (handler req)) = page_body "Login failed" /\
     contains "Login failed" (body (fst (handler req))) /\
     body (fst (handler req)) <> successful) /\
  successful <> failed /\
  (forall w url listener,
     OpenURL w url = None -> callback w = Some req ->
     result (launch w url listener) = Ret (snd (handler req)) /\
     In (EvCallback req (fst (handler req))) (trace (launch w url listener))) /\
  (forall s code,
     Goroutines.reachable None [req] s ->
     Goroutines.main s = Goroutines.Returned code ->
     code = snd (handler req) /\ fst (handler req) ∈ Goroutines.written s).
Proof.
  intros lf successful failed.
  assert (Hdiff : successful <> failed) by (intros H; discriminate H).
  assert (Hs : page_body "Login successful" = successful) by reflexivity.
  assert (Hf : page_body "Login failed" = failed) by reflexivity.
  split_and!.
  - intros code rest Hq Hne. rewrite handler_body, handler_code.
    rewrite (Get_first _ _ _ _ Hq). apply nonempty_true in Hne. rewrite Hne, Hs.
    split_and!; try reflexivity; [|exact Hdiff].
    exists ("<!DOCTYPE html>" +:+ lf +:+ "<body>" +:+ lf),
           (lf +:+ "</body>" +:+ lf +:+ "</html>" +:+ lf). reflexivity.
  - intros Hq. rewrite handler_body, handler_code.
    rewrite (Get_none _ _ Hq). cbn [nonempty]. rewrite Hf.
    split_and!; try reflexivity; [|intros H; apply Hdiff; symmetry; exact H].
    exists ("<!DOCTYPE html>" +:+ lf +:+ "<body>" +:+ lf),
           (lf +:+ "</body>" +:+ lf +:+ "</html>" +:+ lf). reflexivity.
  - exact Hdiff.
  - intros w url listener Hb Hc. rewrite launch_result, launch_trace, Hb, Hc.
    split; [reflexivity|]. cbn. auto.
  - intros s code Hreach Hmain.
    assert (Hcode : code = snd (handler req)).
    { apply GoroutinesFacts.inv_reachable in Hreach as (_ & _ & Hm & _).
      rewrite Hmain in Hm. cbn in Hm. destruct Hm as (req' & Hin & ->).
      apply list_elem_of_singleton in Hin. subst. reflexivity. }
    split; [exact Hcode|].
    eapply GoroutinesFacts.returned_after_page; eauto.
Qed.

Lemma callback_delivers_code_witness :
  let lf := String "010"%char EmptyString in
  snd (handler Sample.req_code) = "ABC123" /\
  body (fst (handler Sample.req_code)) =
    "<!DOCTYPE html>" +:+ lf +:+ "<body>" +:+ lf +:+ "Login successful" +:+ lf
    +:+ "</body>" +:+ lf +:+ "</html>" +:+ lf /\
  snd (handler Sample.req_nocode) = "" /\
  body (fst (handler Sample.req_nocode)) =
    "<!DOCTYPE html>" +:+ lf +:+ "<body>" +:+ lf +:+ "Login failed" +:+ lf
    +:+ "</body>" +:+ lf +:+ "</html>" +:+ lf.
Proof.
  intros lf.
  pose proof (proj1 (callback_delivers_code Sample.req_code) "ABC123" [] eq_refl
                ltac:(discriminate)) as (H1 & _ & H2 & _).
  pose proof (proj1 (proj2 (callback_delivers_code Sample.req_nocode))
                (or_introl eq_refl)) as (H3 & _ & H4 & _).
  exact (conj H1 (conj H2 (conj H3 H4))).
Defined.

(** ** Order of bind and browser *)

Lemma doLogin_starts_with_listen (w : World) :
  exists rest, trace (doLogin w) = EvListen "tcp" listen_address :: rest.
Proof.
  rewrite doLogin_unfold.
  destruct (Listen w "tcp" listen_address); [eexists; reflexivity|].
  destruct (pkce.CreateCodeVerifierWithLength _ _ _); eexists; reflexivity.
Qed.

Lemma doLogin_bind_failure (w : World) (err : Error) :
  Listen w "tcp" listen_address = Some err ->
  trace (doLogin w) = [EvListen "tcp" listen_address].
Proof. intros H. rewrite doLogin_unfold, H. reflexivity. Qed.

(** C8: in every login attempt the listener on 127.0.0.1:8118 is bound
    before the browser is opened, and a browser that cannot be started
    makes [launch] return the empty code at once, without waiting on the
    channel, so that [doLogin] reports the login failure. *)
Theorem listener_bound_before_browser (w : World) :
  (forall pre url post,
     trace (doLogin w) = (pre ++ EvOpenURL url :: post)%list ->
     Listen w "tcp" "127.0.0.1:8118" = None /\
     exists rest, pre = EvListen "tcp" "127.0.0.1:8118" :: rest) /\
  (forall url listener err,
     OpenURL w url = Some err ->
     result (launch w url listener) = Ret "" /\
     (exists s, Goroutines.reachable (Some err) (Goroutines.requests_of w) s /\
                Goroutines.main s = Goroutines.Returned "") /\
     (forall s, Goroutines.reachable (Some err) (Goroutines.requests_of w) s ->
                Goroutines.main s <> Goroutines.AtReceive)) /\
  (forall v err,
     Listen w "tcp" "127.0.0.1:8118" = None ->
     pkce.CreateCodeVerifierWithLength (entropy w) (entropy_err w) pkce.MaxLength = inr v ->
     OpenURL w (auth_request w v) = Some err ->
     result (doLogin w) = Ret (inl "Login failed, can't retrieve authorization code")).
Proof.
  split_and!.
  - intros pre url post Ht.
    destruct (Listen w "tcp" "127.0.0.1:8118") as [err|] eqn:Hl.
    + rewrite (doLogin_bind_failure w err Hl) in Ht.
      destruct pre as [|e [|e' pre]]; discriminate.
    + split; [reflexivity|].
      destruct (doLogin_starts_with_listen w) as [rest Hrest]. rewrite Hrest in Ht.
      destruct pre as [|e pre]; [discriminate|].
      injection Ht as <- _. eauto.
  - intros url listener err Hb. rewrite launch_result, Hb. split_and!.
    + reflexivity.
    + eexists. split; [apply GoroutinesFacts.no_browser_returns|]. reflexivity.
    + intros s Hreach Hmain.
      apply GoroutinesFacts.inv_reachable in Hreach as (_ & _ & _ & _ & Hr & _).
      specialize (Hr Hmain). discriminate.
  - intros v err Hl Hv Hb. rewrite doLogin_unfold.
    change "127.0.0.1:8118" with listen_address in Hl. rewrite Hl, Hv. cbn zeta.
    rewrite launch_result, Hb. reflexivity.
Qed.

Lemma listener_bound_before_browser_witness :
  OpenURL Sample.headless (Authorization Sample.headless) = Some "exec: xdg-open: not found" /\
  result (launch Sample.headless (Authorization Sample.headless) listen_address) = Ret "" /\
  result (doLogin Sample.headless) = Ret (inl login_failed).
Proof.
  split; [reflexivity|]. split.
  - exact (proj1 (proj1 (proj2 (listener_bound_before_browser Sample.headless))
                    (Authorization Sample.headless) listen_address _ eq_refl)).
  - eapply (proj2 (proj2 (listener_bound_before_browser Sample.headless))); reflexivity.
Defined.

(** ** The token exchange *)

Lemma append_assoc (a b c : string) : (a +:+ b) +:+ c = a +:+ (b +:+ c).
Proof.
  induction a as [|x a IH]; [reflexivity|].
  change (String x ((a +:+ b) +:+ c) = String x (a +:+ (b +:+ c))). f_equal. exact IH.
Qed.

Lemma append_empty (s : string) : s +:+ "" = s.
Proof.
  induction s as [|x s IH]; [reflexivity|].
  change (String x (s +:+ "") = String x s). f_equal. exact IH.
Qed.

Lemma contains_middle (a s b : string) : contains s (a +:+ s +:+ b).
Proof. exists a, b. reflexivity. Qed.

Lemma contains_suffix (a s : string) : contains s (a +:+ s).
Proof.
  exists a, "". rewrite append_empty. reflexivity.
Qed.

(** C3: a token-endpoint response whose status is not 200 makes
    [codeToToken] return an error and no token response.  When the response
    declares a media type and its body is read as JSON, the message carries
    the body's [error] and [error_description]; otherwise it is the generic
    failure message. *)
Theorem non_200_is_an_error (w : World) (verifier code redirect : string) (res : Response) :
  Post w (token_form w verifier code redirect) = inr res ->
  Status res <> 200 ->
  let r := result (codeToToken w verifier code redirect) in
  (exists msg, r = Ret (inl msg)) /\
  (forall json,
     MediaType res <> "" -> ReadJson_map res = inr json ->
     r = Ret (inl ("Failed to turn code into token, error: "
                   +:+ fmt_s (index json "error")
                   +:+ " error_description: "
                   +:+ fmt_s (index json "error_description"))) /\
     (forall e d,
        json !! "error" = Some (VString e) ->
        json !! "error_description" = Some (VString d) ->
        exists msg, r = Ret (inl msg) /\ contains e msg /\ contains d msg)) /\
  (MediaType res = "" \/ (exists err, ReadJson_map res = inl err) ->
     r = Ret (inl "Failed to turn code into token")).
Proof.
  intros Hp Hs r. subst r. rewrite codeToToken_result, Hp.
  apply Z.eqb_neq in Hs. rewrite Hs.
  split_and!.
  - destruct (nonempty _); [destruct (ReadJson_map res)|]; eauto.
  - intros json Hm Hj. apply nonempty_true in Hm. rewrite Hm, Hj.
    split; [reflexivity|].
    intros e d He Hd. eexists. split; [reflexivity|].
    unfold index. rewrite He, Hd. cbn [default fmt_s]. split.
    + rewrite <- append_assoc. apply contains_middle.
    + rewrite <- !append_assoc. apply contains_suffix.
  - intros [Hm|[err Hj]].
    + apply nonempty_false in Hm. rewrite Hm. reflexivity.
    + rewrite Hj. destruct (nonempty _); reflexivity.
Qed.

Lemma non_200_is_an_error_witness :
  Post Sample.expired_code (token_form Sample.expired_code "v" "ABC123" redirect_uri)
    = inr Sample.token_invalid_grant /\
  Status Sample.token_invalid_grant <> 200 /\
  result (codeToToken Sample.expired_code "v" "ABC123" redirect_uri) =
  Ret (inl "Failed to turn code into token, error: invalid_grant error_description: code expired").
Proof.
  assert (Hs : Status Sample.token_invalid_grant <> 200) by discriminate.
  split; [reflexivity|]. split; [exact Hs|].
  exact (proj1 (proj1 (proj2 (non_200_is_an_error Sample.expired_code "v" "ABC123" redirect_uri
                                Sample.token_invalid_grant eq_refl Hs))
                 _ ltac:(discriminate) eq_refl)).
Defined.

(** ** The verifier and its challenge *)

Lemma list_ind3 {A} (P : list A -> Prop) :
  P [] -> (forall a, P [a]) -> (forall a b, P [a; b]) ->
  (forall a b c l, P l -> P (a :: b :: c :: l)) ->
  forall l, P l.
Proof.
  intros H0 H1 H2 H3.
  assert (H : forall l, P l /\ (forall a, P (a :: l)) /\ (forall a b, P (a :: b :: l))).
  { induction l as [|x l (IH0 & IH1 & IH2)]; [auto|].
    split_and!; auto. }
  intros l. apply H.
Qed.

(** Character by character, the standard alphabet with [+] and [/]
    replaced is the URL alphabet, which has no [=]. *)
Lemma std_to_url (n : nat) :
  let c := default "A"%char (String.get n base64.encodeStd) in
  let c := if Ascii.eqb c "+" then "-"%char else c in
  let c := if Ascii.eqb c "/" then "_"%char else c in
  Ascii.eqb c "=" = false /\
  c = default "A"%char (String.get n base64.encodeURL).
Proof.
  do 64 (destruct n as [|n]; [split; reflexivity|]).
  split; reflexivity.
Qed.

Lemma enc_default (e : base64.Encoding) (i : Z) :
  base64.enc e i = default "A"%char (String.get (Z.to_nat i) (base64.alphabet e)).
Proof. unfold base64.enc. destruct (String.get _ _); reflexivity. Qed.

Lemma url_char (i : Z) (s : string) :
  remove_char "=" (replace_char "/" "_" (replace_char "+" "-"
    (String (base64.enc base64.StdEncoding i) s))) =
  String (base64.enc base64.RawURLEncoding i)
    (remove_char "=" (replace_char "/" "_" (replace_char "+" "-" s))).
Proof.
  rewrite !enc_default. cbn [base64.alphabet base64.StdEncoding base64.RawURLEncoding].
  destruct (std_to_url (Z.to_nat i)) as [Hne Heq]. cbv zeta in Hne, Heq.
  cbn [replace_char remove_char]. rewrite Hne, Heq. reflexivity.
Qed.

Lemma url_pad (s : string) :
  remove_char "=" (replace_char "/" "_" (replace_char "+" "-"
    (base64.padded base64.StdEncoding s))) =
  remove_char "=" (replace_char "/" "_" (replace_char "+" "-" s)).
Proof. reflexivity. Qed.

(** The [encode] of the [pkce] package is unpadded base64url. *)
Lemma encode_is_base64url (msg : list Z) :
  pkce.encode msg = base64.EncodeToString base64.RawURLEncoding msg.
Proof.
  unfold pkce.encode. induction msg as [|a|a b|a b c l IH] using list_ind3.
  - reflexivity.
  - cbn [base64.EncodeToString]. rewrite !url_char, !url_pad. reflexivity.
  - cbn [base64.EncodeToString]. rewrite !url_char, !url_pad. reflexivity.
  - cbn [base64.EncodeToString]. rewrite !url_char, IH. reflexivity.
Qed.

Lemma base64url_length (msg : list Z) :
  String.length (base64.EncodeToString base64.RawURLEncoding msg) =
  ((4 * length msg + 2) / 3)%nat.
Proof.
  induction msg as [|a|a b|a b c l IH] using list_ind3; try reflexivity.
  cbn [base64.EncodeToString String.length]. rewrite IH.
  cbn [length].
  replace (4 * S (S (S (length l))) + 2)%nat with (4 * length l + 2 + 4 * 3)%nat by lia.
  rewrite Nat.div_add by lia. lia.
Qed.

Lemma randomBytes_length (src : nat -> Z) (n : nat) :
  length (pkce.randomBytes src n) = n.
Proof. unfold pkce.randomBytes. rewrite length_map, length_seq. reflexivity. Qed.

Lemma challenge_is_S256 (v : pkce.CodeVerifier) :
  pkce.CodeChallengeS256 v = S256 (pkce.String v).
Proof. unfold pkce.CodeChallengeS256, S256, pkce.String. apply encode_is_base64url. Qed.

Lemma verifier_length (src : nat -> Z) (src_err : option Error) (n : Z) (v : pkce.CodeVerifier) :
  pkce.CreateCodeVerifierWithLength src src_err n = inr v ->
  pkce.MinLength <= n <= pkce.MaxLength /\
  String.length (pkce.String v) = ((4 * Z.to_nat n + 2) / 3)%nat.
Proof.
  unfold pkce.CreateCodeVerifierWithLength.
  destruct (n <? pkce.MinLength) eqn:Hlo; [discriminate|].
  destruct (pkce.MaxLength <? n) eqn:Hhi; [discriminate|]. cbn [orb].
  destruct src_err; [discriminate|]. intros [= <-].
  apply Z.ltb_ge in Hlo, Hhi. split; [lia|].
  unfold pkce.String, pkce.CreateCodeVerifierFromBytes. cbn [pkce.Value].
  rewrite encode_is_base64url, base64url_length, randomBytes_length. reflexivity.
Qed.

Lemma param_QueryParam (name key value : string) (t : WebTarget) :
  param name (QueryParam key value t) =
  (param name t ++ if String.eqb key name then [value] else [])%list.
Proof.
  unfold param, QueryParam. cbn [query]. rewrite List.filter_app, List.map_app.
  cbn. destruct (String.eqb key name); reflexivity.
Qed.

Lemma auth_request_challenge (w : World) (v : pkce.CodeVerifier) :
  param "code_challenge" (auth_request w v) =
  (param "code_challenge" (Authorization w) ++ [pkce.CodeChallengeS256 v])%list.
Proof.
  unfold auth_request. rewrite !param_QueryParam. cbn [String.eqb Ascii.eqb].
  cbn. rewrite !app_nil_r. reflexivity.
Qed.


Lemma verifier_length_bounds (n : Z) :
  pkce.MinLength <= n <= pkce.MaxLength ->
  (43 <= (4 * Z.to_nat n + 2) / 3 <= 128)%nat.
Proof.
  unfold pkce.MinLength, pkce.MaxLength. intros Hn.
  pose proof (Nat.div_mod_eq (4 * Z.to_nat n + 2) 3) as Hq.
  pose proof (Nat.mod_upper_bound (4 * Z.to_nat n + 2) 3 ltac:(lia)) as Hr.
  lia.
Qed.

Lemma doLogin_opens_auth_request (w : World) (v : pkce.CodeVerifier) :
  Listen w "tcp" listen_address = None ->
  pkce.CreateCodeVerifierWithLength (entropy w) (entropy_err w) pkce.MaxLength = inr v ->
  In (EvOpenURL (auth_request w v)) (trace (doLogin w)).
Proof.
  intros Hl Hv. rewrite doLogin_unfold, Hl, Hv. cbv zeta. rewrite launch_trace.
  cbn. auto 10.
Qed.



(** C6: the verifier [doLogin] asks for has the maximal length, 128
    characters, every verifier the generator yields has between 43 and 128,
    and the challenge is the S256 transform of the verifier: the unpadded
    base64url text of its SHA-256 digest.  That challenge is what the
    authorization request carries. *)
Theorem verifier_is_maximal_and_challenge_is_S256 (w : World) (v : pkce.CodeVerifier) :
  pkce.CreateCodeVerifierWithLength (entropy w) (entropy_err w) pkce.MaxLength = inr v ->
  String.length (pkce.String v) = 128%nat /\
  (forall src src_err n v',
     pkce.CreateCodeVerifierWithLength src src_err n = inr v' ->
     (43 <= String.length (pkce.String v') <= 128)%nat) /\
  pkce.CodeChallengeS256 v =
    base64.EncodeToString base64.RawURLEncoding
      (sha256.Sum256 (bytes_of_string (pkce.String v))) /\
  (Listen w "tcp" listen_address = None ->
   In (EvOpenURL (auth_request w v)) (trace (doLogin w)) /\
   param "code_challenge" (auth_request w v) =
     (param "code_challenge" (Authorization w) ++ [S256 (pkce.String v)])%list).
Proof.
  intros Hv. split_and!.
  - apply verifier_length in Hv as [_ ->]. reflexivity.
  - intros src src_err n v' Hv'. apply verifier_length in Hv' as [Hn ->].
    apply verifier_length_bounds. exact Hn.
  - apply challenge_is_S256.
  - intros Hl. split.
    + apply doLogin_opens_auth_request; assumption.
    + rewrite auth_request_challenge, challenge_is_S256. reflexivity.
Qed.

Lemma verifier_is_maximal_and_challenge_is_S256_witness :
  String.length (pkce.String (pkce.CreateCodeVerifierFromBytes
                                (pkce.randomBytes (entropy Sample.login) 96))) = 128%nat.
Proof.
  exact (proj1 (verifier_is_maximal_and_challenge_is_S256 Sample.login _ eq_refl)).
Defined.

(** ** [Authenticate] in stages *)

Lemma Authenticate_stages (w : World) (roleArn : string) (d : Z) (useSecret asJson : bool) :
  Authenticate w roleArn d useSecret asJson =
  (p ← lookup_secret w (resolved_role w roleArn) useSecret;
   valid ← isValid w (fst p);
   awsCreds ← (if negb valid || bool_decide (is_Some (snd p))
               then login_and_exchange w (resolved_role w roleArn) d useSecret
               else mret (fst p));
   output w asJson awsCreds).
Proof.
  unfold Authenticate, lookup_secret, login_and_exchange, output, resolved_role,
    resolved_duration.
  destruct useSecret.
  - rewrite !bind_emit. cbn [mbind Run_bind trace result mret Run_ret].
    destruct (AWSCredential w _) as [c e]. reflexivity.
  - reflexivity.
Qed.

Lemma in_trace_bind {A B} (m : Run A) (f : A -> Run B) (e : Event) :
  In e (trace (m ≫= f)) <->
  In e (trace m) \/ exists a, result m = Ret a /\ In e (trace (f a)).
Proof.
  rewrite trace_bind, in_app_iff.
  destruct (result m) as [a| | |]; split; intros [H|H]; auto.
  - eauto.
  - destruct H as (a' & [= <-] & H). auto.
  - destruct H.
  - destruct H as (a' & H' & _). discriminate.
  - destruct H.
  - destruct H as (a' & H' & _). discriminate.
  - destruct H.
  - destruct H as (a' & H' & _). discriminate.
Qed.

Lemma lookup_secret_events (w : World) (role : string) (useSecret : bool) (e : Event) :
  In e (trace (lookup_secret w role useSecret)) -> e = EvAWSCredential role.
Proof.
  unfold lookup_secret. destruct useSecret; cbn.
  - destruct (AWSCredential w role). cbn. intros [H|[]]. congruence.
  - intros [].
Qed.

Lemma isValid_events (w : World) (cred : option AWSCredentials) (e : Event) :
  In e (trace (isValid w cred)) -> is_check_event e = true.
Proof.
  unfold isValid. destruct cred as [cred|]; [|intros []].
  destruct (NewSession w); cbn.
  - intros H. repeat destruct H as [H|H]; subst; try reflexivity. destruct H.
  - destruct (GetCallerIdentity w _ _ _); cbn;
      intros H; repeat destruct H as [H|H]; subst; try reflexivity; destruct H.
Qed.

Lemma output_events (w : World) (asJson : bool) (c : option AWSCredentials) (e : Event) :
  In e (trace (output w asJson c)) -> is_output_event e = true.
Proof.
  unfold output. destruct c as [c|]; [|intros []].
  destruct asJson; [destruct (Marshal w _)|]; cbn;
    intros H; repeat destruct H as [H|H]; subst; try reflexivity; destruct H.
Qed.

Lemma codeToToken_events (w : World) (verifier code redirect : string) (e : Event) :
  In e (trace (codeToToken w verifier code redirect)) -> is_login_event e = true.
Proof.
  rewrite codeToToken_trace. intros [H|[H|[]]]; subst; reflexivity.
Qed.

Lemma launch_events (w : World) (url : WebTarget) (listener : string) (e : Event) :
  In e (trace (launch w url listener)) -> is_login_event e = true.
Proof.
  rewrite launch_trace. destruct (OpenURL w url); [|destruct (callback w)]; cbn;
    intros H; repeat destruct H as [H|H]; subst; try reflexivity; destruct H.
Qed.

Lemma doLogin_events (w : World) (e : Event) :
  In e (trace (doLogin w)) -> is_login_event e = true.
Proof.
  rewrite doLogin_unfold.
  destruct (Listen w "tcp" listen_address).
  { cbn. intros [H|[]]; subst; reflexivity. }
  destruct (pkce.CreateCodeVerifierWithLength _ _ _) as [err|v].
  { cbn. intros [H|[H|[]]]; subst; reflexivity. }
  cbv zeta. cbn [trace fst]. intros [H|[H|H]]; subst; try reflexivity.
  apply in_app_iff in H as [H|H]; [eapply launch_events; eauto|].
  destruct (result (launch _ _ _)) as [code| | |]; try destruct H.
  destruct (nonempty code); [eapply codeToToken_events; eauto|destruct H].
Qed.

(** The one credential exchange of a run: for the resolved role, with the
    resolved duration, on the identity token [doLogin] returned. *)
Lemma login_and_exchange_call (w : World) (role : string) (d : Z) (useSecret : bool)
    (idToken r : string) (duration : Z) :
  In (EvGetCredentialsWithOIDC idToken r duration)
     (trace (login_and_exchange w role d useSecret)) ->
  r = role /\ duration = resolved_duration w d /\
  exists tok, result (doLogin w) = Ret (inr tok) /\ idToken = IDToken tok.
Proof.
  unfold login_and_exchange. intros H.
  apply in_trace_bind in H as [H|(r0 & Hr & H)].
  { apply doLogin_events in H. discriminate. }
  apply in_trace_bind in H as [H|(tok & Htok & H)].
  { destruct r0; cbn in H; repeat destruct H as [H|H]; try discriminate H; destruct H. }
  destruct r0 as [err|tok']; [discriminate|]. injection Htok as ->.
  unfold Writeln, Traceln in H. rewrite !bind_emit in H. cbn [trace fst] in H.
  destruct H as [H|[H|[H|H]]]; try discriminate H.
  - injection H as <- <- <-. eauto.
  - destruct (GetCredentialsWithOIDC w _ _ _); [|destruct useSecret]; cbn in H;
      repeat destruct H as [H|H]; try discriminate H; destruct H.
Qed.

Lemma login_and_exchange_trace (w : World) (role : string) (d : Z) (useSecret : bool)
    (tok : TokenResponse) :
  result (doLogin w) = Ret (inr tok) ->
  exists rest,
    trace (login_and_exchange w role d useSecret) =
    (trace (doLogin w) ++
     [EvWriteln "Login successful!";
      EvTraceln "ID token: %s" (TString (IDToken tok));
      EvGetCredentialsWithOIDC (IDToken tok) role (resolved_duration w d)] ++ rest)%list.
Proof.
  intros Hr. unfold login_and_exchange.
  rewrite trace_bind, Hr. rewrite bind_ret.
  unfold Writeln, Traceln. rewrite !bind_emit. cbn [trace fst].
  eexists. reflexivity.
Qed.

Lemma Authenticate_exchange (w : World) (roleArn : string) (d : Z) (useSecret asJson : bool)
    (idToken r : string) (duration : Z) :
  In (EvGetCredentialsWithOIDC idToken r duration)
     (trace (Authenticate w roleArn d useSecret asJson)) ->
  r = resolved_role w roleArn /\ duration = resolved_duration w d /\
  exists tok, result (doLogin w) = Ret (inr tok) /\ idToken = IDToken tok.
Proof.
  rewrite Authenticate_stages. intros H.
  apply in_trace_bind in H as [H|(p & _ & H)].
  { apply lookup_secret_events in H. discriminate. }
  apply in_trace_bind in H as [H|(valid & _ & H)].
  { apply isValid_events in H. discriminate. }
  apply in_trace_bind in H as [H|(c & _ & H)].
  - destruct (negb valid || _); [|destruct H].
    eapply login_and_exchange_call; eauto.
  - apply output_events in H. discriminate.
Qed.

(** Without the secret store the run is the login, the exchange and the
    output. *)
Lemma Authenticate_fresh (w : World) (roleArn : string) (d : Z) (asJson : bool) :
  Authenticate w roleArn d false asJson =
  (login_and_exchange w (resolved_role w roleArn) d false ≫= output w asJson).
Proof.
  rewrite Authenticate_stages. unfold lookup_secret. rewrite bind_ret. cbn [fst snd].
  change (isValid w None) with (mret false : Run bool). rewrite bind_ret. reflexivity.
Qed.

Lemma Authenticate_fresh_exchange (w : World) (roleArn : string) (d : Z) (asJson : bool)
    (tok : TokenResponse) :
  result (doLogin w) = Ret (inr tok) ->
  In (EvWriteln "Login successful!") (trace (Authenticate w roleArn d false asJson)) /\
  In (EvGetCredentialsWithOIDC (IDToken tok) (resolved_role w roleArn) (resolved_duration w d))
     (trace (Authenticate w roleArn d false asJson)).
Proof.
  intros Hr. rewrite Authenticate_fresh.
  destruct (login_and_exchange_trace w (resolved_role w roleArn) d false tok Hr) as [rest Ht].
  split; apply in_trace_bind; left; rewrite Ht; apply in_app_iff; right; cbn; auto.
Qed.

(** ** The session duration *)

Lemma digits_nonneg (s : string) (acc n : Z) :
  strconv.digits s acc = Some n -> 0 <= acc -> 0 <= n.
Proof.
  revert acc. induction s as [|c s IH]; intros acc; cbn [strconv.digits].
  - intros [= <-]. auto.
  - unfold strconv.digit. destruct (_ && _) eqn:Hd; [|discriminate].
    apply andb_true_iff in Hd as [Hlo Hhi]. apply Z.leb_le in Hlo, Hhi.
    intros H Hacc. apply IH in H; lia.
Qed.

Lemma ParseUint_nonneg (s : string) : 0 <= fst (strconv.ParseUint s).
Proof.
  unfold strconv.ParseUint. destruct s as [|c s]; [cbn; lia|].
  destruct (strconv.digits _ 0) as [n|] eqn:Hn; [|cbn; lia].
  apply digits_nonneg in Hn; [|lia].
  destruct (strconv.maxUint64 <? n); cbn; [unfold strconv.maxUint64|]; lia.
Qed.

(** What [ParseInt] accepts fits a signed 64-bit integer. *)
Lemma ParseInt_range (s : string) (parsed : Z) :
  strconv.ParseInt s = (parsed, None) -> - 2 ^ 63 <= parsed < 2 ^ 63.
Proof.
  unfold strconv.ParseInt. destruct s as [|c0 rest]; [discriminate|].
  cbv zeta.
  generalize (ParseUint_nonneg
                (if Ascii.eqb c0 "+" || Ascii.eqb c0 "-" then rest else String c0 rest)).
  destruct (strconv.ParseUint _) as [un err]. cbn [fst]. intros Hnn.
  destruct err as [[|]|]; [discriminate| |];
    (destruct (Ascii.eqb c0 "-"); cbn [negb andb];
     [destruct (2 ^ 63 <? un) eqn:Hc; [discriminate|apply Z.ltb_ge in Hc]
     |destruct (2 ^ 63 <=? un) eqn:Hc; [discriminate|apply Z.leb_gt in Hc]];
     intros [= <-]; lia).
Qed.

Example ParseInt_examples :
  List.map strconv.ParseInt ["3600"; "-5"; "+7"; "60"; "100000"] =
    [(3600, None); (-5, None); (7, None); (60, None); (100000, None)] /\
  List.map (fun s => snd (strconv.ParseInt s))
           [""; "12a"; " 5"; "1_000"; "0x10"; "-"; "9223372036854775808"] =
    [Some strconv.ErrSyntax; Some strconv.ErrSyntax; Some strconv.ErrSyntax;
     Some strconv.ErrSyntax; Some strconv.ErrSyntax; Some strconv.ErrSyntax;
     Some strconv.ErrRange].
Proof. split; vm_compute; reflexivity. Qed.

Lemma resolved_duration_parsed (w : World) (d parsed : Z) :
  d <= 0 ->
  strconv.ParseInt (GetString w MAX_SESSION_DURATION_SECONDS) = (parsed, None) ->
  resolved_duration w d = parsed.
Proof.
  intros Hd Hp. unfold resolved_duration. apply Z.leb_le in Hd. rewrite Hd, Hp. reflexivity.
Qed.

Lemma resolved_duration_default (w : World) (d parsed : Z) (err : strconv.NumError) :
  d <= 0 ->
  strconv.ParseInt (GetString w MAX_SESSION_DURATION_SECONDS) = (parsed, Some err) ->
  resolved_duration w d = 3600.
Proof.
  intros Hd Hp. unfold resolved_duration. apply Z.leb_le in Hd. rewrite Hd, Hp. reflexivity.
Qed.

(** C9: with a caller-supplied duration of zero or less, the configured
    [max_session_duration_seconds] is parsed as a decimal signed 64-bit
    integer and handed to the credential exchange as it is, whatever its
    value; when the parse fails, as it does for a missing or empty key,
    the exchange is called with exactly 3600. *)
Theorem duration_from_configuration (w : World) (roleArn : string) (d : Z)
    (useSecret asJson : bool) :
  d <= 0 ->
  let run := Authenticate w roleArn d useSecret asJson in
  let configured := GetString w MAX_SESSION_DURATION_SECONDS in
  (forall idToken role duration,
     In (EvGetCredentialsWithOIDC idToken role duration) (trace run) ->
     (forall parsed, strconv.ParseInt configured = (parsed, None) ->
                     duration = parsed /\ - 2 ^ 63 <= parsed < 2 ^ 63) /\
     (forall parsed err, strconv.ParseInt configured = (parsed, Some err) ->
                         duration = 3600) /\
     (config w !! MAX_SESSION_DURATION_SECONDS = None \/
      config w !! MAX_SESSION_DURATION_SECONDS = Some "" -> duration = 3600)) /\
  (forall tok,
     useSecret = false -> result (doLogin w) = Ret (inr tok) ->
     In (EvGetCredentialsWithOIDC (IDToken tok) (resolved_role w roleArn)
                                  (resolved_duration w d)) (trace run)).
Proof.
  intros Hd run configured. subst run configured. split.
  - intros idToken role duration Hin.
    apply Authenticate_exchange in Hin as (_ & -> & _). split_and!.
    + intros parsed Hp. split; [|eapply ParseInt_range; eauto].
      eapply resolved_duration_parsed; eauto.
    + intros parsed err Hp. eapply resolved_duration_default; eauto.
    + intros Hc. apply (resolved_duration_default w d 0 strconv.ErrSyntax Hd).
      unfold GetString. destruct Hc as [-> | ->]; reflexivity.
  - intros tok -> Hr. apply Authenticate_fresh_exchange. exact Hr.
Qed.

Lemma duration_from_configuration_witness :
  In (EvGetCredentialsWithOIDC "eyJhbGciOi" "" 3600)
     (trace (Authenticate Sample.bare "" 0 false false)) /\
  In (EvGetCredentialsWithOIDC "eyJhbGciOi" "" 60)
     (trace (Authenticate Sample.short_session "" (-1) false true)).
Proof.
  split.
  - exact (proj2 (duration_from_configuration Sample.bare "" 0 false false ltac:(lia))
             _ eq_refl ltac:(vm_compute; reflexivity)).
  - exact (proj2 (duration_from_configuration Sample.short_session "" (-1) false true
                    ltac:(lia))
             _ eq_refl ltac:(vm_compute; reflexivity)).
Defined.

(** ** An empty role *)

(** C7, as stated, fails: with an empty role argument and no default role
    configured, the run is not stopped by a configuration error.  It binds
    the listener, opens the browser, posts the code, calls the credential
    exchange with the empty role and ends normally. *)
Lemma empty_role_is_not_rejected :
  let run := Authenticate Sample.bare "" 0 false false in
  GetString Sample.bare DEFAULT_IAM_ROLE_ARN = "" /\
  result run = Ret tt /\
  (forall err, ~ In (EvExit err) (trace run)) /\
  (exists rest, trace run = EvListen "tcp" "127.0.0.1:8118" :: rest) /\
  count is_OpenURL (trace run) = 1%nat /\
  count is_Post (trace run) = 1%nat /\
  In (EvGetCredentialsWithOIDC "eyJhbGciOi" "" 3600) (trace run).
Proof.
  cbv zeta. split_and!.
  - reflexivity.
  - vm_compute. reflexivity.
  - intros err. vm_compute. intros H.
    repeat destruct H as [H|H]; try discriminate H. exact H.
  - vm_compute. eexists. reflexivity.
  - vm_compute. reflexivity.
  - vm_compute. reflexivity.
  - vm_compute. auto 20.
Qed.

Lemma login_and_exchange_starts_with_listen (w : World) (role : string) (d : Z)
    (useSecret : bool) :
  exists rest, trace (login_and_exchange w role d useSecret) =
               EvListen "tcp" listen_address :: rest.
Proof.
  unfold login_and_exchange. rewrite trace_bind.
  destruct (doLogin_starts_with_listen w) as [rest ->]. eexists. reflexivity.
Qed.

Lemma resolved_role_empty (w : World) :
  GetString w DEFAULT_IAM_ROLE_ARN = "" -> resolved_role w "" = "".
Proof. intros H. unfold resolved_role. cbn. exact H. Qed.

(** C7, amended: with an empty role argument and no default role
    configured, [Authenticate] raises no configuration error; the role stays
    empty and the flow goes on with it.  With reuse requested the secret
    store is asked for the empty role; without it the run starts by binding
    the listener; and the credential exchange, whenever it is reached, is
    called with the empty role. *)
Theorem empty_role_proceeds (w : World) (d : Z) (useSecret asJson : bool) :
  GetString w DEFAULT_IAM_ROLE_ARN = "" ->
  let run := Authenticate w "" d useSecret asJson in
  (useSecret = true -> exists rest, trace run = EvAWSCredential "" :: rest) /\
  (useSecret = false -> exists rest, trace run = EvListen "tcp" "127.0.0.1:8118" :: rest) /\
  (forall idToken role duration,
     In (EvGetCredentialsWithOIDC idToken role duration) (trace run) -> role = "") /\
  (forall tok,
     useSecret = false -> result (doLogin w) = Ret (inr tok) ->
     In (EvGetCredentialsWithOIDC (IDToken tok) "" (resolved_duration w d)) (trace run)).
Proof.
  intros Hcfg run. subst run. pose proof (resolved_role_empty w Hcfg) as Hrole.
  split_and!.
  - intros ->. rewrite Authenticate_stages, Hrole. unfold lookup_secret.
    rewrite bind_emit, trace_bind. cbn [trace fst app]. eexists. reflexivity.
  - intros ->. rewrite Authenticate_fresh, trace_bind.
    destruct (login_and_exchange_starts_with_listen w (resolved_role w "") d false)
      as [rest ->].
    eexists. reflexivity.
  - intros idToken role duration Hin.
    apply Authenticate_exchange in Hin as (-> & _). exact Hrole.
  - intros tok -> Hr. rewrite <- Hrole at 1.
    apply Authenticate_fresh_exchange. exact Hr.
Qed.

Lemma empty_role_proceeds_witness :
  GetString Sample.bare DEFAULT_IAM_ROLE_ARN = "" /\
  exists rest, trace (Authenticate Sample.bare "" 0 false false)
               = EvListen "tcp" "127.0.0.1:8118" :: rest.
Proof.
  split; [reflexivity|].
  exact (proj1 (proj2 (empty_role_proceeds Sample.bare 0 false false eq_refl)) eq_refl).
Defined.

(** ** [Authenticate] never dereferences a nil credential *)

Lemma isValid_true (w : World) (cred : option AWSCredentials) :
  result (isValid w cred) = Ret true -> is_Some cred.
Proof. destruct cred; [eauto|discriminate]. Qed.

Lemma login_and_exchange_some (w : World) (role : string) (d : Z) (useSecret : bool)
    (c : option AWSCredentials) :
  result (login_and_exchange w role d useSecret) = Ret c -> is_Some c.
Proof.
  unfold login_and_exchange. rewrite result_bind.
  destruct (result (doLogin w)) as [[err|tok]| | |]; try discriminate.
  rewrite bind_ret. unfold Writeln, Traceln. rewrite !bind_emit. cbn [result snd].
  destruct (GetCredentialsWithOIDC w _ _ _) as [err|cred]; [discriminate|].
  destruct useSecret; cbn; intros [= <-]; eauto.
Qed.

Lemma doLogin_no_panic (w : World) : result (doLogin w) <> Panicked.
Proof.
  rewrite doLogin_unfold.
  destruct (Listen w _ _); [discriminate|].
  destruct (pkce.CreateCodeVerifierWithLength _ _ _); [discriminate|].
  cbv zeta. cbn [result snd]. rewrite launch_result.
  destruct (OpenURL w _); [discriminate|].
  destruct (callback w); [|discriminate].
  destruct (nonempty _); [|discriminate].
  rewrite codeToToken_result. discriminate.
Qed.

Lemma isValid_no_panic (w : World) (cred : option AWSCredentials) :
  result (isValid w cred) <> Panicked.
Proof.
  unfold isValid. destruct cred; [|discriminate].
  destruct (NewSession w); [discriminate|].
  destruct (GetCallerIdentity w _ _ _); discriminate.
Qed.

Lemma login_and_exchange_no_panic (w : World) (role : string) (d : Z) (useSecret : bool) :
  result (login_and_exchange w role d useSecret) <> Panicked.
Proof.
  unfold login_and_exchange. rewrite result_bind.
  pose proof (doLogin_no_panic w) as Hd.
  destruct (result (doLogin w)) as [[err|tok]| | |]; try discriminate; [|congruence].
  rewrite bind_ret. unfold Writeln, Traceln. rewrite !bind_emit. cbn [result snd].
  destruct (GetCredentialsWithOIDC w _ _ _); [discriminate|].
  destruct useSecret; discriminate.
Qed.

Lemma Authenticate_no_nil_dereference (w : World) (roleArn : string) (d : Z)
    (useSecret asJson : bool) :
  result (Authenticate w roleArn d useSecret asJson) <> Panicked.
Proof.
  rewrite Authenticate_stages, result_bind.
  destruct (result (lookup_secret _ _ _)) as [p| | |] eqn:Hp; try discriminate.
  2:{ unfold lookup_secret in Hp. destruct useSecret; [|discriminate].
      rewrite bind_emit in Hp. discriminate. }
  rewrite result_bind.
  pose proof (isValid_no_panic w (fst p)) as Hnp.
  destruct (result (isValid w (fst p))) as [valid| | |] eqn:Hv; try discriminate;
    [|congruence].
  rewrite result_bind.
  destruct (negb valid || _) eqn:Hb.
  - pose proof (login_and_exchange_no_panic w (resolved_role w roleArn) d useSecret) as Hl.
    destruct (result (login_and_exchange _ _ _ _)) as [c| | |] eqn:Hc;
      try discriminate; [|congruence].
    apply login_and_exchange_some in Hc as [cred ->]. unfold output.
    destruct asJson; [destruct (Marshal w _)|]; discriminate.
  - apply orb_false_iff in Hb as [Hb _]. apply negb_false_iff in Hb. subst valid.
    apply isValid_true in Hv as [cred ->]. cbn [mret Run_ret result snd]. unfold output.
    destruct asJson; [destruct (Marshal w _)|]; discriminate.
Qed.

(** ** A malformed success body *)

(** C10, as stated, fails: the token endpoint answers 200 with a body whose
    [expires_in] is a text.  Reading it reports an error, and [codeToToken]
    still returns a token response and no error, but not a zero-valued one:
    the identity token read before the failure is in it. *)
Lemma failed_decode_can_leave_fields_set :
  let w := Sample.half_decoded in
  let verifier :=
    pkce.String (pkce.CreateCodeVerifierFromBytes (pkce.randomBytes (entropy w) 96)) in
  let run := codeToToken w verifier "ABC123" redirect_uri in
  Post w (token_form w verifier "ABC123" redirect_uri) = inr Sample.token_half_decoded /\
  Status Sample.token_half_decoded = 200 /\
  snd (ReadJson_token Sample.token_half_decoded zeroTokenResponse) <> None /\
  (exists tok, result run = Ret (inr tok) /\ IDToken tok = "eyJhbGciOi") /\
  ~ (exists tok, result run = Ret (inr tok) /\ IDToken tok = "") /\
  result run <> Ret (inr zeroTokenResponse).
Proof.
  cbv zeta.
  assert (Hr : exists tok,
             result (codeToToken Sample.half_decoded
                       (pkce.String (pkce.CreateCodeVerifierFromBytes
                          (pkce.randomBytes (entropy Sample.half_decoded) 96)))
                       "ABC123" redirect_uri) = Ret (inr tok) /\
             IDToken tok = "eyJhbGciOi").
  { rewrite codeToToken_result. cbn. eexists. split; reflexivity. }
  destruct Hr as (tok & Hr & Hid).
  split_and!; try reflexivity.
  - discriminate.
  - exists tok. auto.
  - intros (tok' & Hr' & Hid'). rewrite Hr in Hr'. injection Hr' as <-.
    rewrite Hid in Hid'. discriminate Hid'.
  - rewrite Hr. intros H. injection H as ->. discriminate Hid.
Qed.

(** C10, amended: a 200 response whose body cannot be read as a token
    response still makes [codeToToken] return a token response and no
    error: the error of [ReadJson] is dropped, and what comes back is
    whatever the failed read left in the zero-valued target.  When the read
    left the target alone that is the zero value, with an empty identity
    token.  [doLogin] hands the token on to [Authenticate], which reports a
    successful login and calls the credential exchange with the identity
    token found in it. *)
Theorem failed_decode_is_accepted
    (w : World) (verifier code redirect : string) (res : Response) (err : Error) :
  Post w (token_form w verifier code redirect) = inr res ->
  Status res = 200 ->
  snd (ReadJson_token res zeroTokenResponse) = Some err ->
  let tok := fst (ReadJson_token res zeroTokenResponse) in
  result (codeToToken w verifier code redirect) = Ret (inr tok) /\
  (forall e, result (codeToToken w verifier code redirect) <> Ret (inl e)) /\
  (ReadJson_token res zeroTokenResponse = (zeroTokenResponse, Some err) ->
     result (codeToToken w verifier code redirect) = Ret (inr zeroTokenResponse) /\
     IDToken tok = "" /\ AccessToken tok = "" /\ TokenType tok = "" /\ ExpiresIn tok = 0) /\
  (forall v req,
     Listen w "tcp" listen_address = None ->
     pkce.CreateCodeVerifierWithLength (entropy w) (entropy_err w) pkce.MaxLength = inr v ->
     OpenURL w (auth_request w v) = None ->
     callback w = Some req ->
     verifier = pkce.String v -> code = Get (Query req) "code" -> code <> "" ->
     redirect = redirect_uri ->
     result (doLogin w) = Ret (inr tok) /\
     forall roleArn d asJson,
       let run := Authenticate w roleArn d false asJson in
       In (EvWriteln "Login successful!") (trace run) /\
       In (EvGetCredentialsWithOIDC (IDToken tok) (resolved_role w roleArn)
             (resolved_duration w d))
          (trace run)).
Proof.
  intros Hp Hs Herr tok.
  assert (Hc : result (codeToToken w verifier code redirect) = Ret (inr tok)).
  { rewrite codeToToken_result, Hp. apply Z.eqb_eq in Hs. rewrite Hs. subst tok.
    destruct (ReadJson_token res zeroTokenResponse) as [t e]. reflexivity. }
  split_and!.
  - exact Hc.
  - intros e. rewrite Hc. discriminate.
  - intros Hz. subst tok. rewrite Hc, Hz. split_and!; reflexivity.
  - intros v req Hl Hv Hb Hcb -> -> Hne ->.
    assert (Hd : result (doLogin w) = Ret (inr tok)).
    { rewrite doLogin_unfold, Hl, Hv. cbn zeta.
      rewrite launch_result, Hb, Hcb, handler_code.
      apply nonempty_true in Hne. rewrite Hne. exact Hc. }
    split; [exact Hd|].
    intros roleArn d asJson. apply (Authenticate_fresh_exchange w roleArn d asJson _ Hd).
Qed.

Lemma failed_decode_is_accepted_witness :
  result (doLogin Sample.half_decoded)
  = Ret (inr {| IDToken := "eyJhbGciOi"; AccessToken := ""; TokenType := "";
                ExpiresIn := 0 |}) /\
  In (EvWriteln "Login successful!")
     (trace (Authenticate Sample.half_decoded "" 0 false true)) /\
  In (EvGetCredentialsWithOIDC "eyJhbGciOi" Sample.role 7200)
     (trace (Authenticate Sample.half_decoded "" 0 false true)) /\
  result (codeToToken Sample.garbled "verifier" "ABC123" redirect_uri)
  = Ret (inr zeroTokenResponse).
Proof.
  assert (Hne : "ABC123" <> "") by discriminate.
  pose proof (proj2 (proj2 (proj2 (failed_decode_is_accepted Sample.half_decoded
                 (pkce.String (pkce.CreateCodeVerifierFromBytes
                                 (pkce.randomBytes (entropy Sample.half_decoded) 96)))
                 "ABC123" redirect_uri Sample.token_half_decoded
                 Sample.type_mismatch
                 eq_refl eq_refl eq_refl)))
               _ Sample.req_code eq_refl eq_refl eq_refl eq_refl eq_refl eq_refl
               Hne eq_refl) as [H1 H2].
  pose proof (proj1 (proj1 (proj2 (proj2 (failed_decode_is_accepted Sample.garbled
                 "verifier" "ABC123" redirect_uri Sample.token_garbled
                 "invalid character '<' looking for beginning of value"
                 eq_refl eq_refl eq_refl))) eq_refl)) as H3.
  destruct (H2 "" 0 true) as [H4 H5].
  exact (conj H1 (conj H4 (conj H5 H3))).
Defined.

(** * Further properties of the flow *)

(** ** Events by stage *)

Lemma count_zero (p : Event -> bool) (t : list Event) :
  (forall e, In e t -> p e = false) -> count p t = 0%nat.
Proof.
  unfold count. induction t as [|e t IH]; intros H; [reflexivity|].
  cbn. rewrite (H e (or_introl eq_refl)). apply IH. intros e' He'. apply H. right. exact He'.
Qed.

Lemma count_zero_inv (p : Event -> bool) (t : list Event) (e : Event) :
  count p t = 0%nat -> In e t -> p e = false.
Proof.
  unfold count. induction t as [|e' t IH]; intros Hc [].
  - subst. cbn in Hc. destruct (p e); [discriminate|reflexivity].
  - cbn in Hc. destruct (p e'); [discriminate|]. apply IH; assumption.
Qed.

Lemma login_and_exchange_events (w : World) (role : string) (d : Z) (useSecret : bool)
    (e : Event) :
  In e (trace (login_and_exchange w role d useSecret)) ->
  is_login_event e = true \/ is_exchange_event useSecret e = true.
Proof.
  unfold login_and_exchange. intros H.
  apply in_trace_bind in H as [H|(r0 & _ & H)].
  { left. eapply doLogin_events; eauto. }
  right.
  apply in_trace_bind in H as [H|(tok & _ & H)].
  { destruct r0; cbn in H; repeat destruct H as [H|H]; subst; try reflexivity; destruct H. }
  unfold Writeln, Traceln in H. rewrite !bind_emit in H. cbn [trace fst] in H.
  destruct H as [H|[H|[H|H]]]; subst; try reflexivity.
  destruct (GetCredentialsWithOIDC w _ _ _); [|destruct useSecret]; cbn in H;
    repeat destruct H as [H|H]; subst; try reflexivity; destruct H.
Qed.

(** Every event of a run belongs to one of the four stages. *)
Lemma Authenticate_events (w : World) (roleArn : string) (d : Z) (useSecret asJson : bool)
    (e : Event) :
  In e (trace (Authenticate w roleArn d useSecret asJson)) ->
  (useSecret = true /\ e = EvAWSCredential (resolved_role w roleArn)) \/
  (useSecret = true /\ is_check_event e = true) \/
  is_login_event e = true \/ is_exchange_event useSecret e = true \/
  is_output_event e = true.
Proof.
  rewrite Authenticate_stages. intros H.
  apply in_trace_bind in H as [H|(p & Hp & H)].
  { left. destruct useSecret; [|destruct H].
    split; [reflexivity|]. eapply lookup_secret_events; eauto. }
  apply in_trace_bind in H as [H|(valid & _ & H)].
  { right; left. destruct useSecret.
    - split; [reflexivity|]. eapply isValid_events; eauto.
    - cbn in Hp. simplify_eq. destruct H. }
  apply in_trace_bind in H as [H|(c & _ & H)].
  - destruct (negb valid || _); [|destruct H].
    apply login_and_exchange_events in H as [H|H]; auto.
  - apply output_events in H. auto 10.
Qed.

(** ** Without reuse *)

(** X1: when reuse is not requested, a run never reads the secret store,
    never writes to it and never calls the identity check. *)
Theorem no_reuse_leaves_store_and_sts_alone (w : World) (roleArn : string) (d : Z)
    (asJson : bool) :
  let t := trace (Authenticate w roleArn d false asJson) in
  count is_secret_event t = 0%nat /\ count is_identity_event t = 0%nat.
Proof.
  cbv zeta. split; apply count_zero; intros e He;
    apply Authenticate_events in He as [[? _]|[[? _]|[H|[H|H]]]];
    try discriminate; destruct e; try reflexivity; discriminate.
Qed.

(** ** One login unless the cache is usable *)

Lemma doLogin_one_listen (w : World) : count is_Listen (trace (doLogin w)) = 1%nat.
Proof.
  rewrite doLogin_unfold.
  destruct (Listen w "tcp" listen_address); [reflexivity|].
  destruct (pkce.CreateCodeVerifierWithLength _ _ _) as [err|v]; [reflexivity|].
  cbv zeta. cbn [trace fst]. rewrite launch_result, launch_trace.
  destruct (OpenURL w _); [reflexivity|].
  destruct (callback w) as [req|]; [|reflexivity].
  destruct (nonempty _); [|reflexivity].
  rewrite codeToToken_trace. reflexivity.
Qed.

Lemma login_and_exchange_one_listen (w : World) (role : string) (d : Z) (useSecret : bool) :
  count is_Listen (trace (login_and_exchange w role d useSecret)) = 1%nat.
Proof.
  unfold login_and_exchange. rewrite trace_bind, count_app, doLogin_one_listen.
  replace (count is_Listen _) with 0%nat; [reflexivity|]. symmetry.
  apply count_zero. intros e He.
  destruct (result (doLogin w)) as [r0| | |]; try destruct He.
  apply in_trace_bind in He as [He|(tok & _ & He)].
  { destruct r0; cbn in He; repeat destruct He as [He|He]; subst; try reflexivity;
      destruct He. }
  unfold Writeln, Traceln in He. rewrite !bind_emit in He. cbn [trace fst] in He.
  destruct He as [He|[He|[He|He]]]; subst; try reflexivity.
  destruct (GetCredentialsWithOIDC w _ _ _); [|destruct useSecret]; cbn in He;
    repeat destruct He as [He|He]; subst; try reflexivity; destruct He.
Qed.

Lemma isValid_no_listen (w : World) (c : option AWSCredentials) :
  count is_Listen (trace (isValid w c)) = 0%nat.
Proof.
  apply count_zero. intros e He. apply isValid_events in He.
  destruct e; try reflexivity; discriminate.
Qed.

Lemma output_no_listen (w : World) (asJson : bool) (c : option AWSCredentials) :
  count is_Listen (trace (output w asJson c)) = 0%nat.
Proof.
  apply count_zero. intros e He. apply output_events in He.
  destruct e; try reflexivity; discriminate.
Qed.

Lemma isValid_result (w : World) (c : option AWSCredentials) :
  NewSession w = None ->
  result (isValid w c) =
  Ret match c with
      | Some cred =>
          bool_decide (GetCallerIdentity w (AWSAccessKey cred) (AWSSecretKey cred)
                                         (AWSSessionToken cred) = None)
      | None => false
      end.
Proof.
  intros Hs. unfold isValid. destruct c as [cred|]; [|reflexivity]. rewrite Hs.
  destruct (GetCallerIdentity w _ _ _) eqn:Hi; reflexivity.
Qed.

Lemma login_decision (w : World) (role : string) (useSecret : bool) :
  NewSession w = None ->
  exists p valid,
    result (lookup_secret w role useSecret) = Ret p /\
    result (isValid w (fst p)) = Ret valid /\
    negb valid || bool_decide (is_Some (snd p)) = negb (cache_usable w role useSecret).
Proof.
  intros Hs. unfold lookup_secret, cache_usable. destruct useSecret.
  - exists (AWSCredential w role). eexists. split; [reflexivity|].
    split; [apply isValid_result; exact Hs|].
    destruct (AWSCredential w role) as [[cred|] [err|]]; cbn;
      try reflexivity; try (destruct (bool_decide _); reflexivity).
  - exists (None, None), false. repeat split.
Qed.

(** X2: with a working STS session, a run makes no login attempt when the
    cached credential is usable and exactly one otherwise: when reuse is not
    requested, when the store has no credential or reports an error, or
    when the identity check rejects the credential. *)
Theorem one_login_unless_cache_usable (w : World) (roleArn : string) (d : Z)
    (useSecret asJson : bool) :
  NewSession w = None ->
  count is_Listen (trace (Authenticate w roleArn d useSecret asJson)) =
  if cache_usable w (resolved_role w roleArn) useSecret then 0%nat else 1%nat.
Proof.
  intros Hs. rewrite Authenticate_stages.
  destruct (login_decision w (resolved_role w roleArn) useSecret Hs)
    as (p & valid & Hp & Hv & Hdec).
  rewrite trace_bind, count_app, Hp, trace_bind, count_app, Hv, trace_bind, count_app.
  rewrite Hdec, isValid_no_listen.
  replace (count is_Listen (trace (lookup_secret _ _ _))) with 0%nat.
  2:{ symmetry. apply count_zero. intros e He. apply lookup_secret_events in He.
      subst. reflexivity. }
  destruct (cache_usable w _ useSecret); cbn [negb].
  - cbn [mret Run_ret trace result fst snd]. rewrite output_no_listen. reflexivity.
  - rewrite login_and_exchange_one_listen.
    destruct (result (login_and_exchange _ _ _ _)); cbn;
      rewrite ?output_no_listen; reflexivity.
Qed.

Lemma one_login_unless_cache_usable_witness :
  count is_Listen (trace (Authenticate Sample.reuse "" 0 true true)) = 0%nat /\
  count is_Listen (trace (Authenticate Sample.login "" 0 true true)) = 1%nat.
Proof.
  split.
  - exact (one_login_unless_cache_usable Sample.reuse "" 0 true true eq_refl).
  - exact (one_login_unless_cache_usable Sample.login "" 0 true true eq_refl).
Defined.

Lemma bind_step {A B} (t : list Event) (a : A) (f : A -> Run B) :
  ((t, Ret a) ≫= f) = ((t ++ trace (f a))%list, result (f a)).
Proof. cbn. destruct (f a). reflexivity. Qed.

(** ** The identity check cannot start *)

(** X3: when reuse is requested and the store returns a credential, a
    failure to create the STS session ends the process: the run consists
    of the lookup, the session attempt, the message and the exit; no login
    is tried and nothing is emitted. *)
Theorem session_failure_is_fatal (w : World) (roleArn : string) (d : Z) (asJson : bool)
    (cred : AWSCredentials) (err : Error) :
  fst (AWSCredential w (resolved_role w roleArn)) = Some cred ->
  NewSession w = Some err ->
  Authenticate w roleArn d true asJson =
  ([EvAWSCredential (resolved_role w roleArn); EvNewSession;
    EvWriteln "Failed to create aws client session"; EvExit err],
   Exited err).
Proof.
  intros Hc Hs. rewrite Authenticate_stages. unfold lookup_secret.
  destruct (AWSCredential w (resolved_role w roleArn)) as [c e]. cbn [fst] in Hc. subst c.
  rewrite bind_emit. cbn [mbind Run_bind trace result fst snd mret Run_ret app].
  unfold isValid. rewrite Hs. reflexivity.
Qed.

Lemma session_failure_is_fatal_witness :
  let w := with_session_failure Sample.reuse in
  Authenticate w "" 0 true true =
  ([EvAWSCredential Sample.role; EvNewSession;
    EvWriteln "Failed to create aws client session"; EvExit "NoCredentialProviders"],
   Exited "NoCredentialProviders").
Proof.
  exact (session_failure_is_fatal (with_session_failure Sample.reuse) "" 0 true
           Sample.cached "NoCredentialProviders" eq_refl eq_refl).
Defined.

(** ** What is saved and when *)

Lemma login_and_exchange_success (w : World) (role : string) (d : Z) (useSecret : bool)
    (tok : TokenResponse) (cred : AWSCredentials) :
  result (doLogin w) = Ret (inr tok) ->
  GetCredentialsWithOIDC w (IDToken tok) role (resolved_duration w d) = inr cred ->
  login_and_exchange w role d useSecret =
  ((trace (doLogin w) ++
    [EvWriteln "Login successful!";
     EvTraceln "ID token: %s" (TString (IDToken tok));
     EvGetCredentialsWithOIDC (IDToken tok) role (resolved_duration w d)] ++
    (if useSecret
     then [EvSaveAWSCredential role cred;
           EvWrite "The AWS credentials has been saved in OS secret store"]
     else []))%list,
   Ret (Some cred)).
Proof.
  intros Hr Hg. unfold login_and_exchange.
  rewrite (run_eta (doLogin w)), Hr.
  cbn [mbind Run_bind mret Run_ret Writeln Traceln emit app].
  rewrite Hg. destruct useSecret; cbn; rewrite ?app_nil_r; reflexivity.
Qed.

(** X4: after a successful login and credential exchange, the credential
    is saved under the resolved role before anything is emitted, and only
    when reuse was requested.  What is saved is the credential as the
    exchange returned it; [Version] is set later, for the JSON output
    alone. *)
Theorem fresh_credential_is_saved_before_output (w : World) (roleArn : string) (d : Z)
    (useSecret asJson : bool) (tok : TokenResponse) (cred : AWSCredentials) :
  NewSession w = None ->
  cache_usable w (resolved_role w roleArn) useSecret = false ->
  result (doLogin w) = Ret (inr tok) ->
  GetCredentialsWithOIDC w (IDToken tok) (resolved_role w roleArn) (resolved_duration w d)
    = inr cred ->
  let run := Authenticate w roleArn d useSecret asJson in
  (exists pre,
     trace run =
     (pre ++
      [EvGetCredentialsWithOIDC (IDToken tok) (resolved_role w roleArn)
                                (resolved_duration w d)] ++
      (if useSecret
       then [EvSaveAWSCredential (resolved_role w roleArn) cred;
             EvWrite "The AWS credentials has been saved in OS secret store"]
       else []) ++
      trace (output w asJson (Some cred)))%list /\
     count is_Save pre = 0%nat /\ count is_emission pre = 0%nat) /\
  result run = result (output w asJson (Some cred)).
Proof.
  intros Hs Hcache Hr Hg run. subst run. rewrite Authenticate_stages.
  destruct (login_decision w (resolved_role w roleArn) useSecret Hs)
    as (p & valid & Hp & Hv & Hdec).
  rewrite Hcache in Hdec. cbn [negb] in Hdec.
  rewrite (run_eta (lookup_secret _ _ _)), Hp, bind_step.
  rewrite (run_eta (isValid _ _)), Hv, bind_step, Hdec.
  rewrite (login_and_exchange_success w _ d useSecret tok cred Hr Hg), bind_step.
  cbn [trace result fst snd]. split; [|reflexivity].
  exists (trace (lookup_secret w (resolved_role w roleArn) useSecret) ++
          trace (isValid w (fst p)) ++ trace (doLogin w) ++
          [EvWriteln "Login successful!";
           EvTraceln "ID token: %s" (TString (IDToken tok))])%list.
  split_and!.
  - rewrite <- !app_assoc. reflexivity.
  - apply count_zero. intros e He. rewrite !in_app_iff in He.
    destruct He as [He|[He|[He|He]]].
    + apply lookup_secret_events in He. subst. reflexivity.
    + apply isValid_events in He. destruct e; try reflexivity; discriminate.
    + apply doLogin_events in He. destruct e; try reflexivity; discriminate.
    + destruct He as [<-|[<-|[]]]; reflexivity.
  - apply count_zero. intros e He. rewrite !in_app_iff in He.
    destruct He as [He|[He|[He|He]]].
    + apply lookup_secret_events in He. subst. reflexivity.
    + apply isValid_events in He. destruct e; try reflexivity; discriminate.
    + apply doLogin_events in He. destruct e; try reflexivity; discriminate.
    + destruct He as [<-|[<-|[]]]; reflexivity.
Qed.

Lemma fresh_credential_is_saved_before_output_witness :
  exists pre,
    trace (Authenticate Sample.login "" 0 true true) =
    (pre ++ [EvGetCredentialsWithOIDC "eyJhbGciOi" Sample.role 7200] ++
     [EvSaveAWSCredential Sample.role Sample.fresh;
      EvWrite "The AWS credentials has been saved in OS secret store"] ++
     [EvPrintln "{ASIAFRESH}"])%list /\
    count is_Save pre = 0%nat /\ count is_emission pre = 0%nat.
Proof.
  exact (proj1 (fresh_credential_is_saved_before_output Sample.login "" 0 true true
                  {| IDToken := "eyJhbGciOi"; AccessToken := "at"; TokenType := "Bearer";
                     ExpiresIn := 300 |} Sample.fresh
                  eq_refl eq_refl ltac:(vm_compute; reflexivity) eq_refl)).
Defined.

(** X5: a credential in the secret store was put there by this run's
    credential exchange: every save happens with reuse requested, under the
    resolved role, and stores exactly what [GetCredentialsWithOIDC] returned
    for the identity token of the login.  A failed login or a failed
    exchange saves nothing. *)
Theorem saved_credential_comes_from_exchange (w : World) (roleArn : string) (d : Z)
    (useSecret asJson : bool) (r : string) (c : AWSCredentials) :
  In (EvSaveAWSCredential r c) (trace (Authenticate w roleArn d useSecret asJson)) ->
  useSecret = true /\ r = resolved_role w roleArn /\
  exists tok,
    result (doLogin w) = Ret (inr tok) /\
    GetCredentialsWithOIDC w (IDToken tok) r (resolved_duration w d) = inr c.
Proof.
  rewrite Authenticate_stages. intros H.
  apply in_trace_bind in H as [H|(p & _ & H)].
  { apply lookup_secret_events in H. discriminate. }
  apply in_trace_bind in H as [H|(valid & _ & H)].
  { apply isValid_events in H. discriminate. }
  apply in_trace_bind in H as [H|(c' & _ & H)].
  2:{ apply output_events in H. discriminate. }
  destruct (negb valid || _); [|destruct H].
  unfold login_and_exchange in H.
  apply in_trace_bind in H as [H|(r0 & Hr & H)].
  { apply doLogin_events in H. discriminate. }
  apply in_trace_bind in H as [H|(tok & Htok & H)].
  { destruct r0; cbn in H; repeat destruct H as [H|H]; try discriminate H; destruct H. }
  destruct r0 as [err|tok']; [discriminate|]. cbn in Htok. simplify_eq.
  unfold Writeln, Traceln in H. rewrite !bind_emit in H. cbn [trace fst] in H.
  destruct H as [H|[H|[H|H]]]; try discriminate H.
  destruct (GetCredentialsWithOIDC w _ _ _) as [err|cred] eqn:Hg.
  { cbn in H. repeat destruct H as [H|H]; try discriminate H. destruct H. }
  destruct useSecret; cbn in H; [destruct H as [H|[H|[]]]; [|discriminate H]|destruct H].
  injection H as <- <-. split_and!; try reflexivity. exists tok. split; assumption.
Qed.

Lemma saved_credential_comes_from_exchange_witness :
  In (EvSaveAWSCredential Sample.role Sample.fresh)
     (trace (Authenticate Sample.login "" 0 true true)) /\
  GetCredentialsWithOIDC Sample.login "eyJhbGciOi" Sample.role 7200 = inr Sample.fresh.
Proof.
  assert (H : In (EvSaveAWSCredential Sample.role Sample.fresh)
                 (trace (Authenticate Sample.login "" 0 true true))).
  { vm_compute. auto 20. }
  split; [exact H|].
  pose proof (saved_credential_comes_from_exchange Sample.login "" 0 true true
                Sample.role Sample.fresh H) as (_ & _ & Hex).
  destruct Hex as (tok & _ & Hg). reflexivity.
Defined.

(** ** Credentials are emitted exactly when the run succeeds *)

Lemma count_bind {A B} (p : Event -> bool) (m : Run A) (f : A -> Run B) :
  count p (trace (m ≫= f)) =
  (count p (trace m) + match result m with Ret a => count p (trace (f a)) | _ => 0 end)%nat.
Proof.
  rewrite trace_bind, count_app. destruct (result m); reflexivity.
Qed.

Lemma lookup_secret_no_emission (w : World) (role : string) (useSecret : bool) :
  count is_emission (trace (lookup_secret w role useSecret)) = 0%nat.
Proof.
  apply count_zero. intros e He. apply lookup_secret_events in He. subst. reflexivity.
Qed.

Lemma isValid_no_emission (w : World) (c : option AWSCredentials) :
  count is_emission (trace (isValid w c)) = 0%nat.
Proof.
  apply count_zero. intros e He. apply isValid_events in He.
  destruct e; try reflexivity; discriminate.
Qed.

Lemma login_and_exchange_no_emission (w : World) (role : string) (d : Z) (useSecret : bool) :
  count is_emission (trace (login_and_exchange w role d useSecret)) = 0%nat.
Proof.
  apply count_zero. intros e He. apply login_and_exchange_events in He as [He|He];
    destruct e; try reflexivity; discriminate.
Qed.

Lemma output_emission (w : World) (asJson : bool) (c : option AWSCredentials) :
  count is_emission (trace (output w asJson c)) =
  match result (output w asJson c) with
  | Ret _ => if asJson then 1%nat else 3%nat
  | _ => 0%nat
  end.
Proof.
  unfold output. destruct c as [c|]; [|reflexivity].
  destruct asJson; [destruct (Marshal w _)|]; reflexivity.
Qed.

(** X6: a run emits credentials exactly when it ends normally: one JSON
    line in JSON mode, three exports otherwise, and none at all when it
    exits, blocks or fails in any stage. *)
Theorem credentials_emitted_exactly_on_success (w : World) (roleArn : string) (d : Z)
    (useSecret asJson : bool) :
  let run := Authenticate w roleArn d useSecret asJson in
  count is_emission (trace run) =
  match result run with
  | Ret _ => if asJson then 1%nat else 3%nat
  | _ => 0%nat
  end.
Proof.
  cbv zeta. rewrite Authenticate_stages.
  rewrite count_bind, result_bind, lookup_secret_no_emission.
  destruct (result (lookup_secret _ _ _)) as [p| | |]; try reflexivity.
  rewrite count_bind, result_bind, isValid_no_emission.
  destruct (result (isValid w _)) as [valid| | |]; try reflexivity.
  rewrite count_bind, result_bind.
  replace (count is_emission (trace (if negb valid || _ then _ else _))) with 0%nat.
  2:{ destruct (negb valid || _); [|reflexivity].
      symmetry. apply login_and_exchange_no_emission. }
  destruct (result (if negb valid || _ then _ else _)) as [c| | |]; try reflexivity.
  cbn [Nat.add]. apply output_emission.
Qed.

(** ** Arguments take precedence over the configuration *)

(** X7: a role argument that is not empty and a duration argument above
    zero are used as given, whatever the configuration holds: the secret
    store is asked for that role, and the credential exchange is called
    with that role and that duration. *)
Theorem arguments_override_configuration (w : World) (roleArn : string) (d : Z)
    (useSecret asJson : bool) :
  roleArn <> "" -> 0 < d ->
  let run := Authenticate w roleArn d useSecret asJson in
  (forall r, In (EvAWSCredential r) (trace run) -> r = roleArn) /\
  (forall idToken r duration,
     In (EvGetCredentialsWithOIDC idToken r duration) (trace run) ->
     r = roleArn /\ duration = d) /\
  (forall tok,
     useSecret = false -> result (doLogin w) = Ret (inr tok) ->
     In (EvGetCredentialsWithOIDC (IDToken tok) roleArn d) (trace run)).
Proof.
  intros Hrole Hd run. subst run.
  assert (Hr : resolved_role w roleArn = roleArn).
  { unfold resolved_role. apply nonempty_true in Hrole. rewrite Hrole. reflexivity. }
  assert (Hdur : resolved_duration w d = d).
  { unfold resolved_duration. destruct (d <=? 0) eqn:Hle; [|reflexivity].
    apply Z.leb_le in Hle. lia. }
  split_and!.
  - intros r Hin. apply Authenticate_events in Hin as [[_ H]|[[_ H]|[H|[H|H]]]];
      try discriminate. injection H as ->. exact Hr.
  - intros idToken r duration Hin.
    apply Authenticate_exchange in Hin as (-> & -> & _). auto.
  - intros tok -> Hres. rewrite <- Hr at 1. rewrite <- Hdur at 1.
    apply Authenticate_fresh_exchange. exact Hres.
Qed.

Lemma arguments_override_configuration_witness :
  In (EvGetCredentialsWithOIDC "eyJhbGciOi" "arn:aws:iam::1:role/ops" 900)
     (trace (Authenticate Sample.login "arn:aws:iam::1:role/ops" 900 false true)).
Proof.
  assert (Hne : "arn:aws:iam::1:role/ops" <> "") by discriminate.
  exact (proj2 (proj2 (arguments_override_configuration Sample.login
                         "arn:aws:iam::1:role/ops" 900 false true Hne ltac:(lia)))
           _ eq_refl ltac:(vm_compute; reflexivity)).
Defined.

(** ** The errors of [doLogin] *)

Lemma prefix_append (a b : string) : String.prefix a (a +:+ b) = true.
Proof.
  induction a as [|x a IH]; [destruct b; reflexivity|].
  change (String.prefix (String x a) (String x (a +:+ b)) = true).
  cbn [String.prefix]. destruct (ascii_dec x x); [exact IH|congruence].
Qed.

Lemma doLogin_post_count (w : World) :
  count is_Post (trace (doLogin w)) =
  match result (doLogin w) with
  | Ret (inl err) => if String.prefix exchange_failed err then 1%nat else 0%nat
  | Ret (inr _) => 1%nat
  | _ => 0%nat
  end.
Proof.
  rewrite doLogin_unfold.
  destruct (Listen w "tcp" listen_address); [reflexivity|].
  destruct (pkce.CreateCodeVerifierWithLength _ _ _) as [err|v]; [reflexivity|].
  cbv zeta. cbn [trace result fst snd]. rewrite launch_result, launch_trace.
  destruct (OpenURL w _); [reflexivity|].
  destruct (callback w) as [req|]; [|reflexivity].
  destruct (nonempty _); [|reflexivity].
  rewrite codeToToken_trace, codeToToken_result.
  destruct (Post w _) as [err|res].
  { unfold Wrap. rewrite prefix_append. reflexivity. }
  destruct (Status res =? 200); [reflexivity|].
  destruct (nonempty _); [|reflexivity].
  destruct (ReadJson_map res); [reflexivity|]. rewrite prefix_append. reflexivity.
Qed.

(** X8: every error [doLogin] returns tells its stage.  A bind failure is
    reported as "Cannot start local http server ..." and nothing else has
    happened; a verifier failure as "Cannot generate OAuth2 PKCE ..."; a
    login without code as "Login failed ..." with the browser opened once
    and nothing posted; a failed exchange as "Failed to turn code into
    token ..." after exactly one post. *)
Theorem doLogin_error_names_its_stage (w : World) (e : Error) :
  result (doLogin w) = Ret (inl e) ->
  let t := trace (doLogin w) in
  (exists err, Listen w "tcp" "127.0.0.1:8118" = Some err /\
               e = "Cannot start local http server to handle login redirect: " +:+ err /\
               t = [EvListen "tcp" "127.0.0.1:8118"]) \/
  (exists err, Listen w "tcp" "127.0.0.1:8118" = None /\
               e = "Cannot generate OAuth2 PKCE code_challenge: " +:+ err /\
               count is_OpenURL t = 0%nat /\ count is_Post t = 0%nat) \/
  (e = "Login failed, can't retrieve authorization code" /\
   count is_OpenURL t = 1%nat /\ count is_Post t = 0%nat) \/
  (String.prefix "Failed to turn code into token" e = true /\
   count is_OpenURL t = 1%nat /\ count is_Post t = 1%nat).
Proof.
  cbv zeta. rewrite doLogin_unfold.
  destruct (Listen w "tcp" listen_address) as [err|] eqn:Hl.
  { intros [= <-]. left. exists err. auto. }
  destruct (pkce.CreateCodeVerifierWithLength _ _ _) as [err|v].
  { intros [= <-]. right; left. exists err. auto. }
  cbv zeta. cbn [trace result fst snd]. rewrite launch_result, launch_trace.
  destruct (OpenURL w _).
  { intros [= <-]. right; right; left. auto. }
  destruct (callback w) as [req|]; [|discriminate].
  destruct (nonempty _).
  2:{ intros [= <-]. right; right; left. auto. }
  rewrite codeToToken_trace, codeToToken_result. intros He. right; right; right.
  split; [|split; reflexivity].
  destruct (Post w _) as [err|res].
  { injection He as <-. apply prefix_append. }
  destruct (Status res =? 200); [discriminate|].
  destruct (nonempty _); [|injection He as <-; reflexivity].
  destruct (ReadJson_map res); injection He as <-; [reflexivity|apply prefix_append].
Qed.

Lemma doLogin_error_names_its_stage_witness :
  result (doLogin Sample.port_taken) =
    Ret (inl ("Cannot start local http server to handle login redirect: "
              +:+ "listen tcp 127.0.0.1:8118: bind: address already in use")) /\
  trace (doLogin Sample.port_taken) = [EvListen "tcp" "127.0.0.1:8118"].
Proof.
  assert (H : result (doLogin Sample.port_taken) =
    Ret (inl ("Cannot start local http server to handle login redirect: "
              +:+ "listen tcp 127.0.0.1:8118: bind: address already in use")))
    by (vm_compute; reflexivity).
  split; [exact H|].
  destruct (doLogin_error_names_its_stage Sample.port_taken _ H)
    as [(err & _ & _ & Ht)|[(err & Hl & _)|[(He & _)|(_ & Ho & _)]]].
  - exact Ht.
  - discriminate Hl.
  - discriminate He.
  - vm_compute in Ho. discriminate Ho.
Defined.

(** ** The listener is shut down when the server was started *)

(** X9: a [doLogin] that returns has shut the listener down exactly when it
    had started serving on it, and the shutdown is the last event of
    [launch].  When the verifier cannot be generated the listener is bound
    but neither served nor closed, and a run that blocks in the receive
    never reaches the shutdown. *)
Theorem shutdown_follows_serve (w : World) :
  let t := trace (doLogin w) in
  (forall r, result (doLogin w) = Ret r ->
     count is_Shutdown t = count is_Serve t) /\
  (forall err,
     Listen w "tcp" listen_address = None ->
     pkce.CreateCodeVerifierWithLength (entropy w) (entropy_err w) pkce.MaxLength = inl err ->
     t = [EvListen "tcp" listen_address; EvCreateCodeVerifier pkce.MaxLength]) /\
  (result (doLogin w) = Blocked ->
     In (EvServe listen_address) t /\ count is_Shutdown t = 0%nat).
Proof.
  cbv zeta. rewrite doLogin_unfold.
  destruct (Listen w "tcp" listen_address) as [err|]; [by split_and!|].
  destruct (pkce.CreateCodeVerifierWithLength _ _ _) as [err|v]; [by split_and!|].
  cbv zeta. cbn [trace result fst snd]. rewrite launch_result, launch_trace.
  destruct (OpenURL w _); [by split_and!|].
  destruct (callback w) as [req|].
  - destruct (nonempty _); rewrite ?codeToToken_trace, ?codeToToken_result; by split_and!.
  - split_and!; try done. intros _. cbn. split; [auto 10|reflexivity].
Qed.

Lemma shutdown_follows_serve_witness :
  count is_Shutdown (trace (doLogin Sample.login)) = 1%nat /\
  In (EvServe listen_address) (trace (doLogin Sample.abandoned)) /\
  count is_Shutdown (trace (doLogin Sample.abandoned)) = 0%nat.
Proof.
  assert (Hr : result (doLogin Sample.login) =
               Ret (inr {| IDToken := "eyJhbGciOi"; AccessToken := "at";
                           TokenType := "Bearer"; ExpiresIn := 300 |}))
    by (vm_compute; reflexivity).
  pose proof (proj1 (shutdown_follows_serve Sample.login) _ Hr) as H1.
  pose proof (proj2 (proj2 (shutdown_follows_serve Sample.abandoned)) eq_refl) as H2.
  split; [rewrite H1; vm_compute; reflexivity|exact H2].
Defined.

(** ** What is posted to the token endpoint *)

Lemma Get_Set_same (key value : string) (v : Values) : Get (Set_ key value v) key = value.
Proof. unfold Get, Set_. rewrite lookup_insert_eq. reflexivity. Qed.

Lemma Get_Set_other (key key' value : string) (v : Values) :
  key <> key' -> Get (Set_ key value v) key' = Get v key'.
Proof. intros H. unfold Get, Set_. rewrite lookup_insert_ne by exact H. reflexivity. Qed.

Lemma token_form_fields (w : World) (verifier code redirect : string) :
  let form := token_form w verifier code redirect in
  form !! "grant_type" = Some ["authorization_code"] /\
  form !! "code" = Some [code] /\
  form !! "code_verifier" = Some [verifier] /\
  form !! "redirect_uri" = Some [redirect] /\
  (forall key, is_grant_key key = false -> form !! key = ClientForm w !! key).
Proof.
  cbv zeta. unfold token_form, Set_. split_and!.
  - rewrite !lookup_insert_ne by discriminate. apply lookup_insert_eq.
  - rewrite !lookup_insert_ne by discriminate. apply lookup_insert_eq.
  - rewrite !lookup_insert_ne by discriminate. apply lookup_insert_eq.
  - apply lookup_insert_eq.
  - intros key Hk. unfold is_grant_key in Hk.
    repeat (apply orb_false_iff in Hk as [Hk ?]).
    rewrite !lookup_insert_ne; [reflexivity| | | |];
      intros <-; discriminate.
Qed.

(** X10: [codeToToken] posts once.  In the form, [grant_type], [code],
    [code_verifier] and [redirect_uri] have exactly the one value the call
    was given, whatever the client's form held under those keys, and every
    other key of the client's form is passed on unchanged. *)
Theorem token_form_overrides_and_preserves (w : World) (verifier code redirect : string) :
  let t := trace (codeToToken w verifier code redirect) in
  count is_Post t = 1%nat /\
  (forall form, In (EvPost form) t ->
     form !! "grant_type" = Some ["authorization_code"] /\
     form !! "code" = Some [code] /\
     form !! "code_verifier" = Some [verifier] /\
     form !! "redirect_uri" = Some [redirect] /\
     (forall key, is_grant_key key = false -> form !! key = ClientForm w !! key)).
Proof.
  cbv zeta. rewrite codeToToken_trace. split; [reflexivity|].
  intros form [H|[H|[]]]; [discriminate|]. injection H as <-.
  apply token_form_fields.
Qed.

(** X11: [doLogin] contacts the token endpoint only with a code in hand.
    Any form it posts carries the non-empty [code] of the redirect callback
    and the same [redirect_uri], "http://localhost:8118", that was added to
    the authorization request opened in the browser; a callback without
    code, or a browser that fails, leads to no post at all. *)
Theorem post_carries_the_callback_code (w : World) (form : Values) :
  In (EvPost form) (trace (doLogin w)) ->
  exists req v,
    callback w = Some req /\
    OpenURL w (auth_request w v) = None /\
    Get (Query req) "code" <> "" /\
    Get form "code" = Get (Query req) "code" /\
    Get form "redirect_uri" = "http://localhost:8118" /\
    In (EvOpenURL (auth_request w v)) (trace (doLogin w)) /\
    param "redirect_uri" (auth_request w v) =
      (param "redirect_uri" (Authorization w) ++ ["http://localhost:8118"])%list.
Proof.
  rewrite doLogin_unfold.
  destruct (Listen w "tcp" listen_address).
  { intros [H|[]]. discriminate. }
  destruct (pkce.CreateCodeVerifierWithLength _ _ _) as [err|v].
  { intros [H|[H|[]]]; discriminate. }
  cbv zeta. cbn [trace fst]. rewrite launch_result, launch_trace.
  destruct (OpenURL w (auth_request w v)) eqn:Hb.
  { intros H. cbn in H. repeat destruct H as [H|H]; try discriminate H. destruct H. }
  destruct (callback w) as [req|].
  2:{ intros H. cbn in H. repeat destruct H as [H|H]; try discriminate H. destruct H. }
  rewrite handler_code. destruct (nonempty _) eqn:Hn.
  2:{ intros H. cbn in H. repeat destruct H as [H|H]; try discriminate H. destruct H. }
  rewrite codeToToken_trace.
  intros H. assert (Hform : form = token_form w (pkce.String v) (Get (Query req) "code")
                                      redirect_uri).
  { cbn in H. repeat destruct H as [H|H]; try discriminate H; [|destruct H].
    injection H as <-. reflexivity. }
  subst form. exists req, v.
  split; [reflexivity|]. split; [exact Hb|].
  split; [apply nonempty_true; exact Hn|].
  split; [unfold token_form; rewrite !Get_Set_other by discriminate; apply Get_Set_same|].
  split; [unfold token_form; apply Get_Set_same|].
  split; [cbn; auto 10|].
  unfold auth_request. rewrite !param_QueryParam. cbn. rewrite !app_nil_r. reflexivity.
Qed.

Lemma post_carries_the_callback_code_witness :
  exists form,
    In (EvPost form) (trace (doLogin Sample.login)) /\ Get form "code" = "ABC123".
Proof.
  set (form := token_form Sample.login
                 (pkce.String (pkce.CreateCodeVerifierFromBytes
                                 (pkce.randomBytes (entropy Sample.login) 96)))
                 "ABC123" redirect_uri).
  assert (H : In (EvPost form) (trace (doLogin Sample.login))).
  { vm_compute. auto 10. }
  exists form. split; [exact H|].
  destruct (post_carries_the_callback_code Sample.login form H)
    as (req & v & Hcb & _ & _ & Hcode & _).
  injection Hcb as <-. exact Hcode.
Defined.

(** ** A token only from a 200 response *)

(** X12: [codeToToken] returns a token response exactly when the post
    succeeded with status 200, and then it is what [ReadJson] left in the
    zero-valued target; a transport error and every other status give an
    error. *)
Theorem token_only_from_status_200 (w : World) (verifier code redirect : string)
    (tok : TokenResponse) :
  result (codeToToken w verifier code redirect) = Ret (inr tok) <->
  exists res,
    Post w (token_form w verifier code redirect) = inr res /\
    Status res = 200 /\
    tok = fst (ReadJson_token res zeroTokenResponse).
Proof.
  rewrite codeToToken_result. split.
  - destruct (Post w _) as [err|res]; [discriminate|].
    destruct (Status res =? 200) eqn:Hs.
    + intros [= <-]. exists res. apply Z.eqb_eq in Hs. auto.
    + destruct (nonempty _); [destruct (ReadJson_map res)|]; discriminate.
  - intros (res & -> & Hs & ->). apply Z.eqb_eq in Hs. rewrite Hs. reflexivity.
Qed.

(** ** The result page *)

(** X13: the page the handler writes depends on nothing but whether the
    callback has a code: two callbacks that both carry a code, or both
    carry none, get the identical page, so no part of the request reaches
    the HTML.  The page always has status 200, is declared [text/html] and
    is marked as not to be cached. *)
Theorem page_reflects_no_request_data (req1 req2 : Request) :
  (Get (Query req1) "code" = "" <-> Get (Query req2) "code" = "") ->
  fst (handler req1) = fst (handler req2) /\
  status (fst (handler req1)) = 200 /\
  header (fst (handler req1)) !! "Content-Type" = Some "text/html" /\
  header (fst (handler req1)) !! "Cache-Control" = Some "no-store" /\
  header (fst (handler req1)) !! "Pragma" = Some "no-cache".
Proof.
  intros Hiff. unfold handler. cbn [fst header status].
  split_and!; try reflexivity.
  assert (Hn : nonempty (Get (Query req1) "code") = nonempty (Get (Query req2) "code")).
  { destruct (nonempty (Get (Query req1) "code")) eqn:H1;
      destruct (nonempty (Get (Query req2) "code")) eqn:H2; try reflexivity.
    - apply nonempty_true in H1. apply nonempty_false in H2. tauto.
    - apply nonempty_false in H1. apply nonempty_true in H2. tauto. }
  rewrite Hn. reflexivity.
Qed.

Lemma page_reflects_no_request_data_witness :
  fst (handler Sample.req_code) =
  fst (handler {| Method := "POST"; Path := "/favicon.ico";
                  Query := {[ "code" := ["<script>"; "x"]; "state" := ["s"] ]} |}).
Proof.
  refine (proj1 (page_reflects_no_request_data Sample.req_code _ _)).
  split; intros H; vm_compute in H; discriminate H.
Defined.

(** ** At most one delivery *)

Lemma filter_insert_length {A} (p : A -> bool) (l : list A) (i : nat) (old new : A) :
  l !! i = Some old ->
  (length (List.filter p (<[i := new]> l)) + (if p old then 1 else 0) =
   length (List.filter p l) + (if p new then 1 else 0))%nat.
Proof.
  revert i. induction l as [|x l IH]; intros [|i] H; try discriminate.
  - cbn in H. injection H as ->. cbn. destruct (p old), (p new); cbn; lia.
  - cbn in H. specialize (IH i H).
    change (<[S i := new]> (x :: l)) with (x :: <[i := new]> l).
    cbn [List.filter]. destruct (p x); cbn [length]; lia.
Qed.

Lemma deliveries_step (browser : option Error) (s s' : Goroutines.state) :
  Goroutines.step browser s s' ->
  (if before_receive (Goroutines.main s) then deliveries s = 0%nat
   else (deliveries s <= 1)%nat) ->
  (if before_receive (Goroutines.main s') then deliveries s' = 0%nat
   else (deliveries s' <= 1)%nat).
Proof.
  intros Hstep. inversion Hstep as
    [hs inc sv ps Hb|err hs inc sv ps Hb|m hs req inc ps|m hs i req inc sv ps Hl
    |hs i code inc sv ps Hl|code hs inc sv ps];
    subst; unfold deliveries; cbn; intros Hd.
  - exact Hd.
  - lia.
  - rewrite List.filter_app, length_app. cbn. destruct (before_receive m); lia.
  - pose proof (filter_insert_length is_Delivered hs i _
                  (Goroutines.Sending (snd (handler req))) Hl) as Hf.
    cbn in Hf. destruct (before_receive m); lia.
  - pose proof (filter_insert_length is_Delivered hs i _ Goroutines.Delivered Hl) as Hf.
    cbn in Hf. lia.
  - exact Hd.
Qed.

Lemma no_browser_no_delivery (err : Error) (requests : list Request) (s : Goroutines.state) :
  Goroutines.reachable (Some err) requests s ->
  Goroutines.main s <> Goroutines.AtReceive /\ deliveries s = 0%nat.
Proof.
  unfold Goroutines.reachable. revert s.
  apply (rtc_ind_r (fun s => Goroutines.main s <> Goroutines.AtReceive /\
                             deliveries s = 0%nat)).
  - split; [discriminate|reflexivity].
  - intros s1 s2 _ Hstep [Hm Hd]. inversion Hstep as
      [hs inc sv ps Hb|err' hs inc sv ps Hb|m hs req inc ps|m hs i req inc sv ps Hl
      |hs i code inc sv ps Hl|code hs inc sv ps];
      subst; unfold deliveries in *; cbn in *; try discriminate.
    + split; [discriminate|exact Hd].
    + split; [exact Hm|]. rewrite List.filter_app, length_app. cbn. lia.
    + split; [exact Hm|].
      pose proof (filter_insert_length is_Delivered hs i _
                    (Goroutines.Sending (snd (handler req))) Hl) as Hf.
      cbn in Hf. lia.
    + congruence.
    + split; [discriminate|exact Hd].
Qed.

(** X14: the main flow receives from the channel once.  In every state
    the goroutines of [launch] can reach, with any number of callbacks, at
    most one handler has delivered its code; none has while the main flow
    is still before its receive, and none ever does when the browser could
    not be opened.  The handlers of further callbacks write their page and
    then wait on a send that is never taken. *)
Theorem at_most_one_delivery (browser : option Error) (requests : list Request)
    (s : Goroutines.state) :
  Goroutines.reachable browser requests s ->
  (deliveries s <= 1)%nat /\
  (before_receive (Goroutines.main s) = true -> deliveries s = 0%nat) /\
  (browser <> None -> deliveries s = 0%nat).
Proof.
  intros Hreach.
  assert (Hinv : if before_receive (Goroutines.main s) then deliveries s = 0%nat
                 else (deliveries s <= 1)%nat).
  { revert s Hreach. unfold Goroutines.reachable.
    apply (rtc_ind_r (fun s => if before_receive (Goroutines.main s)
                               then deliveries s = 0%nat else (deliveries s <= 1)%nat)).
    - reflexivity.
    - intros s1 s2 _ Hstep IH. eapply deliveries_step; eauto. }
  split_and!.
  - destruct (before_receive _); lia.
  - intros Hb. rewrite Hb in Hinv. exact Hinv.
  - intros Hb. destruct browser as [err|]; [|congruence].
    eapply no_browser_no_delivery; eauto.
Qed.

(** Two callbacks: both are answered, one code is taken, the other handler
    is left at its send. *)
Lemma at_most_one_delivery_witness :
  let s := {| Goroutines.main := Goroutines.Returned "ABC123";
              Goroutines.handlers := [Goroutines.Delivered; Goroutines.Sending ""];
              Goroutines.incoming := []; Goroutines.serving := false;
              Goroutines.written := [fst (handler Sample.req_code);
                                     fst (handler Sample.req_nocode)] |} in
  Goroutines.reachable None [Sample.req_code; Sample.req_nocode] s /\
  deliveries s = 1%nat /\ (deliveries s <= 1)%nat.
Proof.
  cbv zeta.
  assert (Hreach : Goroutines.reachable None [Sample.req_code; Sample.req_nocode]
            {| Goroutines.main := Goroutines.Returned "ABC123";
               Goroutines.handlers := [Goroutines.Delivered; Goroutines.Sending ""];
               Goroutines.incoming := []; Goroutines.serving := false;
               Goroutines.written := [fst (handler Sample.req_code);
                                      fst (handler Sample.req_nocode)] |}).
  { unfold Goroutines.reachable, Goroutines.start.
    eapply rtc_l; [by apply Goroutines.step_open_ok|].
    eapply rtc_l; [apply Goroutines.step_accept|]. cbn.
    eapply rtc_l; [apply Goroutines.step_accept|]. cbn.
    eapply rtc_l; [apply (Goroutines.step_respond _ _ _ 0%nat Sample.req_code); reflexivity|].
    eapply rtc_l; [apply (Goroutines.step_respond _ _ _ 1%nat Sample.req_nocode); reflexivity|].
    eapply rtc_l; [apply (Goroutines.step_handoff _ _ 0%nat "ABC123"); reflexivity|].
    eapply rtc_l; [apply Goroutines.step_shutdown|].
    apply rtc_refl. }
  split; [exact Hreach|]. split; [reflexivity|].
  exact (proj1 (at_most_one_delivery _ _ _ Hreach)).
Defined.

(** * The setup wizard *)

Module SetupFacts.
Import Setup.

(** ** [ConfigPath] *)

Lemma append_nonempty (a b : string) : b <> "" -> a +:+ b <> "".
Proof.
  intros Hb. destruct a as [|x a]; [exact Hb|]. discriminate.
Qed.

(** X15: [ConfigPath] never yields an empty path.  The package variable
    wins over the environment variable, which wins over the home
    directory; the process exits only when neither is set and no home
    directory can be determined. *)
Theorem ConfigPath_is_never_empty (env : Env) :
  (forall path, outcome (ConfigPath env) = Ret path ->
     path <> "" /\
     (configdir env <> "" -> path = configdir env) /\
     (configdir env = "" -> Getenv env "AWS_CLI_OIDC_CONFIG" <> "" ->
      path = Getenv env "AWS_CLI_OIDC_CONFIG") /\
     (configdir env = "" -> Getenv env "AWS_CLI_OIDC_CONFIG" = "" ->
      exists home, homedir_Dir env = inr home /\ path = home +:+ "/.aws-cli-oidc")) /\
  (forall err, outcome (ConfigPath env) = Exited err ->
     configdir env = "" /\ Getenv env "AWS_CLI_OIDC_CONFIG" = "" /\
     homedir_Dir env = inl err) /\
  outcome (ConfigPath env) <> Blocked /\ outcome (ConfigPath env) <> Panicked.
Proof.
  unfold ConfigPath.
  destruct (nonempty (configdir env)) eqn:Hc.
  { apply nonempty_true in Hc. split_and!; try discriminate.
    intros path [= <-]. split_and!; auto; intros; congruence. }
  apply nonempty_false in Hc.
  destruct (nonempty (Getenv env "AWS_CLI_OIDC_CONFIG")) eqn:He.
  { apply nonempty_true in He. split_and!; try discriminate.
    intros path [= <-]. split_and!; auto; intros; congruence. }
  apply nonempty_false in He.
  destruct (homedir_Dir env) as [err|home].
  - split_and!; try discriminate. intros err' [= <-]. auto.
  - split_and!; try discriminate. intros path [= <-]. split_and!.
    + apply append_nonempty. discriminate.
    + intros; congruence.
    + intros; congruence.
    + intros _ _. exists home. auto.
Qed.

Lemma ConfigPath_is_never_empty_witness :
  outcome (ConfigPath sample_env) = Ret "/home/alice/.aws-cli-oidc" /\
  "/home/alice/.aws-cli-oidc" <> "".
Proof.
  split; [reflexivity|].
  exact (proj1 (proj1 (ConfigPath_is_never_empty sample_env) _ eq_refl)).
Defined.

Lemma ConfigPath_trace (env : Env) :
  events (ConfigPath env) =
  match outcome (ConfigPath env) with
  | Exited err => [EvQuit err]
  | _ => []
  end.
Proof.
  unfold ConfigPath. destruct (nonempty _); [reflexivity|].
  destruct (nonempty _); [reflexivity|]. destruct (homedir_Dir env); reflexivity.
Qed.

(** ** [RunSetup], unfolded *)

Lemma RunSetup_unfold (env : Env) (ui : option UI) :
  let a := answers (ui_of env ui) in
  RunSetup env ui =
  ((questions ++ [EvViperSet (providerName a) (setup_config a)] ++
    match outcome (ConfigPath env) with
    | Ret dir =>
        [EvMkdirAll dir 448; EvSetConfigFile (dir +:+ "/config.yaml"); EvWriteConfig] ++
        match WriteConfig env (dir +:+ "/config.yaml") with
        | Some err => [EvSay "Failed to write %s" (dir +:+ "/config.yaml"); EvQuit err]
        | None => [EvSay "Saved %s" (dir +:+ "/config.yaml")]
        end
    | Exited err => [EvQuit err]
    | _ => []
    end)%list,
   match outcome (ConfigPath env) with
   | Ret dir =>
       match WriteConfig env (dir +:+ "/config.yaml") with
       | Some err => Exited err
       | None => Ret tt
       end
   | Exited err => Exited err
   | Blocked => Blocked
   | Panicked => Panicked
   end).
Proof.
  cbv zeta. unfold RunSetup, oidcSetup, Ask. fold (ui_of env ui).
  cbn [mbind Run_bind mret Run_ret emit app fst snd].
  fold (setup_config (answers (ui_of env ui))).
  pose proof (ConfigPath_trace env) as Ht.
  destruct (ConfigPath env) as [t [dir|err| |]] eqn:Hc; cbn [events outcome fst snd] in *;
    subst t; cbn [mbind Run_bind mret Run_ret emit Writeln Exit app fst snd];
    try reflexivity.
  destruct (WriteConfig env _); reflexivity.
Qed.

(** ** What a setup run stores and where *)

Lemma stored_RunSetup (env : Env) (ui : option UI) :
  stored (events (RunSetup env ui)) =
  Some (providerName (answers (ui_of env ui)), setup_config (answers (ui_of env ui))).
Proof. rewrite RunSetup_unfold. reflexivity. Qed.

Lemma setup_config_lookups (a : Answers) :
  setup_config a !! OIDC_PROVIDER_METADATA_URL = Some (server a) /\
  setup_config a !! CLIENT_ID = Some (clientID a) /\
  setup_config a !! CLIENT_SECRET = Some (clientSecret a) /\
  setup_config a !! MAX_SESSION_DURATION_SECONDS = Some (maxSessionDurationSeconds a) /\
  setup_config a !! DEFAULT_IAM_ROLE_ARN = Some (defaultIAMRoleArn a) /\
  setup_config a !! AWS_FEDERATION_ROLE_SESSION_NAME = Some (awsRoleSessionName a).
Proof.
  unfold setup_config. split_and!;
    rewrite ?lookup_insert_ne by discriminate; apply lookup_insert_eq.
Qed.

(** X16: the map a setup run hands to [viper.Set] under the provider's
    name holds the six answers under six different keys, the session name
    added by [oidcSetup] among them.  Read back as the client's
    configuration, it gives [doLogin] the client id and [Authenticate] the
    default role and the session duration that were answered. *)
Theorem setup_stores_what_authenticate_reads (env : Env) (ui : option UI) (w : World) :
  let a := answers (ui_of env ui) in
  exists cfg,
    stored (events (RunSetup env ui)) = Some (providerName a, cfg) /\
    dom cfg = list_to_set [OIDC_PROVIDER_METADATA_URL; CLIENT_ID; CLIENT_SECRET;
                           MAX_SESSION_DURATION_SECONDS; DEFAULT_IAM_ROLE_ARN;
                           AWS_FEDERATION_ROLE_SESSION_NAME] /\
    cfg !! AWS_FEDERATION_ROLE_SESSION_NAME = Some (awsRoleSessionName a) /\
    cfg !! CLIENT_SECRET = Some (clientSecret a) /\
    cfg !! OIDC_PROVIDER_METADATA_URL = Some (server a) /\
    GetString (with_config cfg w) CLIENT_ID = clientID a /\
    GetString (with_config cfg w) DEFAULT_IAM_ROLE_ARN = defaultIAMRoleArn a /\
    GetString (with_config cfg w) MAX_SESSION_DURATION_SECONDS = maxSessionDurationSeconds a /\
    resolved_role (with_config cfg w) "" = defaultIAMRoleArn a.
Proof.
  cbv zeta. exists (setup_config (answers (ui_of env ui))).
  destruct (setup_config_lookups (answers (ui_of env ui))) as (H1 & H2 & H3 & H4 & H5 & H6).
  split_and!; try assumption.
  - apply stored_RunSetup.
  - unfold setup_config. rewrite !dom_insert_L, dom_empty_L. cbn. set_solver.
  - unfold GetString. cbn [config with_config]. rewrite H2. reflexivity.
  - unfold GetString. cbn [config with_config]. rewrite H5. reflexivity.
  - unfold GetString. cbn [config with_config]. rewrite H4. reflexivity.
  - unfold resolved_role, GetString. cbn [config with_config nonempty]. rewrite H5.
    reflexivity.
Qed.

(** X17: a setup run touches the file system only after every question is
    answered and the configuration is handed to [viper].  It creates the
    directory [ConfigPath] names with mode 0700 and writes
    [config.yaml] directly under it; a failed write is reported and ends the
    process.  When no configuration directory can be determined the process
    exits before anything is created or written. *)
Theorem setup_writes_under_ConfigPath (env : Env) (ui : option UI) :
  let run := RunSetup env ui in
  let a := answers (ui_of env ui) in
  (forall dir,
     outcome (ConfigPath env) = Ret dir ->
     let file := dir +:+ "/config.yaml" in
     dir <> "" /\
     events run =
     (questions ++ [EvViperSet (providerName a) (setup_config a)] ++
      [EvMkdirAll dir 448; EvSetConfigFile file; EvWriteConfig] ++
      match WriteConfig env file with
      | Some err => [EvSay "Failed to write %s" file; EvQuit err]
      | None => [EvSay "Saved %s" file]
      end)%list /\
     outcome run = match WriteConfig env file with
                   | Some err => Exited err
                   | None => Ret tt
                   end) /\
  (forall err,
     outcome (ConfigPath env) = Exited err ->
     outcome run = Exited err /\
     List.filter is_file_event (events run) = []).
Proof.
  cbv zeta. rewrite RunSetup_unfold. cbv zeta. split.
  - intros dir Hd. rewrite Hd. cbn [events outcome fst snd]. split_and!; try reflexivity.
    apply (proj1 (proj1 (ConfigPath_is_never_empty env) dir Hd)).
  - intros err Hd. rewrite Hd. cbn [events outcome fst snd]. split; reflexivity.
Qed.

Lemma setup_writes_under_ConfigPath_witness :
  outcome (ConfigPath sample_env) = Ret "/home/alice/.aws-cli-oidc" /\
  outcome (RunSetup sample_env None) = Ret tt /\
  outcome (ConfigPath homeless_env) = Exited "$HOME is not defined" /\
  List.filter is_file_event (events (RunSetup homeless_env None)) = [].
Proof.
  pose proof (proj1 (setup_writes_under_ConfigPath sample_env None) _ eq_refl)
    as (_ & _ & H1).
  pose proof (proj2 (setup_writes_under_ConfigPath homeless_env None) _ eq_refl)
    as (_ & H2).
  split; [reflexivity|]. split; [exact H1|]. split; [reflexivity|exact H2].
Defined.

End SetupFacts.

(** ** The validators of the wizard *)

Lemma validate_maxSessionDuration_accepts (s : string) :
  Setup.validate_maxSessionDuration s = None <->
  exists i, strconv.ParseInt s = (i, None) /\ 900 <= i <= 43200.
Proof.
  unfold Setup.validate_maxSessionDuration.
  destruct (strconv.ParseInt s) as [i [err|]]; cbn.
  - split; [discriminate|]. intros (i' & H & _). discriminate.
  - destruct (i <? 900) eqn:Hlo; cbn.
    { apply Z.ltb_lt in Hlo. split; [discriminate|]. intros (i' & [= <-] & H). lia. }
    destruct (43200 <? i) eqn:Hhi.
    { apply Z.ltb_lt in Hhi. split; [discriminate|]. intros (i' & [= <-] & H). lia. }
    apply Z.ltb_ge in Hlo, Hhi. split; [|reflexivity]. intros _. exists i. split; [reflexivity|lia].
Qed.

(** X18: a session duration that passed the wizard's check is what
    [Authenticate] uses when the caller gives none: configured under
    [max_session_duration_seconds], it reaches the credential exchange as
    the number it denotes, between 900 and 43200. *)
Theorem validated_duration_reaches_exchange (w : World) (s roleArn : string) (d : Z)
    (useSecret asJson : bool) :
  Setup.validate_maxSessionDuration s = None ->
  config w !! MAX_SESSION_DURATION_SECONDS = Some s ->
  d <= 0 ->
  (exists i, strconv.ParseInt s = (i, None) /\ 900 <= i <= 43200 /\
             resolved_duration w d = i) /\
  (forall idToken r duration,
     In (EvGetCredentialsWithOIDC idToken r duration)
        (trace (Authenticate w roleArn d useSecret asJson)) ->
     900 <= duration <= 43200).
Proof.
  intros Hv Hc Hd.
  apply validate_maxSessionDuration_accepts in Hv as (i & Hp & Hi).
  assert (Hs : GetString w MAX_SESSION_DURATION_SECONDS = s).
  { unfold GetString. rewrite Hc. reflexivity. }
  assert (Hr : resolved_duration w d = i).
  { apply resolved_duration_parsed; [exact Hd|]. rewrite Hs. exact Hp. }
  split.
  - exists i. auto.
  - intros idToken r duration Hin.
    apply Authenticate_exchange in Hin as (_ & -> & _). rewrite Hr. exact Hi.
Qed.

Lemma validated_duration_reaches_exchange_witness :
  Setup.validate_maxSessionDuration "7200" = None /\
  resolved_duration Sample.login 0 = 7200.
Proof.
  split; [reflexivity|].
  destruct (proj1 (validated_duration_reaches_exchange Sample.login "7200" "" 0 false false
                     eq_refl eq_refl ltac:(lia))) as (i & Hp & _ & Hr).
  rewrite Hr. vm_compute in Hp. injection Hp as <-. reflexivity.
Defined.

(** *** [strings.Split] *)

Lemma Split_nonempty (s : string) (sep : ascii) : Setup.Split s sep <> [].
Proof.
  destruct s as [|c s]; cbn; [discriminate|].
  destruct (Ascii.eqb c sep); [discriminate|].
  destruct (Setup.Split s sep); discriminate.
Qed.

Lemma Split_without_separator (s : string) (sep : ascii) :
  Setup.has_char sep s = false -> Setup.Split s sep = [s].
Proof.
  induction s as [|c s IH]; [reflexivity|]. cbn.
  destruct (Ascii.eqb c sep); [discriminate|]. cbn. intros H. rewrite (IH H). reflexivity.
Qed.

Lemma Split_at_separator (a b : string) (sep : ascii) :
  Setup.has_char sep a = false ->
  Setup.Split (a +:+ String sep b) sep = a :: Setup.Split b sep.
Proof.
  induction a as [|c a IH].
  - intros _. change ("" +:+ String sep b) with (String sep b). cbn.
    rewrite Ascii.eqb_refl. reflexivity.
  - cbn [Setup.has_char]. destruct (Ascii.eqb c sep) eqn:Hc; [discriminate|]. cbn [orb].
    intros H. change (String c a +:+ String sep b) with (String c (a +:+ String sep b)).
    cbn [Setup.Split]. rewrite Hc, (IH H). reflexivity.
Qed.

(** The first piece has no separator; with more pieces the string is the
    first piece, the separator and a string that splits into the rest. *)
Lemma Split_first (s : string) (sep : ascii) (piece : string) (pieces : list string) :
  Setup.Split s sep = piece :: pieces ->
  Setup.has_char sep piece = false /\
  match pieces with
  | [] => s = piece
  | _ => exists rest, s = piece +:+ String sep rest /\ Setup.Split rest sep = pieces
  end.
Proof.
  revert piece pieces. induction s as [|c s IH]; intros piece pieces.
  - cbn. intros [= <- <-]. auto.
  - cbn [Setup.Split]. destruct (Ascii.eqb c sep) eqn:Hc.
    + apply Ascii.eqb_eq in Hc. subst c. intros [= <- <-]. split; [reflexivity|].
      pose proof (Split_nonempty s sep) as Hne.
      destruct (Setup.Split s sep) eqn:Hs; [congruence|].
      exists s. split; [reflexivity|exact Hs].
    + destruct (Setup.Split s sep) as [|p ps] eqn:Hs.
      { exfalso. eapply Split_nonempty; eauto. }
      intros [= <- <-]. destruct (IH p ps eq_refl) as [Hp Hrest].
      split; [cbn; rewrite Hc; exact Hp|].
      destruct ps as [|q ps].
      * subst s. reflexivity.
      * destruct Hrest as (rest & -> & Hr). exists rest. split; [reflexivity|exact Hr].
Qed.

Lemma Join_cons (piece : string) (pieces : list string) (sep : string) :
  pieces <> [] ->
  Setup.Join (piece :: pieces) sep = piece +:+ sep +:+ Setup.Join pieces sep.
Proof. destruct pieces; [congruence|reflexivity]. Qed.

(** Joining the pieces with the separator gives the string back. *)
Lemma Join_Split (s : string) (sep : ascii) :
  Setup.Join (Setup.Split s sep) (String sep "") = s.
Proof.
  induction s as [|c s IH]; [reflexivity|]. cbn [Setup.Split].
  pose proof (Split_nonempty s sep) as Hne.
  destruct (Ascii.eqb c sep) eqn:Hc.
  - apply Ascii.eqb_eq in Hc. subst c.
    rewrite Join_cons by exact Hne. rewrite IH. reflexivity.
  - destruct (Setup.Split s sep) as [|p ps]; [congruence|].
    destruct ps as [|q ps].
    + cbn in IH. subst s. reflexivity.
    + rewrite Join_cons by discriminate. rewrite Join_cons in IH by discriminate.
      rewrite <- IH. reflexivity.
Qed.

Lemma prefix_split (a b : string) :
  String.prefix a b = true -> exists c, b = a +:+ c.
Proof.
  revert b. induction a as [|x a IH]; intros b.
  - exists b. reflexivity.
  - destruct b as [|y b]; cbn; [discriminate|].
    destruct (ascii_dec x y) as [->|]; [|discriminate].
    intros H. destruct (IH b H) as [c ->]. exists c. reflexivity.
Qed.

Lemma has_char_append (sep : ascii) (a b : string) :
  Setup.has_char sep (a +:+ b) = Setup.has_char sep a || Setup.has_char sep b.
Proof.
  induction a as [|x a IH]; [reflexivity|].
  change (String x a +:+ b) with (String x (a +:+ b)). cbn. rewrite IH.
  destruct (Ascii.eqb x sep); reflexivity.
Qed.

(** X19: the wizard's check of the default role accepts the empty answer
    and, besides, exactly the texts [arn:aws:iam::ACCOUNT:role/NAME] in
    which neither the account nor the name contains a colon.  The account
    is not checked further and may be empty, as may the name; another
    partition, a region, or a resource that is not a role is refused. *)
Theorem role_check_accepts_exactly_iam_role_arns (s : string) :
  Setup.validate_defaultIAMRoleArn s = None <->
  s = "" \/
  exists account name,
    Setup.has_char ":" account = false /\ Setup.has_char ":" name = false /\
    s = "arn:aws:iam::" +:+ account +:+ ":role/" +:+ name.
Proof.
  unfold Setup.validate_defaultIAMRoleArn. split.
  - destruct (String.eqb_spec s ""); [auto|]. intros H. right.
    destruct (Nat.eqb (length (Setup.Split s ":")) 6 && _) eqn:Hc; [|discriminate].
    apply andb_true_iff in Hc as [Hlen Hc]. apply Nat.eqb_eq in Hlen.
    destruct (Setup.Split s ":") as [|p0 [|p1 [|p2 [|p3 [|p4 [|p5 [|]]]]]]] eqn:Hs;
      try discriminate.
    cbn [nth] in Hc.
    repeat (apply andb_true_iff in Hc as [Hc ?]).
    repeat match goal with
           | E : String.eqb _ _ = true |- _ => apply String.eqb_eq in E
           end.
    subst p0 p1 p2 p3.
    apply Split_first in Hs as [_ (r1 & -> & Hs)].
    apply Split_first in Hs as [_ (r2 & -> & Hs)].
    apply Split_first in Hs as [_ (r3 & -> & Hs)].
    apply Split_first in Hs as [_ (r4 & -> & Hs)].
    apply Split_first in Hs as [Hacc (r5 & -> & Hs)].
    apply Split_first in Hs as [Hp5 ->].
    match goal with E : Setup.HasPrefix _ _ = true |- _ =>
      apply prefix_split in E as [name ->] end.
    exists p4, name. split; [exact Hacc|]. split.
    { rewrite has_char_append in Hp5. apply orb_false_iff in Hp5 as [_ Hn]. exact Hn. }
    reflexivity.
  - intros [->|(account & name & Hacc & Hname & ->)]; [reflexivity|].
    replace (String.eqb _ "") with false by reflexivity.
    change ("arn:aws:iam::" +:+ account +:+ ":role/" +:+ name)
      with ("arn" +:+ String ":" ("aws" +:+ String ":" ("iam" +:+ String ":"
              ("" +:+ String ":" (account +:+ String ":" ("role/" +:+ name)))))).
    rewrite !Split_at_separator by (reflexivity || exact Hacc).
    rewrite Split_without_separator.
    2:{ rewrite has_char_append, Hname. reflexivity. }
    cbn [length nth Nat.eqb andb String.eqb Ascii.eqb Bool.eqb].
    unfold Setup.HasPrefix. rewrite prefix_append. reflexivity.
Qed.

Lemma role_check_accepts_exactly_iam_role_arns_witness :
  Setup.validate_defaultIAMRoleArn "arn:aws:iam::123456789012:role/developer" = None /\
  Setup.validate_defaultIAMRoleArn "arn:aws:iam:::role/" = None /\
  Setup.validate_defaultIAMRoleArn "arn:aws-cn:iam::123456789012:role/developer"
    = Some "Input must be IAM Role ARN".
Proof.
  split; [|split; reflexivity].
  apply (proj2 (role_check_accepts_exactly_iam_role_arns _)).
  right. exists "123456789012", "developer". repeat split.
Defined.

(** ** The identity check *)

(** X20: the validity of a credential is decided by STS alone.  No
    credential means "not valid" without any call; otherwise one
    [GetCallerIdentity] call is made under the credential's access key,
    secret key and session token, and its success is the verdict.  A
    rejection is reported by a message, never by an exit, and the stored
    expiration and version play no part. *)
Theorem validity_is_decided_by_sts (w : World) :
  isValid w None = ([], Ret false) /\
  (NewSession w = None ->
   forall cred,
     result (isValid w (Some cred)) =
       Ret (bool_decide (GetCallerIdentity w (AWSAccessKey cred) (AWSSecretKey cred)
                                           (AWSSessionToken cred) = None)) /\
     List.filter is_identity_event (trace (isValid w (Some cred))) =
       [EvNewSession;
        EvGetCallerIdentity (AWSAccessKey cred) (AWSSecretKey cred) (AWSSessionToken cred)] /\
     forall err, ~ In (EvExit err) (trace (isValid w (Some cred)))) /\
  (forall c1 c2,
     AWSAccessKey c1 = AWSAccessKey c2 -> AWSSecretKey c1 = AWSSecretKey c2 ->
     AWSSessionToken c1 = AWSSessionToken c2 ->
     isValid w (Some c1) = isValid w (Some c2)).
Proof.
  split_and!.
  - reflexivity.
  - intros Hs cred. split_and!.
    + apply (isValid_result w (Some cred) Hs).
    + unfold isValid. rewrite Hs. destruct (GetCallerIdentity w _ _ _); reflexivity.
    + intros err. unfold isValid. rewrite Hs. destruct (GetCallerIdentity w _ _ _); cbn;
        intros H; repeat destruct H as [H|H]; try discriminate H; destruct H.
  - intros c1 c2 H1 H2 H3. unfold isValid. rewrite H1, H2, H3. reflexivity.
Qed.

(** ** When the user never comes back *)

Lemma doLogin_blocks (w : World) :
  result (doLogin w) = Blocked <->
  Listen w "tcp" listen_address = None /\
  exists v,
    pkce.CreateCodeVerifierWithLength (entropy w) (entropy_err w) pkce.MaxLength = inr v /\
    OpenURL w (auth_request w v) = None /\ callback w = None.
Proof.
  rewrite doLogin_unfold.
  destruct (Listen w "tcp" listen_address) as [err|].
  { split; [discriminate|]. intros [H _]. discriminate. }
  destruct (pkce.CreateCodeVerifierWithLength _ _ _) as [err|v].
  { split; [discriminate|]. intros (_ & v & H & _). discriminate. }
  cbv zeta. cbn [result snd]. rewrite launch_result.
  destruct (OpenURL w (auth_request w v)) as [err|] eqn:Hb.
  { split; [discriminate|]. intros (_ & v' & [= <-] & H & _). congruence. }
  destruct (callback w) as [req|].
  - split.
    + destruct (nonempty _); [rewrite codeToToken_result|]; discriminate.
    + intros (_ & v' & _ & _ & H). discriminate.
  - split; [|reflexivity]. intros _. split; [reflexivity|]. exists v. auto.
Qed.

Lemma login_and_exchange_blocks (w : World) (role : string) (d : Z) (useSecret : bool) :
  result (login_and_exchange w role d useSecret) = Blocked <-> result (doLogin w) = Blocked.
Proof.
  unfold login_and_exchange. rewrite result_bind.
  destruct (result (doLogin w)) as [[err|tok]| | |].
  - rewrite result_bind. cbn. split; discriminate.
  - rewrite bind_ret. unfold Writeln, Traceln. rewrite !bind_emit. cbn [result snd].
    destruct (GetCredentialsWithOIDC w _ _ _); [split; discriminate|].
    destruct useSecret; split; discriminate.
  - split; discriminate.
  - split; reflexivity.
  - split; discriminate.
Qed.

Lemma output_not_blocked (w : World) (asJson : bool) (c : option AWSCredentials) :
  result (output w asJson c) <> Blocked.
Proof.
  unfold output. destruct c; [|discriminate].
  destruct asJson; [destruct (Marshal w _)|]; discriminate.
Qed.

(** X21: with a working STS session, [Authenticate] hangs in exactly one
    situation: a login is needed, the listener is bound, the verifier is
    generated, the browser opens, and no redirect callback ever arrives.  In
    every other case the run ends, normally or by an exit. *)
Theorem hangs_only_waiting_for_the_callback (w : World) (roleArn : string) (d : Z)
    (useSecret asJson : bool) :
  NewSession w = None ->
  (result (Authenticate w roleArn d useSecret asJson) = Blocked <->
   cache_usable w (resolved_role w roleArn) useSecret = false /\
   Listen w "tcp" "127.0.0.1:8118" = None /\
   exists v,
     pkce.CreateCodeVerifierWithLength (entropy w) (entropy_err w) pkce.MaxLength = inr v /\
     OpenURL w (auth_request w v) = None /\ callback w = None).
Proof.
  intros Hs. rewrite Authenticate_stages.
  destruct (login_decision w (resolved_role w roleArn) useSecret Hs)
    as (p & valid & Hp & Hv & Hdec).
  rewrite result_bind, Hp, result_bind, Hv, result_bind, Hdec.
  rewrite <- doLogin_blocks.
  destruct (cache_usable w _ useSecret); cbn [negb].
  - cbn [mret Run_ret result snd]. split; [|intros [H _]; discriminate].
    intros H. exfalso. eapply output_not_blocked; eauto.
  - rewrite <- (login_and_exchange_blocks w (resolved_role w roleArn) d useSecret).
    destruct (result (login_and_exchange _ _ _ _)) as [c| | |];
      split; try discriminate; try (intros [_ H]; discriminate); auto.
    intros H. exfalso. eapply output_not_blocked; eauto.
Qed.

Lemma hangs_only_waiting_for_the_callback_witness :
  result (Authenticate Sample.abandoned "" 0 true true) = Blocked.
Proof.
  apply (proj2 (hangs_only_waiting_for_the_callback Sample.abandoned "" 0 true true eq_refl)).
  split; [reflexivity|]. split; [reflexivity|].
  eexists. split; [reflexivity|]. split; reflexivity.
Defined.

(** ** Every exit is announced *)

Lemma exit_announced_bind {A B} (m : Run A) (f : A -> Run B) :
  exit_announced m -> (forall a, exit_announced (f a)) -> exit_announced (m ≫= f).
Proof.
  intros Hm Hf err. rewrite result_bind, trace_bind.
  destruct (result m) as [a| | |] eqn:Hr; try discriminate.
  - intros H. destruct (Hf a err H) as (pre & msg & Hin & Ht).
    exists (trace m ++ pre)%list, msg. split; [exact Hin|].
    rewrite Ht, app_assoc. reflexivity.
  - intros [= <-]. destruct (Hm _ Hr) as (pre & msg & Hin & Ht).
    exists pre, msg. split; [exact Hin|]. rewrite app_nil_r. exact Ht.
Qed.

Lemma exit_announced_ret {A} (t : list Event) (a : A) : exit_announced (t, Ret a).
Proof. intros err H. discriminate. Qed.

Lemma exit_announced_say {A} (t : list Event) (msg : string) (err : Error) :
  In msg fatal_messages ->
  exit_announced ((t ++ [EvWriteln msg; EvExit err])%list, @Exited A err).
Proof. intros Hin err' [= <-]. exists t, msg. auto. Qed.

Lemma doLogin_never_exits (w : World) (err : Error) : result (doLogin w) <> Exited err.
Proof.
  rewrite doLogin_unfold.
  destruct (Listen w _ _); [discriminate|].
  destruct (pkce.CreateCodeVerifierWithLength _ _ _); [discriminate|].
  cbv zeta. cbn [result snd]. rewrite launch_result.
  destruct (OpenURL w _); [discriminate|].
  destruct (callback w); [|discriminate].
  destruct (nonempty _); [|discriminate].
  rewrite codeToToken_result. discriminate.
Qed.

(** X22: every exit of [Authenticate] is announced.  When a run ends in
    an exit, its last two events are a message naming the stage that failed
    (the STS session, the login, the credential exchange or the JSON
    encoding) and the exit with the error of that stage. *)
Theorem every_exit_is_announced (w : World) (roleArn : string) (d : Z)
    (useSecret asJson : bool) (err : Error) :
  result (Authenticate w roleArn d useSecret asJson) = Exited err ->
  exists pre msg,
    In msg ["Failed to create aws client session";
            "Failed to login the OIDC provider";
            "Failed to get aws credentials with OIDC";
            "Unexpected AWS credential response"] /\
    trace (Authenticate w roleArn d useSecret asJson) =
      (pre ++ [EvWriteln msg; EvExit err])%list.
Proof.
  revert err. change (exit_announced (Authenticate w roleArn d useSecret asJson)).
  rewrite Authenticate_stages.
  apply exit_announced_bind.
  { unfold lookup_secret. destruct useSecret; [rewrite bind_emit|];
      apply exit_announced_ret. }
  intros p. apply exit_announced_bind.
  { unfold isValid. destruct (fst p) as [cred|]; [|apply exit_announced_ret].
    destruct (NewSession w) as [e|].
    - apply (exit_announced_say [EvNewSession]). cbn. auto.
    - destruct (GetCallerIdentity w _ _ _); apply exit_announced_ret. }
  intros valid. apply exit_announced_bind.
  - destruct (negb valid || _); [|apply exit_announced_ret].
    unfold login_and_exchange. apply exit_announced_bind.
    { intros e H. exfalso. eapply doLogin_never_exits; eauto. }
    intros r. apply exit_announced_bind.
    { destruct r as [e|tok]; [|apply exit_announced_ret].
      apply (exit_announced_say []). cbn. auto. }
    intros tok. unfold Writeln, Traceln. rewrite !bind_emit.
    destruct (GetCredentialsWithOIDC w _ _ _) as [e|cred].
    + apply (exit_announced_say [_; _; _]). cbn. auto.
    + destruct useSecret; apply exit_announced_ret.
  - intros c. unfold output. destruct c as [c|]; [|intros e H; discriminate].
    destruct asJson; [destruct (Marshal w _) as [e|s]|].
    + apply (exit_announced_say []). cbn. auto 10.
    + apply exit_announced_ret.
    + apply exit_announced_ret.
Qed.

Lemma every_exit_is_announced_witness :
  result (Authenticate Sample.headless "" 0 false false) =
    Exited "Login failed, can't retrieve authorization code" /\
  exists pre msg,
    In msg fatal_messages /\
    trace (Authenticate Sample.headless "" 0 false false) =
    (pre ++ [EvWriteln msg; EvExit "Login failed, can't retrieve authorization code"])%list.
Proof.
  assert (H : result (Authenticate Sample.headless "" 0 false false) =
              Exited "Login failed, can't retrieve authorization code")
    by (vm_compute; reflexivity).
  split; [exact H|].
  exact (every_exit_is_announced Sample.headless "" 0 false false _ H).
Defined.

(** ** How a run can end *)

(** X23: a run of [Authenticate] ends normally, in an exit, or waiting for
    the callback; the credential it writes to at the output is never nil,
    because the login branch is skipped only for a credential the identity
    check accepted and is left only with a credential from the exchange. *)
Theorem run_ends_without_nil_dereference (w : World) (roleArn : string) (d : Z)
    (useSecret asJson : bool) :
  let r := result (Authenticate w roleArn d useSecret asJson) in
  r = Ret tt \/ (exists err, r = Exited err) \/ r = Blocked.
Proof.
  cbv zeta. pose proof (Authenticate_no_nil_dereference w roleArn d useSecret asJson) as H.
  destruct (result (Authenticate w roleArn d useSecret asJson)) as [[]| | |]; eauto.
  congruence.
Qed.
